(** * Booking backend: pool, conference hall and hotel controllers

    A shallow embedding of the Express/Mongoose controllers of the booking
    backend.  A MongoDB collection is a list of documents in insertion order,
    a request handler is a function from the database to a response and a
    new database, early [return res.status(..).json(..)] and thrown Mongoose
    errors are outcomes of a small handler monad.

    Conventions of the embedding:
    - JS numbers are integers ([Z]); instants ([Date]) are milliseconds;
      [setHours(0,0,0,0)] is truncation to a multiple of one day.
    - a text field of a request body is a [string] of ASCII characters, the
      empty string standing for an absent field as well (both are falsy in
      JS);
    - the [createdAt]/[updatedAt] timestamps and [populate] are left out;
    - the clock, the pseudo-random draw and the acting user are inputs. *)

From Stdlib Require Import ZArith List String Ascii Bool Lia DecimalString.
Import ListNotations.
Open Scope string_scope.
Open Scope list_scope.
Open Scope Z_scope.

(** ** JavaScript helpers *)

Definition string_of_Z (z : Z) : string := NilZero.string_of_int (Z.to_int z).

(** [!!s] for a string. *)
Definition truthy (s : string) : bool := negb (s =? "")%string.

(** [a || b] on strings. *)
Definition orElse (a b : string) : string := if truthy a then a else b.

(** [s] between double quotes. *)
Definition quoted (s : string) : string :=
  (String "034"%char s ++ String "034"%char EmptyString)%string.

(** [list.includes(s)]. *)
Definition includes (l : list string) (s : string) : bool :=
  existsb (String.eqb s) l.

(** [list.join(', ')]. *)
Definition join (l : list string) : string := String.concat ", " l.

(** [s.slice(-6)]. *)
Definition slice_last6 (s : string) : string :=
  substring (String.length s - 6)%nat 6 s.

Definition isSpace (c : ascii) : bool :=
  let n := nat_of_ascii c in
  (((9 <=? n) && (n <=? 13)) || (n =? 32))%nat.

Fixpoint trimStart (s : string) : string :=
  match s with
  | String c s' => if isSpace c then trimStart s' else s
  | EmptyString => EmptyString
  end.

Fixpoint trimEnd (s : string) : string :=
  match s with
  | String c s' =>
      let r := trimEnd s' in
      if isSpace c && (r =? "")%string then EmptyString else String c r
  | EmptyString => EmptyString
  end.

Definition trim (s : string) : string := trimEnd (trimStart s).

Definition lowerChar (c : ascii) : ascii :=
  let n := nat_of_ascii c in
  if ((65 <=? n) && (n <=? 90))%nat then ascii_of_nat (n + 32) else c.

Fixpoint toLowerCase (s : string) : string :=
  match s with
  | String c s' => String (lowerChar c) (toLowerCase s')
  | EmptyString => EmptyString
  end.

(** The schema's e-mail pattern [/^\S+@\S+\.\S+$/]: no white space, an [@]
    after at least one character, and after it a dot with at least one
    character on each side. *)
Fixpoint noSpace (s : string) : bool :=
  match s with
  | String c s' => negb (isSpace c) && noSpace s'
  | EmptyString => true
  end.

Fixpoint dotBeforeLast (s : string) : bool :=
  match s with
  | String c s' => (Ascii.eqb c "." && truthy s') || dotBeforeLast s'
  | EmptyString => false
  end.

Definition dotInside (s : string) : bool :=
  match s with
  | String _ s' => dotBeforeLast s'
  | EmptyString => false
  end.

Fixpoint atBefore (s : string) : bool :=
  match s with
  | String c s' => (Ascii.eqb c "@" && dotInside s') || atBefore s'
  | EmptyString => false
  end.

Definition emailMatches (s : string) : bool :=
  noSpace s &&
  match s with
  | String _ s' => atBefore s'
  | EmptyString => false
  end.

(** [`${prefix}-${Date.now().toString().slice(-6)}-${count + 1}`]. *)
Definition bookingNumberOf (prefix : string) (now count : Z) : string :=
  (prefix ++ "-" ++ slice_last6 (string_of_Z now) ++ "-"
   ++ string_of_Z (count + 1))%string.

Definition dayMs : Z := 24 * 60 * 60 * 1000.

(** [d.setHours(0, 0, 0, 0)] and [d.setHours(23, 59, 59, 999)]. *)
Definition startOfDay (t : Z) : Z := t - t mod dayMs.
Definition endOfDay (t : Z) : Z := startOfDay t + (dayMs - 1).

(** ** Mongoose schema validators

    A validator yields the message of the first failing rule of a path. *)

Definition required (v msg : string) : list string :=
  if truthy v then [] else [msg].

Definition enumMessage (path v : string) : string :=
  ("`" ++ v ++ "` is not a valid enum value for path `" ++ path ++ "`.")%string.

Definition requiredEnum (path v msg : string) (values : list string)
  : list string :=
  if negb (truthy v) then [msg]
  else if includes values v then [] else [enumMessage path v].

Definition optionalEnum (path v : string) (values : list string)
  : list string :=
  if includes values v then [] else [enumMessage path v].

Definition minMax (v lo hi : Z) (msgLo msgHi : string) : list string :=
  if v <? lo then [msgLo] else if hi <? v then [msgHi] else [].

Definition atLeast (v lo : Z) (msg : string) : list string :=
  if v <? lo then [msg] else [].

Definition requiredEmail (v : string) : list string :=
  if negb (truthy v) then ["Email is required"]
  else if emailMatches v then [] else ["Please enter a valid email"].

Definition ObjectId := nat.
Bind Scope nat_scope with ObjectId.

(** ** models/TimeSlot.js *)
Module TimeSlot.
Record t := mk {
  _id : ObjectId;
  slotId : string;
  label : string;
  value : string;
  startTime : string;
  endTime : string;
  maxCapacity : Z;
  currentBookings : Z;
  isActive : bool
}.

Definition validate (d : t) : list string :=
  required (slotId d) "Slot ID is required"
  ++ required (label d) "Label is required"
  ++ required (value d) "Value is required"
  ++ required (startTime d) "Start time is required"
  ++ required (endTime d) "End time is required"
  ++ atLeast (maxCapacity d) 1 "Capacity must be at least 1".

(** The two unique indexes, [slotId] and [value]. *)
Definition duplicate (a b : t) : bool :=
  (slotId a =? slotId b)%string || (value a =? value b)%string.

(** The virtual [available]. *)
Definition available (d : t) : Z := maxCapacity d - currentBookings d.

Definition set_label (v : string) (d : t) : t :=
  mk (_id d) (slotId d) v (value d) (startTime d) (endTime d)
     (maxCapacity d) (currentBookings d) (isActive d).
Definition set_maxCapacity (v : Z) (d : t) : t :=
  mk (_id d) (slotId d) (label d) (value d) (startTime d) (endTime d)
     v (currentBookings d) (isActive d).
Definition set_currentBookings (v : Z) (d : t) : t :=
  mk (_id d) (slotId d) (label d) (value d) (startTime d) (endTime d)
     (maxCapacity d) v (isActive d).
Definition set_isActive (v : bool) (d : t) : t :=
  mk (_id d) (slotId d) (label d) (value d) (startTime d) (endTime d)
     (maxCapacity d) (currentBookings d) v.
End TimeSlot.

(** ** models/TicketPrice.js *)
Module TicketPrice.
Record t := mk {
  _id : ObjectId;
  passType : string;
  price : Z;
  description : string;
  maxPersons : Z;
  isActive : bool
}.
End TicketPrice.

(** ** models/Pool.js *)
Module Pool.
Record t := mk {
  _id : ObjectId;
  customerName : string;
  email : string;
  phone : string;
  date : Z;
  timeSlot : string;
  passType : string;
  persons : Z;
  amount : Z;
  paymentStatus : string;
  bookingNumber : string;
  notes : string;
  createdBy : ObjectId
}.

Definition timeSlots : list string :=
  ["06:00-09:00"; "09:00-12:00"; "12:00-15:00"; "15:00-18:00"; "18:00-21:00"].
Definition passTypes : list string := ["hourly"; "daily"; "family"].
Definition paymentStatuses : list string := ["paid"; "pending"; "cancelled"].

(** The schema setters ([trim], [lowercase]). *)
Definition cast (d : t) : t :=
  mk (_id d) (trim (customerName d)) (toLowerCase (trim (email d)))
     (trim (phone d)) (date d) (timeSlot d) (passType d) (persons d)
     (amount d) (paymentStatus d) (bookingNumber d) (trim (notes d))
     (createdBy d).

Definition validate (d : t) : list string :=
  required (customerName d) "Customer name is required"
  ++ requiredEmail (email d)
  ++ required (phone d) "Phone number is required"
  ++ requiredEnum "timeSlot" (timeSlot d) "Time slot is required" timeSlots
  ++ requiredEnum "passType" (passType d) "Pass type is required" passTypes
  ++ minMax (persons d) 1 10 "At least 1 person required"
       "Maximum 10 persons per booking"
  ++ optionalEnum "paymentStatus" (paymentStatus d) paymentStatuses.

(** The unique index on [bookingNumber]. *)
Definition duplicate (a b : t) : bool :=
  (bookingNumber a =? bookingNumber b)%string.

Definition set_paymentStatus (v : string) (d : t) : t :=
  mk (_id d) (customerName d) (email d) (phone d) (date d) (timeSlot d)
     (passType d) (persons d) (amount d) v (bookingNumber d) (notes d)
     (createdBy d).
End Pool.

(** ** models/Service.js *)
Module Service.
Record t := mk {
  _id : ObjectId;
  name : string;
  description : string;
  price : Z;
  category : string;
  isAvailable : bool
}.

Definition categories : list string :=
  ["food"; "beverage"; "spa"; "laundry"; "transport"; "other"].

Definition validate (d : t) : list string :=
  required (name d) "Service name is required"
  ++ required (description d) "Description is required"
  ++ atLeast (price d) 0 "Price cannot be negative"
  ++ optionalEnum "category" (category d) categories.

Definition duplicate (a b : t) : bool := (name a =? name b)%string.
End Service.

(** ** models/Conference.js *)
Module Conference.
Record t := mk {
  _id : ObjectId;
  eventName : string;
  clientName : string;
  company : string;
  email : string;
  phone : string;
  hallType : string;
  startDate : Z;
  endDate : Z;
  startTime : string;
  endTime : string;
  eventType : string;
  attendees : Z;
  cateringRequired : bool;
  equipmentRequired : bool;
  specialRequirements : string;
  amount : Z;
  advancePaid : Z;
  paymentStatus : string;
  bookingStatus : string;
  bookingNumber : string;
  notes : string;
  createdBy : ObjectId;
  approvedBy : option ObjectId;
  approvedAt : option Z;
  invoiceNumber : option string
}.

Definition hallTypes : list string :=
  ["hall_a"; "hall_b"; "grand_hall"; "meeting_room_1"; "meeting_room_2"].
Definition eventTypes : list string :=
  ["meeting"; "seminar"; "conference"; "wedding"; "party"; "training";
   "exhibition"].
Definition paymentStatuses : list string :=
  ["pending"; "partial"; "paid"; "cancelled"; "refunded"].
Definition bookingStatuses : list string :=
  ["pending"; "approved"; "confirmed"; "completed"; "cancelled"].

Definition cast (d : t) : t :=
  mk (_id d) (trim (eventName d)) (trim (clientName d)) (trim (company d))
     (toLowerCase (trim (email d))) (trim (phone d)) (hallType d)
     (startDate d) (endDate d) (startTime d) (endTime d) (eventType d)
     (attendees d) (cateringRequired d) (equipmentRequired d)
     (trim (specialRequirements d)) (amount d) (advancePaid d)
     (paymentStatus d) (bookingStatus d) (bookingNumber d) (trim (notes d))
     (createdBy d) (approvedBy d) (approvedAt d) (invoiceNumber d).

Definition validate (d : t) : list string :=
  required (eventName d) "Event name is required"
  ++ required (clientName d) "Client name is required"
  ++ requiredEmail (email d)
  ++ required (phone d) "Phone number is required"
  ++ requiredEnum "hallType" (hallType d) "Hall type is required" hallTypes
  ++ required (startTime d) "Start time is required"
  ++ required (endTime d) "End time is required"
  ++ requiredEnum "eventType" (eventType d) "Event type is required"
       eventTypes
  ++ minMax (attendees d) 1 500 "At least 1 attendee required"
       "Maximum 500 attendees per booking"
  ++ optionalEnum "paymentStatus" (paymentStatus d) paymentStatuses
  ++ optionalEnum "bookingStatus" (bookingStatus d) bookingStatuses.

Definition duplicate (a b : t) : bool :=
  (bookingNumber a =? bookingNumber b)%string.

Definition set_bookingStatus (v : string) (d : t) : t :=
  mk (_id d) (eventName d) (clientName d) (company d) (email d) (phone d)
     (hallType d) (startDate d) (endDate d) (startTime d) (endTime d)
     (eventType d) (attendees d) (cateringRequired d) (equipmentRequired d)
     (specialRequirements d) (amount d) (advancePaid d) (paymentStatus d)
     v (bookingNumber d) (notes d) (createdBy d) (approvedBy d)
     (approvedAt d) (invoiceNumber d).
Definition set_paymentStatus (v : string) (d : t) : t :=
  mk (_id d) (eventName d) (clientName d) (company d) (email d) (phone d)
     (hallType d) (startDate d) (endDate d) (startTime d) (endTime d)
     (eventType d) (attendees d) (cateringRequired d) (equipmentRequired d)
     (specialRequirements d) (amount d) (advancePaid d) v
     (bookingStatus d) (bookingNumber d) (notes d) (createdBy d)
     (approvedBy d) (approvedAt d) (invoiceNumber d).
Definition set_approvedBy (v : option ObjectId) (d : t) : t :=
  mk (_id d) (eventName d) (clientName d) (company d) (email d) (phone d)
     (hallType d) (startDate d) (endDate d) (startTime d) (endTime d)
     (eventType d) (attendees d) (cateringRequired d) (equipmentRequired d)
     (specialRequirements d) (amount d) (advancePaid d) (paymentStatus d)
     (bookingStatus d) (bookingNumber d) (notes d) (createdBy d) v
     (approvedAt d) (invoiceNumber d).
Definition set_approvedAt (v : option Z) (d : t) : t :=
  mk (_id d) (eventName d) (clientName d) (company d) (email d) (phone d)
     (hallType d) (startDate d) (endDate d) (startTime d) (endTime d)
     (eventType d) (attendees d) (cateringRequired d) (equipmentRequired d)
     (specialRequirements d) (amount d) (advancePaid d) (paymentStatus d)
     (bookingStatus d) (bookingNumber d) (notes d) (createdBy d)
     (approvedBy d) v (invoiceNumber d).
Definition set_invoiceNumber (v : option string) (d : t) : t :=
  mk (_id d) (eventName d) (clientName d) (company d) (email d) (phone d)
     (hallType d) (startDate d) (endDate d) (startTime d) (endTime d)
     (eventType d) (attendees d) (cateringRequired d) (equipmentRequired d)
     (specialRequirements d) (amount d) (advancePaid d) (paymentStatus d)
     (bookingStatus d) (bookingNumber d) (notes d) (createdBy d)
     (approvedBy d) (approvedAt d) v.
End Conference.

(** ** models/ConferenceHall.js *)
Module ConferenceHall.
Record t := mk {
  _id : ObjectId;
  hallId : string;
  name : string;
  value : string;
  capacity : Z;
  hourlyRate : Z;
  dailyRate : Z;
  description : string;
  isActive : bool;
  currentBookings : Z;
  maxDailyBookings : Z
}.
End ConferenceHall.

(** ** models/Reservation.js *)
Module Reservation.
Record charge := mkCharge {
  service : string;
  chargeAmount : Z;
  quantity : Z
}.

Record t := mk {
  _id : ObjectId;
  guestName : string;
  email : string;
  phone : string;
  checkIn : Z;
  checkOut : Z;
  actualCheckIn : option Z;
  actualCheckOut : option Z;
  roomType : string;
  roomNumber : string;
  adults : Z;
  children : Z;
  totalNights : Z;
  roomRate : Z;
  extraCharges : list charge;
  subTotal : Z;
  tax : Z;
  discount : Z;
  totalAmount : Z;
  paymentStatus : string;
  reservationStatus : string;
  reservationNumber : string;
  specialRequests : string;
  createdBy : ObjectId
}.

Definition paymentStatuses : list string := ["paid"; "pending"; "partial"].
Definition reservationStatuses : list string :=
  ["confirmed"; "checked_in"; "checked_out"; "cancelled"; "no_show"].

Definition cast (d : t) : t :=
  mk (_id d) (trim (guestName d)) (toLowerCase (trim (email d)))
     (trim (phone d)) (checkIn d) (checkOut d) (actualCheckIn d)
     (actualCheckOut d) (roomType d) (roomNumber d) (adults d) (children d)
     (totalNights d) (roomRate d) (extraCharges d) (subTotal d) (tax d)
     (discount d) (totalAmount d) (paymentStatus d) (reservationStatus d)
     (reservationNumber d) (trim (specialRequests d)) (createdBy d).

Definition validate (d : t) : list string :=
  required (guestName d) "Guest name is required"
  ++ requiredEmail (email d)
  ++ required (phone d) "Phone number is required"
  ++ required (roomType d) "Room type is required"
  ++ required (roomNumber d) "Room number is required"
  ++ minMax (adults d) 1 4 "At least 1 adult required"
       "Maximum 4 adults per room"
  ++ minMax (children d) 0 3 "Children cannot be negative"
       "Maximum 3 children per room"
  ++ optionalEnum "paymentStatus" (paymentStatus d) paymentStatuses
  ++ optionalEnum "reservationStatus" (reservationStatus d)
       reservationStatuses.

Definition duplicate (a b : t) : bool :=
  (reservationNumber a =? reservationNumber b)%string.

Definition set_status (st : string) (out : option Z) (d : t) : t :=
  mk (_id d) (guestName d) (email d) (phone d) (checkIn d) (checkOut d)
     (actualCheckIn d) out (roomType d) (roomNumber d) (adults d)
     (children d) (totalNights d) (roomRate d) (extraCharges d)
     (subTotal d) (tax d) (discount d) (totalAmount d) (paymentStatus d)
     st (reservationNumber d) (specialRequests d) (createdBy d).
End Reservation.

(** ** models/Room.js *)
Module Room.
Record t := mk {
  _id : ObjectId;
  roomNumber : string;
  roomType : string;
  floor : Z;
  status : string;
  price : Z;
  isActive : bool
}.

Definition statuses : list string :=
  ["available"; "occupied"; "maintenance"; "cleaning"].

Definition validate (d : t) : list string :=
  required (roomNumber d) "Room number is required"
  ++ required (roomType d) "Room type is required"
  ++ atLeast (floor d) 1 "Floor must be at least 1"
  ++ optionalEnum "status" (status d) statuses.

Definition set_status (v : string) (d : t) : t :=
  mk (_id d) (roomNumber d) (roomType d) (floor d) v (price d) (isActive d).
End Room.

(** ** models/RoomType.js *)
Module RoomType.
Record t := mk {
  _id : ObjectId;
  name : string;
  description : string;
  basePrice : Z;
  maxOccupancy : Z;
  isActive : bool
}.
End RoomType.

(** ** The database: one list per collection, in insertion order *)
Record Db := mkDb {
  timeSlots : list TimeSlot.t;
  ticketPrices : list TicketPrice.t;
  pools : list Pool.t;
  services : list Service.t;
  conferences : list Conference.t;
  conferenceHalls : list ConferenceHall.t;
  reservations : list Reservation.t;
  rooms : list Room.t;
  roomTypes : list RoomType.t;
  nextId : ObjectId
}.

Definition set_timeSlots (l : list TimeSlot.t) (db : Db) : Db :=
  mkDb l (ticketPrices db) (pools db) (services db) (conferences db)
       (conferenceHalls db) (reservations db) (rooms db) (roomTypes db)
       (nextId db).
Definition set_pools (l : list Pool.t) (db : Db) : Db :=
  mkDb (timeSlots db) (ticketPrices db) l (services db) (conferences db)
       (conferenceHalls db) (reservations db) (rooms db) (roomTypes db)
       (nextId db).
Definition set_services (l : list Service.t) (db : Db) : Db :=
  mkDb (timeSlots db) (ticketPrices db) (pools db) l (conferences db)
       (conferenceHalls db) (reservations db) (rooms db) (roomTypes db)
       (nextId db).
Definition set_conferences (l : list Conference.t) (db : Db) : Db :=
  mkDb (timeSlots db) (ticketPrices db) (pools db) (services db) l
       (conferenceHalls db) (reservations db) (rooms db) (roomTypes db)
       (nextId db).
Definition set_reservations (l : list Reservation.t) (db : Db) : Db :=
  mkDb (timeSlots db) (ticketPrices db) (pools db) (services db)
       (conferences db) (conferenceHalls db) l (rooms db) (roomTypes db)
       (nextId db).
Definition set_rooms (l : list Room.t) (db : Db) : Db :=
  mkDb (timeSlots db) (ticketPrices db) (pools db) (services db)
       (conferences db) (conferenceHalls db) (reservations db) l
       (roomTypes db) (nextId db).
Definition set_nextId (n : ObjectId) (db : Db) : Db :=
  mkDb (timeSlots db) (ticketPrices db) (pools db) (services db)
       (conferences db) (conferenceHalls db) (reservations db) (rooms db)
       (roomTypes db) n.

(** ** Responses, thrown errors and the handler monad *)

(** The JSON envelope [{success, message}] with its HTTP status. *)
Record Response := mkResponse {
  status : Z;
  success : bool;
  message : string
}.

Definition ok (code : Z) (msg : string) : Response := mkResponse code true msg.
Definition fail (code : Z) (msg : string) : Response :=
  mkResponse code false msg.

Inductive MongooseError :=
| ValidationError (messages : list string)
| MongoServerError (code : Z).

(** A handler step either has already sent its response ([return
    res.status(..).json(..)]), has thrown, or goes on with a value. *)
Inductive Outcome (A : Type) :=
| Sent (r : Response)
| Thrown (e : MongooseError)
| Value (a : A).
Arguments Sent {A} r.
Arguments Thrown {A} e.
Arguments Value {A} a.

Definition Handler (A : Type) : Type := Db -> Outcome A * Db.

Definition ret {A} (a : A) : Handler A := fun db => (Value a, db).

Definition bind {A B} (m : Handler A) (k : A -> Handler B) : Handler B :=
  fun db =>
    match m db with
    | (Value a, db') => k a db'
    | (Sent r, db') => (Sent r, db')
    | (Thrown e, db') => (Thrown e, db')
    end.

Definition send {A} (r : Response) : Handler A := fun db => (Sent r, db).
Definition throw {A} (e : MongooseError) : Handler A :=
  fun db => (Thrown e, db).

Notation "x <- m ;; k" := (bind m (fun x => k))
  (at level 100, m at next level, right associativity).
Notation "m ;;; k" := (bind m (fun _ => k))
  (at level 100, right associativity).

(** [try { ... } catch (error) { ... }] around a handler body. *)
Definition tryCatch (body : Handler Response)
  (handle : MongooseError -> Response) (db : Db) : Response * Db :=
  match body db with
  | (Value r, db') => (r, db')
  | (Sent r, db') => (r, db')
  | (Thrown e, db') => (handle e, db')
  end.

Definition serverError : Response := fail 500 "Server error".

(** The [catch] blocks that map a validation error to a 400. *)
Definition catchValidation (e : MongooseError) : Response :=
  match e with
  | ValidationError messages => fail 400 (join messages)
  | MongoServerError _ => serverError
  end.

(** ** Mongoose models over the database *)

Class Collection (A : Type) := {
  doc_id : A -> ObjectId;
  docs : Db -> list A
}.

Class Model (A : Type) `{Collection A} := {
  set_docs : list A -> Db -> Db;
  schema_cast : A -> A;
  schema_validate : A -> list string;
  schema_duplicate : A -> A -> bool
}.

#[export] Instance TimeSlot_Collection : Collection TimeSlot.t :=
  {| doc_id := TimeSlot._id; docs := timeSlots |}.
#[export] Instance TimeSlot_Model : Model TimeSlot.t :=
  {| set_docs := set_timeSlots; schema_cast := fun d => d;
     schema_validate := TimeSlot.validate;
     schema_duplicate := TimeSlot.duplicate |}.

#[export] Instance TicketPrice_Collection : Collection TicketPrice.t :=
  {| doc_id := TicketPrice._id; docs := ticketPrices |}.

#[export] Instance Pool_Collection : Collection Pool.t :=
  {| doc_id := Pool._id; docs := pools |}.
#[export] Instance Pool_Model : Model Pool.t :=
  {| set_docs := set_pools; schema_cast := Pool.cast;
     schema_validate := Pool.validate;
     schema_duplicate := Pool.duplicate |}.

#[export] Instance Service_Collection : Collection Service.t :=
  {| doc_id := Service._id; docs := services |}.
#[export] Instance Service_Model : Model Service.t :=
  {| set_docs := set_services; schema_cast := fun d => d;
     schema_validate := Service.validate;
     schema_duplicate := Service.duplicate |}.

#[export] Instance Conference_Collection : Collection Conference.t :=
  {| doc_id := Conference._id; docs := conferences |}.
#[export] Instance Conference_Model : Model Conference.t :=
  {| set_docs := set_conferences; schema_cast := Conference.cast;
     schema_validate := Conference.validate;
     schema_duplicate := Conference.duplicate |}.

#[export] Instance ConferenceHall_Collection : Collection ConferenceHall.t :=
  {| doc_id := ConferenceHall._id; docs := conferenceHalls |}.

#[export] Instance Reservation_Collection : Collection Reservation.t :=
  {| doc_id := Reservation._id; docs := reservations |}.
#[export] Instance Reservation_Model : Model Reservation.t :=
  {| set_docs := set_reservations; schema_cast := Reservation.cast;
     schema_validate := Reservation.validate;
     schema_duplicate := Reservation.duplicate |}.

#[export] Instance Room_Collection : Collection Room.t :=
  {| doc_id := Room._id; docs := rooms |}.
#[export] Instance Room_Model : Model Room.t :=
  {| set_docs := set_rooms; schema_cast := fun d => d;
     schema_validate := Room.validate;
     schema_duplicate := fun a b =>
       (Room.roomNumber a =? Room.roomNumber b)%string |}.

#[export] Instance RoomType_Collection : Collection RoomType.t :=
  {| doc_id := RoomType._id; docs := roomTypes |}.

(** A collection after the stored document with the [_id] of [d] has been
    overwritten by [d]; an [_id] is unique in its collection. *)
Definition replaceBy {A : Type} (key : A -> ObjectId) (d : A) (l : list A)
  : list A :=
  map (fun x => if (key x =? key d)%nat then d else x) l.

Section Queries.
Context {A : Type} `{Model A}.

(** [Model.find(query)]: the matching documents. *)
Definition find (query : A -> bool) : Handler (list A) :=
  fun db => (Value (filter query (docs db)), db).

(** [Model.findOne(query)]: the first matching document. *)
Definition findOne (query : A -> bool) : Handler (option A) :=
  fun db => (Value (List.find query (docs db)), db).

(** [Model.findById(id)]. *)
Definition findById (id : ObjectId) : Handler (option A) :=
  findOne (fun d => (doc_id d =? id)%nat).

(** [Model.countDocuments()]. *)
Definition countDocuments : Handler Z :=
  fun db => (Value (Z.of_nat (List.length (docs (A := A) db))), db).

(** [Model.create(data)]: the setters run, the schema is validated, the
    unique indexes are checked, and the document gets a fresh [_id]. *)
Definition create (data : ObjectId -> A) : Handler A :=
  fun db =>
    let d := schema_cast (data (nextId db)) in
    match schema_validate d with
    | [] =>
        if existsb (schema_duplicate d) (docs db)
        then (Thrown (MongoServerError 11000), db)
        else (Value d, set_nextId (S (nextId db))
                         (set_docs (docs db ++ [d]) db))
    | messages => (Thrown (ValidationError messages), db)
    end.

(** [doc.save()] of a loaded document: validated, then written over the
    stored document of the same [_id].  No handler below changes the value
    of a uniquely indexed path of a loaded document. *)
Definition save (d : A) : Handler unit :=
  fun db =>
    match schema_validate d with
    | [] =>
        (Value tt, set_docs (replaceBy doc_id d (docs db)) db)
    | messages => (Thrown (ValidationError messages), db)
    end.

(** [doc.deleteOne()]. *)
Definition deleteOne (d : A) : Handler unit :=
  fun db =>
    (Value tt,
     set_docs (filter (fun x => negb (doc_id x =? doc_id d)%nat) (docs db))
              db).
End Queries.

(** Read-only lookups in collections the controllers never write. *)
Definition lookup {A} `{Collection A} (query : A -> bool)
  : Handler (option A) :=
  fun db => (Value (List.find query (docs db)), db).

(** ** controllers/timeSlotController.js *)
Module TimeSlotController.
Import TimeSlot.

Record UpdateBody := mkUpdateBody {
  body_label : string;
  body_maxCapacity : option Z;
  body_isActive : option bool
}.

Definition updateTimeSlot (id : ObjectId) (body : UpdateBody)
  : Db -> Response * Db :=
  tryCatch
    (found <- findById id ;;
     match found with
     | None => send (fail 404 "Time slot not found")
     | Some timeSlot =>
         let timeSlot :=
           if truthy (body_label body)
           then set_label (body_label body) timeSlot else timeSlot in
         timeSlot <-
           match body_maxCapacity body with
           | Some maxCapacity =>
               if maxCapacity <? currentBookings timeSlot
               then send (fail 400
                 ("Cannot set capacity lower than current bookings ("
                  ++ string_of_Z (currentBookings timeSlot) ++ ")")%string)
               else ret (set_maxCapacity maxCapacity timeSlot)
           | None => ret timeSlot
           end ;;
         let timeSlot :=
           match body_isActive body with
           | Some isActive => set_isActive isActive timeSlot
           | None => timeSlot
           end in
         save timeSlot ;;;
         ret (ok 200 "Time slot updated successfully")
     end)
    catchValidation.

Record SlotData := mkSlotData {
  d_slotId : string;
  d_label : string;
  d_value : string;
  d_startTime : string;
  d_endTime : string;
  d_maxCapacity : Z;
  d_currentBookings : Z
}.

Definition defaultSlots : list SlotData :=
  [ mkSlotData "1" "06:00 AM - 09:00 AM" "06:00-09:00" "06:00" "09:00" 50 12;
    mkSlotData "2" "09:00 AM - 12:00 PM" "09:00-12:00" "09:00" "12:00" 50 8;
    mkSlotData "3" "12:00 PM - 03:00 PM" "12:00-15:00" "12:00" "15:00" 50 15;
    mkSlotData "4" "03:00 PM - 06:00 PM" "15:00-18:00" "15:00" "18:00" 50 20;
    mkSlotData "5" "06:00 PM - 09:00 PM" "18:00-21:00" "18:00" "21:00" 50 25
  ].

(** [TimeSlot.create(slotData)]; [isActive] takes its default. *)
Definition newSlot (slotData : SlotData) (id : ObjectId) : TimeSlot.t :=
  mk id (d_slotId slotData) (d_label slotData) (d_value slotData)
     (d_startTime slotData) (d_endTime slotData) (d_maxCapacity slotData)
     (d_currentBookings slotData) true.

(** The body of [for (const slotData of defaultSlots)]. *)
Definition initializeSlot (slotData : SlotData) : Handler TimeSlot.t :=
  existing <- findOne (fun s => (value s =? d_value slotData)%string) ;;
  match existing with
  | None => create (newSlot slotData)
  | Some existing =>
      let existing :=
        set_currentBookings (d_currentBookings slotData)
          (set_maxCapacity (d_maxCapacity slotData) existing) in
      save existing ;;;
      ret existing
  end.

Fixpoint initializeAll (slots : list SlotData) (results : list TimeSlot.t)
  : Handler (list TimeSlot.t) :=
  match slots with
  | [] => ret results
  | slotData :: rest =>
      slot <- initializeSlot slotData ;;
      initializeAll rest (results ++ [slot])
  end.

Definition initializeTimeSlots : Db -> Response * Db :=
  tryCatch
    (initializeAll defaultSlots [] ;;;
     ret (ok 200 "Time slots initialized"))
    (fun _ => serverError).
End TimeSlotController.

(** ** controllers/poolController.js *)
Module PoolController.

Record CreateBody := mkCreateBody {
  customerName : string;
  email : string;
  phone : string;
  date : option Z;
  timeSlot : string;
  passType : string;
  persons : Z;
  paymentStatus : string;
  notes : string
}.

(** The query [{date: {$gte, $lte}, timeSlot, paymentStatus: {$ne:
    'cancelled'}}] on the day of [day]. *)
Definition sameDaySlot (day : Z) (slotValue : string) (b : Pool.t) : bool :=
  (startOfDay day <=? Pool.date b)
  && (Pool.date b <=? endOfDay day)
  && (Pool.timeSlot b =? slotValue)%string
  && negb (Pool.paymentStatus b =? "cancelled")%string.

(** [bookings.reduce((sum, b) => sum + b.persons, 0)]. *)
Definition totalPersons (bookings : list Pool.t) : Z :=
  fold_left (fun sum b => sum + Pool.persons b) bookings 0.

(** [!customerName || !email || !phone || !date || !timeSlot || !passType
    || !persons]. *)
Definition missingRequired (body : CreateBody) : bool :=
  negb (truthy (customerName body)) || negb (truthy (email body))
  || negb (truthy (phone body))
  || match date body with Some _ => false | None => true end
  || negb (truthy (timeSlot body)) || negb (truthy (passType body))
  || (persons body =? 0).

Definition createBooking (user : ObjectId) (now : Z) (body : CreateBody)
  : Db -> Response * Db :=
  tryCatch
    (if missingRequired body
     then send (fail 400 "Please provide all required fields")
     else
     match date body with
     | None => send (fail 400 "Please provide all required fields")
     | Some date =>
       found <- findOne
         (fun s => (TimeSlot.value s =? timeSlot body)%string) ;;
       match found with
       | None => send (fail 400 "Selected time slot is not available")
       | Some slot =>
         if negb (TimeSlot.isActive slot)
         then send (fail 400 "Selected time slot is not available")
         else
         existingBookings <- find (sameDaySlot date (timeSlot body)) ;;
         let totalBookedPersons := totalPersons existingBookings in
         let availableSpots := TimeSlot.maxCapacity slot - totalBookedPersons in
         if availableSpots <? persons body
         then send (fail 400
           ("Only " ++ string_of_Z availableSpots
            ++ " spots available in this slot")%string)
         else
         ticket <- lookup
           (fun t => (TicketPrice.passType t =? passType body)%string
                     && TicketPrice.isActive t) ;;
         match ticket with
         | None => send (fail 400 "Selected pass type is not available")
         | Some ticket =>
           if TicketPrice.maxPersons ticket <? persons body
           then send (fail 400
             ("Maximum " ++ string_of_Z (TicketPrice.maxPersons ticket)
              ++ " persons allowed for " ++ passType body ++ " pass")%string)
           else
           let amount :=
             if (passType body =? "family")%string
             then TicketPrice.price ticket
             else TicketPrice.price ticket * persons body in
           bookingCount <- countDocuments (A := Pool.t) ;;
           let bookingNumber := bookingNumberOf "PB" now bookingCount in
           create (fun id =>
             Pool.mk id (customerName body) (email body) (phone body)
               (startOfDay date) (timeSlot body) (passType body)
               (persons body) amount
               (orElse (paymentStatus body) "pending")
               bookingNumber (notes body) user) ;;;
           save (TimeSlot.set_currentBookings
                   (totalBookedPersons + persons body) slot) ;;;
           ret (ok 201 "Booking created successfully")
         end
       end
     end)
    catchValidation.

(** [slot.currentBookings = Math.max(0, slot.currentBookings - persons)]
    followed by [slot.save()], when the slot exists. *)
Definition releaseSlot (booking : Pool.t) : Handler unit :=
  found <- findOne
    (fun s => (TimeSlot.value s =? Pool.timeSlot booking)%string) ;;
  match found with
  | Some slot =>
      save (TimeSlot.set_currentBookings
              (Z.max 0 (TimeSlot.currentBookings slot - Pool.persons booking))
              slot)
  | None => ret tt
  end.

Definition deleteBooking (id : ObjectId) : Db -> Response * Db :=
  tryCatch
    (found <- findById id ;;
     match found with
     | None => send (fail 404 "Booking not found")
     | Some booking =>
         releaseSlot booking ;;;
         deleteOne booking ;;;
         ret (ok 200 "Booking deleted successfully")
     end)
    (fun _ => serverError).

(** The branch of [updatePaymentStatus] that brings a cancelled booking
    back: capacity is checked again over the other bookings of the day. *)
Definition reclaimSlot (booking : Pool.t) : Handler unit :=
  found <- findOne
    (fun s => (TimeSlot.value s =? Pool.timeSlot booking)%string) ;;
  match found with
  | Some slot =>
      existingBookings <- find
        (fun b => negb (Pool._id b =? Pool._id booking)%nat
                  && sameDaySlot (Pool.date booking) (Pool.timeSlot booking) b) ;;
      let totalBookedPersons := totalPersons existingBookings in
      let availableSpots := TimeSlot.maxCapacity slot - totalBookedPersons in
      if availableSpots <? Pool.persons booking
      then send (fail 400
        ("Slot is now full. Only " ++ string_of_Z availableSpots
         ++ " spots available")%string)
      else
        save (TimeSlot.set_currentBookings
                (totalBookedPersons + Pool.persons booking) slot)
  | None => ret tt
  end.

Definition updatePaymentStatus (id : ObjectId) (paymentStatus : string)
  : Db -> Response * Db :=
  tryCatch
    (if negb (truthy paymentStatus)
        || negb (includes ["paid"; "pending"; "cancelled"] paymentStatus)
     then send (fail 400 "Invalid payment status")
     else
     found <- findById id ;;
     match found with
     | None => send (fail 404 "Booking not found")
     | Some booking =>
         (if (paymentStatus =? "cancelled")%string
             && negb (Pool.paymentStatus booking =? "cancelled")%string
          then releaseSlot booking
          else if (Pool.paymentStatus booking =? "cancelled")%string
                  && negb (paymentStatus =? "cancelled")%string
          then reclaimSlot booking
          else ret tt) ;;;
         save (Pool.set_paymentStatus paymentStatus booking) ;;;
         ret (ok 200 "Payment status updated successfully")
     end)
    (fun _ => serverError).
(** The body of [PUT /api/pool/bookings/:id]; [u_date] is the body's [date]
    after [new Date(..)], [u_persons] is 0 when the field is absent. *)
Record UpdateBody := mkUpdateBody {
  u_customerName : string;
  u_email : string;
  u_phone : string;
  u_date : option Z;
  u_timeSlot : string;
  u_passType : string;
  u_persons : Z;
  u_paymentStatus : string;
  u_notes : option string
}.

(** [if (field) booking.field = field], the schema setters running on
    assignment. *)
Definition assignFields (body : UpdateBody) (b : Pool.t) : Pool.t :=
  Pool.mk (Pool._id b)
    (if truthy (u_customerName body) then trim (u_customerName body)
     else Pool.customerName b)
    (if truthy (u_email body) then toLowerCase (trim (u_email body))
     else Pool.email b)
    (if truthy (u_phone body) then trim (u_phone body) else Pool.phone b)
    (match u_date body with Some d => d | None => Pool.date b end)
    (if truthy (u_timeSlot body) then u_timeSlot body else Pool.timeSlot b)
    (if truthy (u_passType body) then u_passType body else Pool.passType b)
    (if u_persons body =? 0 then Pool.persons b else u_persons body)
    (Pool.amount b)
    (if truthy (u_paymentStatus body) then u_paymentStatus body
     else Pool.paymentStatus b)
    (Pool.bookingNumber b)
    (match u_notes body with Some n => trim n | None => Pool.notes b end)
    (Pool.createdBy b).

Definition set_amount (v : Z) (d : Pool.t) : Pool.t :=
  Pool.mk (Pool._id d) (Pool.customerName d) (Pool.email d) (Pool.phone d)
    (Pool.date d) (Pool.timeSlot d) (Pool.passType d) (Pool.persons d) v
    (Pool.paymentStatus d) (Pool.bookingNumber d) (Pool.notes d)
    (Pool.createdBy d).

(** [date !== oldDate]: the body's [date] is a string or [undefined], the
    stored one a [Date] object, so the two are never identical. *)
Definition dateDiffers : bool := true.

(** [if (passType || persons)]: the amount is computed again from the
    active ticket price, when there is one. *)
Definition recalculate (body : UpdateBody) (booking : Pool.t)
  : Handler Pool.t :=
  if truthy (u_passType body) || negb (u_persons body =? 0)
  then
    ticket <- lookup
      (fun t => (TicketPrice.passType t =? Pool.passType booking)%string
                && TicketPrice.isActive t) ;;
    match ticket with
    | Some ticket =>
        ret (set_amount
               (if (Pool.passType booking =? "family")%string
                then TicketPrice.price ticket
                else TicketPrice.price ticket * Pool.persons booking)
               booking)
    | None => ret booking
    end
  else ret booking.

Definition updateBooking (id : ObjectId) (body : UpdateBody)
  : Db -> Response * Db :=
  tryCatch
    (found <- findById id ;;
     match found with
     | None => send (fail 404 "Booking not found")
     | Some old =>
       let oldTimeSlot := Pool.timeSlot old in
       let oldPersons := Pool.persons old in
       let booking := assignFields body old in
       (if negb (u_timeSlot body =? oldTimeSlot)%string || dateDiffers
           || negb (u_persons body =? oldPersons)
        then
          (if truthy oldTimeSlot then releaseSlot old else ret tt) ;;;
          found <- findOne
            (fun s => (TimeSlot.value s =? Pool.timeSlot booking)%string) ;;
          match found with
          | None => send (fail 400 "Selected time slot is not available")
          | Some newSlot =>
            if negb (TimeSlot.isActive newSlot)
            then send (fail 400 "Selected time slot is not available")
            else
            existingBookings <- find
              (fun b => negb (Pool._id b =? Pool._id booking)%nat
                        && sameDaySlot (Pool.date booking)
                             (Pool.timeSlot booking) b) ;;
            let totalBookedPersons := totalPersons existingBookings in
            let availableSpots :=
              TimeSlot.maxCapacity newSlot - totalBookedPersons in
            if availableSpots <? Pool.persons booking
            then send (fail 400
              ("Only " ++ string_of_Z availableSpots
               ++ " spots available in this slot")%string)
            else
              save (TimeSlot.set_currentBookings
                      (totalBookedPersons + Pool.persons booking) newSlot)
          end
        else ret tt) ;;;
       booking <- recalculate body booking ;;
       save booking ;;;
       ret (ok 200 "Booking updated successfully")
     end)
    catchValidation.
End PoolController.

(** ** controllers/serviceController.js *)
Module ServiceController.
Import Service.

Record ServiceData := mkServiceData {
  d_name : string;
  d_description : string;
  d_price : Z;
  d_category : string
}.

Definition defaultServices : list ServiceData :=
  [ mkServiceData "Breakfast Buffet" "Continental breakfast buffet" 15 "food";
    mkServiceData "Lunch Special" "Daily lunch special from the restaurant"
      20 "food";
    mkServiceData "Dinner Package" "Three-course dinner package" 35 "food";
    mkServiceData "Room Service" "24-hour room service" 10 "food";
    mkServiceData "Mineral Water" "Bottled mineral water" 2 "beverage";
    mkServiceData "Soft Drinks" "Assorted soft drinks" 3 "beverage";
    mkServiceData "Wine Selection" "Premium wine selection" 25 "beverage";
    mkServiceData "Spa Treatment" "Relaxing spa treatment" 50 "spa";
    mkServiceData "Massage Therapy" "Professional massage therapy" 40 "spa";
    mkServiceData "Laundry Service" "Express laundry service" 15 "laundry";
    mkServiceData "Dry Cleaning" "Professional dry cleaning" 20 "laundry";
    mkServiceData "Airport Transfer" "Hotel to airport transfer" 25
      "transport";
    mkServiceData "City Tour" "Guided city tour" 30 "transport" ].

(** [Service.create(serviceData)]; [isAvailable] takes its default. *)
Definition newService (serviceData : ServiceData) (id : ObjectId)
  : Service.t :=
  mk id (d_name serviceData) (d_description serviceData)
     (d_price serviceData) (d_category serviceData) true.

(** [Object.assign(existing, serviceData)]. *)
Definition assign (existing : Service.t) (serviceData : ServiceData)
  : Service.t :=
  mk (_id existing) (d_name serviceData) (d_description serviceData)
     (d_price serviceData) (d_category serviceData) (isAvailable existing).

Definition initializeService (serviceData : ServiceData)
  : Handler Service.t :=
  existing <- findOne (fun s => (name s =? d_name serviceData)%string) ;;
  match existing with
  | None => create (newService serviceData)
  | Some existing =>
      let existing := assign existing serviceData in
      save existing ;;;
      ret existing
  end.

Fixpoint initializeAll (defaults : list ServiceData)
  (results : list Service.t) : Handler (list Service.t) :=
  match defaults with
  | [] => ret results
  | serviceData :: rest =>
      service <- initializeService serviceData ;;
      initializeAll rest (results ++ [service])
  end.

Definition initializeServices : Db -> Response * Db :=
  tryCatch
    (initializeAll defaultServices [] ;;;
     ret (ok 200 "Services initialized"))
    (fun _ => serverError).
(** The body of [POST /api/hotel/services]; [b_price] is 0 when the field is
    absent. *)
Record CreateBody := mkCreateBody {
  b_name : string;
  b_description : string;
  b_price : Z;
  b_category : string
}.

End ServiceController.

(** What a handler takes from its environment: the authenticated user
    ([req.user._id]), the clock ([Date.now()], [new Date()] and its year),
    the draw [Math.floor(Math.random() * 1000)] and [NODE_ENV]. *)
Record Env := mkEnv {
  user : ObjectId;
  now : Z;
  year : Z;
  draw : Z;
  development : bool
}.

(** A date field of a request body, after [new Date(..)]. *)
Inductive DateField :=
| NoDate
| InvalidDate
| ValidDate (t : Z).

(** A numeric field of a request body, after [parseInt]/[parseFloat]. *)
Inductive NumberField :=
| NoNumber
| NotANumber
| Number (n : Z).

(** ** controllers/conferenceController.js *)
Module ConferenceController.

Record CreateBody := mkCreateBody {
  eventName : string;
  clientName : string;
  company : string;
  email : string;
  phone : string;
  hallType : string;
  startDate : DateField;
  endDate : DateField;
  startTime : string;
  endTime : string;
  eventType : string;
  attendees : NumberField;
  cateringRequired : bool;
  equipmentRequired : bool;
  specialRequirements : string;
  amount : NumberField;
  advancePaid : NumberField;
  bookingStatus : string;
  notes : string
}.

Definition missingText (field v : string) : list string :=
  if truthy v then [] else [field].
Definition missingDate (field : string) (v : DateField) : list string :=
  match v with NoDate => [field] | _ => [] end.
Definition missingNumber (field : string) (v : NumberField) : list string :=
  match v with NoNumber => [field] | _ => [] end.

Definition missingFields (body : CreateBody) : list string :=
  missingText "eventName" (eventName body)
  ++ missingText "clientName" (clientName body)
  ++ missingText "email" (email body)
  ++ missingText "phone" (phone body)
  ++ missingText "hallType" (hallType body)
  ++ missingDate "startDate" (startDate body)
  ++ missingDate "endDate" (endDate body)
  ++ missingText "startTime" (startTime body)
  ++ missingText "endTime" (endTime body)
  ++ missingText "eventType" (eventType body)
  ++ missingNumber "attendees" (attendees body)
  ++ missingNumber "amount" (amount body).

(** The creation query [{hallType, startDate: {$lte: end}, endDate: {$gte:
    start}, bookingStatus: {$in: ['approved', 'confirmed', 'pending']}}]. *)
Definition overlapsRequest (hall : string) (startDateTime endDateTime : Z)
  (b : Conference.t) : bool :=
  (Conference.hallType b =? hall)%string
  && (Conference.startDate b <=? endDateTime)
  && (startDateTime <=? Conference.endDate b)
  && includes ["approved"; "confirmed"; "pending"] (Conference.bookingStatus b).

(** [`INV-CH-${new Date().getFullYear()}-${invoiceCount}`] with
    [invoiceCount = Math.floor(Math.random() * 1000) + 1000]. *)
Definition newInvoiceNumber (env : Env) : string :=
  ("INV-CH-" ++ string_of_Z (year env) ++ "-"
   ++ string_of_Z (draw env + 1000))%string.

(** [!booking.invoiceNumber]. *)
Definition noInvoice (v : option string) : bool :=
  match v with
  | Some s => negb (truthy s)
  | None => true
  end.

Definition paymentStatusOf (advancePaid amount : Z) : string :=
  if amount <=? advancePaid then "paid"
  else if 0 <? advancePaid then "partial" else "pending".

Definition catchCreate (env : Env) (e : MongooseError) : Response :=
  match e with
  | ValidationError messages => fail 400 (join messages)
  | MongoServerError code =>
      if code =? 11000
      then fail 400 "Duplicate booking detected. Please try again."
      else if development env then fail 500 "Server error"
      else fail 500 "Server error. Please try again later."
  end.

Definition createBooking (env : Env) (body : CreateBody)
  : Db -> Response * Db :=
  tryCatch
    (match missingFields body with
     | _ :: _ as missing =>
         send (fail 400 ("Missing required fields: " ++ join missing)%string)
     | [] =>
       match startDate body, endDate body with
       | ValidDate startDateTime, ValidDate endDateTime =>
         if endDateTime <? startDateTime
         then send (fail 400 "End date cannot be before start date")
         else
         found <- lookup
           (fun h => (ConferenceHall.value h =? hallType body)%string
                     && ConferenceHall.isActive h) ;;
         match found with
         | None => send (fail 400 "Selected hall is not available")
         | Some hall =>
           match attendees body with
           | Number attendeesNum =>
             if attendeesNum <? 1
             then send (fail 400 "Number of attendees must be at least 1")
             else if ConferenceHall.capacity hall <? attendeesNum
             then send (fail 400
               ("Hall capacity is " ++ string_of_Z (ConferenceHall.capacity hall)
                ++ ", cannot book for " ++ string_of_Z attendeesNum
                ++ " attendees")%string)
             else
             overlappingBookings <- find
               (overlapsRequest (hallType body) startDateTime endDateTime) ;;
             match overlappingBookings with
             | _ :: _ =>
                 send (fail 400 "Hall is already booked for selected dates")
             | [] =>
               bookingCount <- countDocuments (A := Conference.t) ;;
               let bookingNumber :=
                 bookingNumberOf "CH" (now env) bookingCount in
               match amount body with
               | Number amountNum =>
                 if amountNum <=? 0
                 then send (fail 400 "Amount must be a positive number")
                 else
                 let advancePaidNum :=
                   match advancePaid body with
                   | Number n => n
                   | _ => 0
                   end in
                 let paymentStatus :=
                   paymentStatusOf advancePaidNum amountNum in
                 let approved := (bookingStatus body =? "approved")%string in
                 create (fun id =>
                   Conference.mk id (eventName body) (clientName body)
                     (company body) (email body) (phone body)
                     (hallType body) startDateTime endDateTime
                     (startTime body) (endTime body) (eventType body)
                     attendeesNum (cateringRequired body)
                     (equipmentRequired body) (specialRequirements body)
                     amountNum advancePaidNum paymentStatus "pending"
                     bookingNumber (notes body) (user env)
                     (if approved then Some (user env) else None)
                     (if approved then Some (now env) else None)
                     (if approved then Some (newInvoiceNumber env)
                      else None)) ;;;
                 ret (ok 201 "Booking created successfully")
               | _ => send (fail 400 "Amount must be a positive number")
               end
             end
           | _ => send (fail 400 "Number of attendees must be at least 1")
           end
         end
       | _, _ =>
           send (fail 400 "Invalid date format. Please use YYYY-MM-DD format")
       end
     end)
    (catchCreate env).
Record UpdateBody := mkUpdateBody {
  u_eventName : option string;
  u_clientName : option string;
  u_company : option string;
  u_email : option string;
  u_phone : option string;
  u_hallType : option string;
  u_startDate : option Z;
  u_endDate : option Z;
  u_startTime : option string;
  u_endTime : option string;
  u_eventType : option string;
  u_attendees : option Z;
  u_cateringRequired : option bool;
  u_equipmentRequired : option bool;
  u_specialRequirements : option string;
  u_amount : option Z;
  u_advancePaid : option Z;
  u_notes : option string;
  u_bookingStatus : string
}.

(** [if (req.body[field] !== undefined) booking[field] = ...]. *)
Definition assigned {A} (v : option A) (old : A) : A :=
  match v with
  | Some x => x
  | None => old
  end.

(** The [updatableFields.forEach] loop; the schema setters run on
    assignment. *)
Definition assignFields (body : UpdateBody) (b : Conference.t)
  : Conference.t :=
  Conference.mk (Conference._id b)
    (assigned (option_map trim (u_eventName body)) (Conference.eventName b))
    (assigned (option_map trim (u_clientName body)) (Conference.clientName b))
    (assigned (option_map trim (u_company body)) (Conference.company b))
    (assigned (option_map (fun s => toLowerCase (trim s)) (u_email body))
       (Conference.email b))
    (assigned (option_map trim (u_phone body)) (Conference.phone b))
    (assigned (u_hallType body) (Conference.hallType b))
    (assigned (u_startDate body) (Conference.startDate b))
    (assigned (u_endDate body) (Conference.endDate b))
    (assigned (u_startTime body) (Conference.startTime b))
    (assigned (u_endTime body) (Conference.endTime b))
    (assigned (u_eventType body) (Conference.eventType b))
    (assigned (u_attendees body) (Conference.attendees b))
    (assigned (u_cateringRequired body) (Conference.cateringRequired b))
    (assigned (u_equipmentRequired body) (Conference.equipmentRequired b))
    (assigned (option_map trim (u_specialRequirements body))
       (Conference.specialRequirements b))
    (assigned (u_amount body) (Conference.amount b))
    (assigned (u_advancePaid body) (Conference.advancePaid b))
    (Conference.paymentStatus b) (Conference.bookingStatus b)
    (Conference.bookingNumber b)
    (assigned (option_map trim (u_notes body)) (Conference.notes b))
    (Conference.createdBy b) (Conference.approvedBy b)
    (Conference.approvedAt b) (Conference.invoiceNumber b).

Definition updateBooking (env : Env) (id : ObjectId) (body : UpdateBody)
  : Db -> Response * Db :=
  tryCatch
    (found <- findById id ;;
     match found with
     | None => send (fail 404 "Booking not found")
     | Some booking =>
         let booking := assignFields body booking in
         let booking :=
           match u_advancePaid body with
           | Some _ =>
               Conference.set_paymentStatus
                 (paymentStatusOf (Conference.advancePaid booking)
                    (Conference.amount booking)) booking
           | None => booking
           end in
         let booking :=
           if (u_bookingStatus body =? "approved")%string
              && negb (Conference.bookingStatus booking =? "approved")%string
              && noInvoice (Conference.invoiceNumber booking)
           then
             Conference.set_approvedBy (Some (user env))
               (Conference.set_approvedAt (Some (now env))
                  (Conference.set_invoiceNumber
                     (Some (newInvoiceNumber env)) booking))
           else booking in
         save booking ;;;
         ret (ok 200 "Booking updated successfully")
     end)
    (fun _ => serverError).



Definition deleteBooking (id : ObjectId) : Db -> Response * Db :=
  tryCatch
    (found <- findById id ;;
     match found with
     | None => send (fail 404 "Booking not found")
     | Some booking =>
         if (Conference.bookingStatus booking =? "confirmed")%string
            || (Conference.bookingStatus booking =? "completed")%string
         then send (fail 400 "Cannot delete confirmed or completed bookings")
         else
           deleteOne booking ;;;
           ret (ok 200 "Booking deleted successfully")
     end)
    (fun _ => serverError).


Definition set_advancePaid (v : Z) (d : Conference.t) : Conference.t :=
  Conference.mk (Conference._id d) (Conference.eventName d)
    (Conference.clientName d) (Conference.company d) (Conference.email d)
    (Conference.phone d) (Conference.hallType d) (Conference.startDate d)
    (Conference.endDate d) (Conference.startTime d) (Conference.endTime d)
    (Conference.eventType d) (Conference.attendees d)
    (Conference.cateringRequired d) (Conference.equipmentRequired d)
    (Conference.specialRequirements d) (Conference.amount d) v
    (Conference.paymentStatus d) (Conference.bookingStatus d)
    (Conference.bookingNumber d) (Conference.notes d) (Conference.createdBy d)
    (Conference.approvedBy d) (Conference.approvedAt d)
    (Conference.invoiceNumber d).

(** [PUT /api/conference/bookings/:id/payment]; [advancePaid] is the
    body's field after [parseFloat]. *)
Definition updatePaymentStatus (id : ObjectId) (paymentStatus : string)
  (advancePaid : option Z) : Db -> Response * Db :=
  tryCatch
    (if negb (truthy paymentStatus)
        || negb (includes Conference.paymentStatuses paymentStatus)
     then send (fail 400 "Invalid payment status")
     else
     found <- findById id ;;
     match found with
     | None => send (fail 404 "Booking not found")
     | Some booking =>
         let booking := Conference.set_paymentStatus paymentStatus booking in
         let booking :=
           match advancePaid with
           | Some v => set_advancePaid v booking
           | None => booking
           end in
         save booking ;;;
         ret (ok 200 "Payment status updated successfully")
     end)
    (fun _ => serverError).
End ConferenceController.

(** ** controllers/hotelController.js *)
Module HotelController.

Record ChargeBody := mkChargeBody {
  c_service : string;
  c_amount : Z;
  c_quantity : Z
}.

(** [checkInDate] and [checkOutDate] are the body's [checkIn] and
    [checkOut] after [new Date(..)]. *)
Record CreateBody := mkCreateBody {
  guestName : string;
  email : string;
  phone : string;
  checkInDate : option Z;
  checkOutDate : option Z;
  roomType : string;
  roomNumber : string;
  adults : Z;
  children : Z;
  paymentStatus : string;
  specialRequests : string;
  extraCharges : list ChargeBody
}.

(** The query [{roomNumber, checkIn: {$lt: checkOut}, checkOut: {$gt:
    checkIn}, reservationStatus: {$in: ['confirmed', 'checked_in']}}]. *)
Definition overlapsStay (room : string) (newCheckIn newCheckOut : Z)
  (r : Reservation.t) : bool :=
  (Reservation.roomNumber r =? room)%string
  && (Reservation.checkIn r <? newCheckOut)
  && (newCheckIn <? Reservation.checkOut r)
  && includes ["confirmed"; "checked_in"] (Reservation.reservationStatus r).

(** [charge.quantity || 1]. *)
Definition quantityOf (c : ChargeBody) : Z :=
  if c_quantity c =? 0 then 1 else c_quantity c.

(** [Math.ceil((checkOutDate - checkInDate) / (1000 * 60 * 60 * 24))]. *)
Definition nightsBetween (checkInDate checkOutDate : Z) : Z :=
  - ((- (checkOutDate - checkInDate)) / dayMs).

(** [!guestName || !phone || !checkIn || !checkOut || !roomType
    || !roomNumber || !adults]. *)
Definition missingRequired (body : CreateBody) : bool :=
  negb (truthy (guestName body)) || negb (truthy (phone body))
  || match checkInDate body with Some _ => false | None => true end
  || match checkOutDate body with Some _ => false | None => true end
  || negb (truthy (roomType body)) || negb (truthy (roomNumber body))
  || (adults body =? 0).

Definition createReservation (env : Env) (body : CreateBody)
  : Db -> Response * Db :=
  tryCatch
    (if missingRequired body
     then send (fail 400 "Please provide all required fields")
     else
     match checkInDate body, checkOutDate body with
     | Some checkInDate, Some checkOutDate =>
       found <- findOne
         (fun r => (Room.roomNumber r =? roomNumber body)%string) ;;
       match found with
       | None => send (fail 400 "Selected room is not available")
       | Some room =>
         if negb (Room.status room =? "available")%string
         then send (fail 400 "Selected room is not available")
         else
         overlappingReservations <- find
           (overlapsStay (roomNumber body) checkInDate checkOutDate) ;;
         match overlappingReservations with
         | _ :: _ =>
             send (fail 400 "Room is already booked for selected dates")
         | [] =>
           roomTypeInfo <- lookup
             (fun t => (RoomType.name t =? roomType body)%string) ;;
           match roomTypeInfo with
           | None => send (fail 400 "Invalid room type")
           | Some roomTypeInfo =>
             let nights := nightsBetween checkInDate checkOutDate in
             if nights <=? 0
             then send (fail 400
               "Check-out date must be after check-in date")
             else
             let roomRate := RoomType.basePrice roomTypeInfo in
             let roomTotal := roomRate * nights in
             let servicesTotal :=
               fold_left
                 (fun sum charge => sum + c_amount charge * quantityOf charge)
                 (extraCharges body) 0 in
             let subTotal := roomTotal + servicesTotal in
             let tax := 0 in
             let finalTotalAmount := subTotal + tax in
             reservationCount <- countDocuments (A := Reservation.t) ;;
             let reservationNumber :=
               bookingNumberOf "HR" (now env) reservationCount in
             create (fun id =>
               Reservation.mk id (guestName body) (email body) (phone body)
                 checkInDate checkOutDate None None (roomType body)
                 (roomNumber body) (adults body) (children body) nights
                 roomRate
                 (map (fun charge =>
                         Reservation.mkCharge (c_service charge)
                           (c_amount charge) (quantityOf charge))
                      (extraCharges body))
                 subTotal tax 0 finalTotalAmount
                 (orElse (paymentStatus body) "pending") "confirmed"
                 reservationNumber (specialRequests body) (user env)) ;;;
             save (Room.set_status "occupied" room) ;;;
             ret (ok 201 "Reservation created successfully")
           end
         end
       end
     | _, _ => send (fail 400 "Please provide all required fields")
     end)
    catchValidation.

Definition paymentPendingMessage : string :=
  ("Cannot check out with pending payment. Please update payment status to "
   ++ quoted "paid" ++ " first.")%string.

Definition checkOut (env : Env) (id : ObjectId) : Db -> Response * Db :=
  tryCatch
    (found <- findById id ;;
     match found with
     | None => send (fail 404 "Reservation not found")
     | Some reservation =>
         if negb (Reservation.reservationStatus reservation =? "checked_in")%string
         then send (fail 400 "Only checked-in guests can check out")
         else if (Reservation.paymentStatus reservation =? "pending")%string
                 || (Reservation.paymentStatus reservation =? "partial")%string
         then send (fail 400 paymentPendingMessage)
         else
           save (Reservation.set_status "checked_out" (Some (now env))
                   reservation) ;;;
           room <- findOne
             (fun r => (Room.roomNumber r
                        =? Reservation.roomNumber reservation)%string) ;;
           match room with
           | Some room => save (Room.set_status "cleaning" room)
           | None => ret tt
           end ;;;
           ret (ok 200 "Guest checked out successfully")
     end)
    (fun _ => serverError).

(** The sibling query of [deleteReservation], which leaves the deleted
    reservation itself out. *)
Definition otherStay (reservation r : Reservation.t) : bool :=
  negb (Reservation._id r =? Reservation._id reservation)%nat
  && overlapsStay (Reservation.roomNumber reservation)
       (Reservation.checkIn reservation) (Reservation.checkOut reservation) r.

Definition deleteReservation (id : ObjectId) : Db -> Response * Db :=
  tryCatch
    (found <- findById id ;;
     match found with
     | None => send (fail 404 "Reservation not found")
     | Some reservation =>
         (if (Reservation.reservationStatus reservation =? "confirmed")%string
             || (Reservation.reservationStatus reservation =? "checked_in")%string
          then
            room <- findOne
              (fun r => (Room.roomNumber r
                         =? Reservation.roomNumber reservation)%string) ;;
            match room with
            | Some room =>
                otherReservations <- find (otherStay reservation) ;;
                match otherReservations with
                | [] => save (Room.set_status "available" room)
                | _ :: _ => ret tt
                end
            | None => ret tt
            end
          else ret tt) ;;;
         deleteOne reservation ;;;
         ret (ok 200 "Reservation deleted successfully")
     end)
    (fun _ => serverError).
Definition set_checkedIn (at_ : Z) (d : Reservation.t) : Reservation.t :=
  Reservation.mk (Reservation._id d) (Reservation.guestName d)
    (Reservation.email d) (Reservation.phone d) (Reservation.checkIn d)
    (Reservation.checkOut d) (Some at_) (Reservation.actualCheckOut d)
    (Reservation.roomType d) (Reservation.roomNumber d) (Reservation.adults d)
    (Reservation.children d) (Reservation.totalNights d)
    (Reservation.roomRate d) (Reservation.extraCharges d)
    (Reservation.subTotal d) (Reservation.tax d) (Reservation.discount d)
    (Reservation.totalAmount d) (Reservation.paymentStatus d) "checked_in"
    (Reservation.reservationNumber d) (Reservation.specialRequests d)
    (Reservation.createdBy d).

Definition set_paymentStatus (v : string) (d : Reservation.t)
  : Reservation.t :=
  Reservation.mk (Reservation._id d) (Reservation.guestName d)
    (Reservation.email d) (Reservation.phone d) (Reservation.checkIn d)
    (Reservation.checkOut d) (Reservation.actualCheckIn d)
    (Reservation.actualCheckOut d) (Reservation.roomType d)
    (Reservation.roomNumber d) (Reservation.adults d) (Reservation.children d)
    (Reservation.totalNights d) (Reservation.roomRate d)
    (Reservation.extraCharges d) (Reservation.subTotal d) (Reservation.tax d)
    (Reservation.discount d) (Reservation.totalAmount d) v
    (Reservation.reservationStatus d) (Reservation.reservationNumber d)
    (Reservation.specialRequests d) (Reservation.createdBy d).

Definition set_reservationStatus (v : string) (d : Reservation.t)
  : Reservation.t :=
  Reservation.set_status v (Reservation.actualCheckOut d) d.

Definition checkIn (env : Env) (id : ObjectId) : Db -> Response * Db :=
  tryCatch
    (found <- findById id ;;
     match found with
     | None => send (fail 404 "Reservation not found")
     | Some reservation =>
         if negb (Reservation.reservationStatus reservation =? "confirmed")%string
         then send (fail 400 "Only confirmed reservations can be checked in")
         else
           save (set_checkedIn (now env) reservation) ;;;
           ret (ok 200 "Guest checked in successfully")
     end)
    (fun _ => serverError).

(** [PUT /api/hotel/reservations/:id/payment]. *)
Definition updatePaymentStatus (id : ObjectId) (paymentStatus : string)
  : Db -> Response * Db :=
  tryCatch
    (if negb (truthy paymentStatus)
        || negb (includes ["paid"; "pending"; "partial"] paymentStatus)
     then send (fail 400 "Invalid payment status")
     else
     found <- findById id ;;
     match found with
     | None => send (fail 404 "Reservation not found")
     | Some reservation =>
         save (set_paymentStatus paymentStatus reservation) ;;;
         ret (ok 200 "Payment status updated successfully")
     end)
    (fun _ => serverError).

(** [PUT /api/hotel/reservations/:id/status]. *)
Definition updateReservationStatus (id : ObjectId) (status_ : string)
  : Db -> Response * Db :=
  tryCatch
    (if negb (truthy status_)
        || negb (includes ["confirmed"; "cancelled"; "no_show"] status_)
     then send (fail 400 "Invalid status")
     else
     found <- findById id ;;
     match found with
     | None => send (fail 404 "Reservation not found")
     | Some reservation =>
         room <- findOne
           (fun r => (Room.roomNumber r
                      =? Reservation.roomNumber reservation)%string) ;;
         (if (status_ =? "cancelled")%string
             && negb (Reservation.reservationStatus reservation
                      =? "cancelled")%string
          then
            match room with
            | Some room =>
                otherReservations <- find (otherStay reservation) ;;
                match otherReservations with
                | [] => save (Room.set_status "available" room)
                | _ :: _ => ret tt
                end
            | None => ret tt
            end
          else if (status_ =? "confirmed")%string
                  && (Reservation.reservationStatus reservation
                      =? "cancelled")%string
          then
            match room with
            | Some room =>
                if (Room.status room =? "available")%string
                then
                  overlappingReservations <- find (otherStay reservation) ;;
                  match overlappingReservations with
                  | [] => save (Room.set_status "occupied" room)
                  | _ :: _ =>
                      send (fail 400
                        "Room is no longer available for selected dates")
                  end
                else ret tt
            | None => ret tt
            end
          else ret tt) ;;;
         save (set_reservationStatus status_ reservation) ;;;
         ret (ok 200 "Reservation status updated successfully")
     end)
    (fun _ => serverError).

(** The body of [PUT /api/hotel/reservations/:id]; the dates are the
    body's [checkIn] and [checkOut] after [new Date(..)], [u_adults] is 0
    when the field is absent, and [u_roomNumber] is [None] when the body has
    no [roomNumber] ([undefined] is not identical to any stored number). *)
Record UpdateBody := mkUpdateBody {
  u_guestName : string;
  u_email : string;
  u_phone : string;
  u_checkIn : option Z;
  u_checkOut : option Z;
  u_roomNumber : option string;
  u_adults : Z;
  u_children : option Z;
  u_paymentStatus : string;
  u_specialRequests : option string
}.

(** [if (field) reservation.field = field], the schema setters running on
    assignment. *)
Definition assignFields (body : UpdateBody) (d : Reservation.t)
  : Reservation.t :=
  Reservation.mk (Reservation._id d)
    (if truthy (u_guestName body) then trim (u_guestName body)
     else Reservation.guestName d)
    (if truthy (u_email body) then toLowerCase (trim (u_email body))
     else Reservation.email d)
    (if truthy (u_phone body) then trim (u_phone body)
     else Reservation.phone d)
    (match u_checkIn body with Some t => t | None => Reservation.checkIn d end)
    (match u_checkOut body with
     | Some t => t
     | None => Reservation.checkOut d
     end)
    (Reservation.actualCheckIn d) (Reservation.actualCheckOut d)
    (Reservation.roomType d)
    (match u_roomNumber body with
     | Some number => if truthy number then number
                      else Reservation.roomNumber d
     | None => Reservation.roomNumber d
     end)
    (if u_adults body =? 0 then Reservation.adults d else u_adults body)
    (match u_children body with
     | Some n => n
     | None => Reservation.children d
     end)
    (Reservation.totalNights d) (Reservation.roomRate d)
    (Reservation.extraCharges d) (Reservation.subTotal d) (Reservation.tax d)
    (Reservation.discount d) (Reservation.totalAmount d)
    (if truthy (u_paymentStatus body) then u_paymentStatus body
     else Reservation.paymentStatus d)
    (Reservation.reservationStatus d) (Reservation.reservationNumber d)
    (match u_specialRequests body with
     | Some t => trim t
     | None => Reservation.specialRequests d
     end)
    (Reservation.createdBy d).

(** [if (checkIn || checkOut)]: the nights and the totals are computed
    again from the stored room rate. *)
Definition repriced (d : Reservation.t) : Reservation.t :=
  let nights := nightsBetween (Reservation.checkIn d) (Reservation.checkOut d) in
  Reservation.mk (Reservation._id d) (Reservation.guestName d)
    (Reservation.email d) (Reservation.phone d) (Reservation.checkIn d)
    (Reservation.checkOut d) (Reservation.actualCheckIn d)
    (Reservation.actualCheckOut d) (Reservation.roomType d)
    (Reservation.roomNumber d) (Reservation.adults d) (Reservation.children d)
    nights (Reservation.roomRate d) (Reservation.extraCharges d)
    (Reservation.roomRate d * nights) 0 (Reservation.discount d)
    (Reservation.roomRate d * nights + 0) (Reservation.paymentStatus d)
    (Reservation.reservationStatus d) (Reservation.reservationNumber d)
    (Reservation.specialRequests d) (Reservation.createdBy d).

Definition datesGiven (body : UpdateBody) : bool :=
  match u_checkIn body, u_checkOut body with
  | None, None => false
  | _, _ => true
  end.

Definition updateReservation (id : ObjectId) (body : UpdateBody)
  : Db -> Response * Db :=
  tryCatch
    (found <- findById id ;;
     match found with
     | None => send (fail 404 "Reservation not found")
     | Some old =>
       let reservation := assignFields body old in
       (if match u_roomNumber body with
           | Some number => negb (number =? Reservation.roomNumber old)%string
           | None => true
           end
           || datesGiven body
        then
          oldRoom <- findOne
            (fun r => (Room.roomNumber r
                       =? Reservation.roomNumber old)%string) ;;
          match oldRoom with
          | Some oldRoom =>
              if (Reservation.reservationStatus reservation
                  =? "confirmed")%string
              then
                otherReservations <- find (otherStay old) ;;
                match otherReservations with
                | [] => save (Room.set_status "available" oldRoom)
                | _ :: _ => ret tt
                end
              else ret tt
          | None => ret tt
          end ;;;
          newRoom <- findOne
            (fun r => (Room.roomNumber r
                       =? Reservation.roomNumber reservation)%string) ;;
          match newRoom with
          | None => send (fail 400 "Selected room is not available")
          | Some newRoom =>
            if negb (Room.status newRoom =? "available")%string
            then send (fail 400 "Selected room is not available")
            else
            overlappingReservations <- find (otherStay reservation) ;;
            match overlappingReservations with
            | _ :: _ =>
                send (fail 400 "Room is already booked for selected dates")
            | [] =>
                if (Reservation.reservationStatus reservation
                    =? "confirmed")%string
                then save (Room.set_status "occupied" newRoom)
                else ret tt
            end
          end
        else ret tt) ;;;
       let reservation :=
         if datesGiven body then repriced reservation else reservation in
       save reservation ;;;
       ret (ok 200 "Reservation updated successfully")
     end)
    catchValidation.
End HotelController.

(** ** Vocabulary of the statements *)

(** The stored document with a given [_id], as [findById] sees it. *)
Definition byId {A} `{Collection A} (id : ObjectId) (db : Db) : option A :=
  List.find (fun d => (doc_id d =? id)%nat) (docs db).

(** The time slot a slot value names, as [TimeSlot.findOne({value})] sees
    it. *)
Definition slotOf (v : string) (db : Db) : option TimeSlot.t :=
  List.find (fun s => (TimeSlot.value s =? v)%string) (timeSlots db).

(** Persons of the non-cancelled bookings of a day and slot. *)
Definition bookedPersons (day : Z) (slotValue : string) (db : Db) : Z :=
  PoolController.totalPersons
    (filter (PoolController.sameDaySlot day slotValue) (pools db)).

(** The same, leaving one booking out ([_id: {$ne: booking._id}]). *)
Definition bookedByOthers (booking : Pool.t) (db : Db) : Z :=
  PoolController.totalPersons
    (filter
       (fun b => negb (Pool._id b =? Pool._id booking)%nat
                 && PoolController.sameDaySlot (Pool.date booking)
                      (Pool.timeSlot booking) b)
       (pools db)).

(** The counter never exceeds the capacity. *)
Definition withinCapacity (s : TimeSlot.t) : Prop :=
  TimeSlot.currentBookings s <= TimeSlot.maxCapacity s.

(** Active reservations and bookings, as the overlap queries select them. *)
Definition activeStay (r : Reservation.t) : Prop :=
  In (Reservation.reservationStatus r) ["confirmed"; "checked_in"].
Definition activeBooking (b : Conference.t) : Prop :=
  In (Conference.bookingStatus b) ["approved"; "confirmed"; "pending"].

(** The invariant of a MongoDB collection: an [_id] is unique, and the ids
    in use are below the next fresh one. *)
Definition uniqueIds {A : Type} `{Collection A} (db : Db) : Prop :=
  NoDup (map doc_id (docs (A := A) db))
  /\ Forall (fun d => (doc_id d < nextId db)%nat) (docs (A := A) db).

(** A default time slot is settled when the stored slot of its value passes
    the schema and already has the default capacity and counter. *)
Definition settledSlot (d : TimeSlotController.SlotData) (db : Db) : Prop :=
  exists e,
    slotOf (TimeSlotController.d_value d) db = Some e
    /\ TimeSlot.maxCapacity e = TimeSlotController.d_maxCapacity d
    /\ TimeSlot.currentBookings e = TimeSlotController.d_currentBookings d
    /\ TimeSlot.validate e = [].

(** A default service is settled when the stored service of its name passes
    the schema and already has the default fields. *)
Definition settledService (d : ServiceController.ServiceData) (db : Db)
  : Prop :=
  exists e,
    List.find (fun s => (Service.name s =? ServiceController.d_name d)%string)
      (services db) = Some e
    /\ ServiceController.assign e d = e
    /\ Service.validate e = [].

(** Two runs end the same way: both return, or both throw. *)
Definition sameKind {X : Type} (o o' : Outcome X) : Prop :=
  match o, o' with
  | Value _, Value _ => True
  | Thrown _, Thrown _ => True
  | _, _ => False
  end.

(** Two active bookings of one hall whose dates meet (closed intervals, as
    the conference queries compare them). *)
Definition doubleBooked (a b : Conference.t) : Prop :=
  Conference.hallType a = Conference.hallType b
  /\ activeBooking a /\ activeBooking b
  /\ Conference.startDate a <= Conference.endDate b
  /\ Conference.startDate b <= Conference.endDate a.

(** No two stored bookings are double booked. *)
Definition hallsFree (l : list Conference.t) : Prop :=
  ForallOrdPairs (fun a b => ~ doubleBooked a b) l.

(** Two active reservations of one room whose stays meet (half-open
    intervals, as the hotel queries compare them). *)
Definition doubleStay (a b : Reservation.t) : Prop :=
  Reservation.roomNumber a = Reservation.roomNumber b
  /\ activeStay a /\ activeStay b
  /\ Reservation.checkIn a < Reservation.checkOut b
  /\ Reservation.checkIn b < Reservation.checkOut a.

(** No two stored reservations are double booked. *)
Definition roomsFree (l : list Reservation.t) : Prop :=
  ForallOrdPairs (fun a b => ~ doubleStay a b) l.

(** The room a room number names, as [Room.findOne({roomNumber})] sees it. *)
Definition roomOf (number : string) (db : Db) : option Room.t :=
  List.find (fun r => (Room.roomNumber r =? number)%string) (rooms db).


(** ** Sample data *)
Module Sample.

(** The 06:00-09:00 slot with capacity 50. *)
Definition morning : TimeSlot.t :=
  TimeSlot.mk 1 "1" "06:00 AM - 09:00 AM" "06:00-09:00" "06:00" "09:00"
    50 40 true.
Definition closedMorning : TimeSlot.t := TimeSlot.set_isActive false morning.

Definition daily : TicketPrice.t :=
  TicketPrice.mk 2 "daily" 5 "Daily pass" 20 true.
Definition family : TicketPrice.t :=
  TicketPrice.mk 3 "family" 30 "Family pass" 6 true.

Definition someDay : Z := 20000 * dayMs.

Definition booking (id : ObjectId) (persons : Z) (paymentStatus : string)
  : Pool.t :=
  Pool.mk id "Ann" "ann@example.org" "555-0100" someDay "06:00-09:00"
    "daily" persons (5 * persons) paymentStatus
    ("PB-000000-" ++ string_of_Z (Z.of_nat id))%string "" 0.

(** Forty persons booked in the morning slot, and a cancelled booking. *)
Definition morningBookings : list Pool.t :=
  [booking 10 10 "paid"; booking 11 10 "paid"; booking 12 10 "pending";
   booking 13 10 "paid"; booking 14 8 "cancelled"].

Definition poolDb : Db :=
  mkDb [morning] [daily; family] morningBookings [] [] [] [] [] [] 100.
Definition closedDb : Db := set_timeSlots [closedMorning] poolDb.
(** Five more persons took part of what booking 14 had freed. *)
Definition refilledDb : Db :=
  set_pools (morningBookings ++ [booking 15 5 "paid"]) poolDb.
(** The counter has drifted below the persons of a booking. *)
Definition driftedDb : Db :=
  set_timeSlots [TimeSlot.set_currentBookings 4 morning] poolDb.

Definition request (passType : string) (persons : Z)
  : PoolController.CreateBody :=
  PoolController.mkCreateBody "Bob" "Bob@Example.org" "555-0101"
    (Some (someDay + 3600000)) "06:00-09:00" passType persons "" "".

Definition clock : Z := 1730419200123.
Definition env : Env := mkEnv 9 clock 2026 234 false.

Definition hallA : ConferenceHall.t :=
  ConferenceHall.mk 40 "H1" "Hall A" "hall_a" 100 50 400 "Main hall" true 0 3.

(** A pending booking of hall A from day 20000 to day 20002, without an
    invoice number. *)
Definition summit : Conference.t :=
  Conference.mk 50 "Summit" "Carol" "" "carol@example.org" "555-0102"
    "hall_a" someDay (someDay + 2 * dayMs) "09:00" "17:00" "conference" 80
    false false "" 1000 0 "pending" "pending" "CH-000000-1" "" 0
    None None None.
Definition confirmedSummit : Conference.t :=
  Conference.set_bookingStatus "confirmed" summit.

Definition conferenceDb : Db :=
  mkDb [] [] [] [] [summit] [hallA] [] [] [] 100.
Definition confirmedDb : Db := set_conferences [confirmedSummit] conferenceDb.

(** A request for hall A from [startDate] to [endDate]. *)
Definition expo (startDate endDate : Z) : ConferenceController.CreateBody :=
  ConferenceController.mkCreateBody "Expo" "Dave" "" "dave@example.org"
    "555-0103" "hall_a" (ValidDate startDate) (ValidDate endDate) "09:00"
    "17:00" "exhibition" (Number 50) false false "" (Number 500) NoNumber
    "" "".


Definition deluxe : RoomType.t :=
  RoomType.mk 80 "Deluxe" "Deluxe room" 120 2 true.
Definition room (id : ObjectId) (number status : string) : Room.t :=
  Room.mk id number "Deluxe" 1 status 120 true.

(** A stay in [roomNumber] from day 20000 to day 20003. *)
Definition stay (id : ObjectId) (roomNumber reservationStatus
  paymentStatus : string) : Reservation.t :=
  Reservation.mk id "Erin" "erin@example.org" "555-0104" someDay
    (someDay + 3 * dayMs) None None "Deluxe" roomNumber 2 0 3 120 [] 360 0 0
    360 paymentStatus reservationStatus
    ("HR-000000-" ++ string_of_Z (Z.of_nat id))%string "" 0.

Definition hotelDb : Db :=
  mkDb [] [] [] [] [] []
    [stay 70 "101" "confirmed" "pending";
     stay 71 "102" "checked_in" "partial";
     stay 72 "103" "checked_out" "paid";
     stay 73 "104" "confirmed" "paid";
   stay 74 "105" "checked_in" "paid"]
    [room 60 "101" "occupied"; room 61 "102" "occupied";
     room 62 "103" "cleaning"; room 63 "104" "available";
   room 64 "105" "occupied"]
    [deluxe] 100.

(** A request for [roomNumber] from [checkIn] to [checkOut]. *)
Definition visit (roomNumber : string) (checkIn checkOut : Z)
  : HotelController.CreateBody :=
  HotelController.mkCreateBody "Finn" "finn@example.org" "555-0105"
    (Some checkIn) (Some checkOut) "Deluxe" roomNumber 2 0 "" "" [].
(** A pending booking of hall A from day 20001 to day 20004, which meets
    the confirmed summit. *)
Definition rival : Conference.t :=
  Conference.mk 51 "Expo" "Dave" "" "dave@example.org" "555-0103" "hall_a"
    (someDay + dayMs) (someDay + 4 * dayMs) "09:00" "17:00" "exhibition" 50
    false false "" 500 0 "pending" "pending" "CH-000000-2" "" 0
    None None None.
Definition rivalDb : Db :=
  set_conferences [confirmedSummit; rival] conferenceDb.

(** A cancelled reservation of room 102 for the days of the guest who is
    checked in there. *)
Definition crowdedDb : Db :=
  set_reservations
    (reservations hotelDb ++ [stay 75 "102" "cancelled" "pending"]) hotelDb.

(** An update of a reservation that names only the day of departure. *)
Definition leaving (checkOut : Z) : HotelController.UpdateBody :=
  HotelController.mkUpdateBody "" "" "" None (Some checkOut) None 0 None ""
    None.

(** An update of a pool booking that names only the persons and the payment
    status (0 and the empty string when absent). *)
Definition change (persons : Z) (paymentStatus : string)
  : PoolController.UpdateBody :=
  PoolController.mkUpdateBody "" "" "" None "" "" persons paymentStatus None.
End Sample.

(** * Properties *)

(** One step of a handler: a query or a write is run on the database. *)
Ltac run_query :=
  try (unfold bind at 1);
  unfold findById, findOne, find, lookup, countDocuments, create, save,
    deleteOne;
  cbn.

(** Membership tests between literals are evaluated. *)
Ltac eval_includes :=
  repeat match goal with
  | |- context [includes ?l ?s] =>
      let v := eval vm_compute in (includes l s) in
      change (includes l s) with v
  end.


(** ** Stored documents *)

Section Replace.
Context {A : Type} (key : A -> ObjectId).

Lemma find_replaceBy (p : A -> bool) (d d' : A) (l : list A) :
  List.find p l = Some d -> key d' = key d -> p d' = true ->
  List.find p (replaceBy key d' l) = Some d'.
Proof.
  intros Hfind Hkey Hp. unfold replaceBy.
  induction l as [|x l IH]; simpl in *.
  - discriminate.
  - destruct (Nat.eqb_spec (key x) (key d')) as [E|E].
    + simpl. now rewrite Hp.
    + simpl. destruct (p x) eqn:Hx.
      * inversion Hfind; subst. congruence.
      * now apply IH.
Qed.

Lemma Forall_replaceBy (P : A -> Prop) (d : A) (l : list A) :
  Forall P l -> P d -> Forall P (replaceBy key d l).
Proof.
  intros Hl Hd. unfold replaceBy. apply Forall_map.
  eapply Forall_impl; [|exact Hl].
  intros x Hx. simpl. now destruct (key x =? key d)%nat.
Qed.

Lemma ids_replaceBy (d : A) (l : list A) :
  map key (replaceBy key d l) = map key l.
Proof.
  unfold replaceBy. rewrite map_map. apply map_ext. intros x.
  destruct (Nat.eqb_spec (key x) (key d)); congruence.
Qed.

Lemma unique_by_id (l : list A) (x y : A) :
  NoDup (map key l) -> In x l -> In y l -> key x = key y -> x = y.
Proof.
  induction l as [|z l IH]; simpl; [contradiction|].
  intros Hnd Hx Hy Hk. inversion Hnd as [|k ks Hnotin Hnd']; subst.
  destruct Hx as [->|Hx], Hy as [->|Hy]; try reflexivity.
  - exfalso. apply Hnotin. rewrite Hk. now apply in_map.
  - exfalso. apply Hnotin. rewrite <- Hk. now apply in_map.
  - now apply IH.
Qed.

Lemma replaceBy_self (d : A) (l : list A) :
  (forall y, In y l -> key y = key d -> y = d) ->
  replaceBy key d l = l.
Proof.
  unfold replaceBy. intros Hsame. induction l as [|x l IH]; simpl.
  - reflexivity.
  - rewrite IH by (intros y Hy; apply Hsame; now right).
    destruct (Nat.eqb_spec (key x) (key d)) as [E|E]; [|reflexivity].
    now rewrite (Hsame x (or_introl eq_refl) E).
Qed.

Lemma find_replaceBy_other (p : A -> bool) (d : A) (l : list A) :
  (forall y, In y l -> key y = key d -> p y = false) ->
  p d = false ->
  List.find p (replaceBy key d l) = List.find p l.
Proof.
  unfold replaceBy. intros Hsame Hd. induction l as [|x l IH]; simpl.
  - reflexivity.
  - rewrite IH by (intros y Hy; apply Hsame; now right).
    destruct (Nat.eqb_spec (key x) (key d)) as [E|E]; [|reflexivity].
    now rewrite Hd, (Hsame x (or_introl eq_refl) E).
Qed.

Lemma find_snoc_found (p : A -> bool) (l : list A) (x e : A) :
  List.find p l = Some e -> List.find p (l ++ [x]) = Some e.
Proof.
  induction l as [|y l IH]; simpl; [discriminate|].
  destruct (p y); [trivial|exact IH].
Qed.

Lemma find_snoc_new (p : A -> bool) (l : list A) (x : A) :
  List.find p l = None -> p x = true -> List.find p (l ++ [x]) = Some x.
Proof.
  induction l as [|y l IH]; simpl; intros Hnone Hx.
  - now rewrite Hx.
  - destruct (p y); [discriminate|now apply IH].
Qed.

Lemma ids_snoc (l : list A) (x : A) (next : ObjectId) :
  NoDup (map key l) -> Forall (fun d => (key d < next)%nat) l ->
  key x = next ->
  NoDup (map key (l ++ [x]))
  /\ Forall (fun d => (key d < S next)%nat) (l ++ [x]).
Proof.
  intros Hnd Hlt Hx. split.
  - rewrite map_app. simpl. apply NoDup_app; [assumption|repeat constructor; simpl; tauto|].
    intros k Hin [<-|[]]. apply in_map_iff in Hin as (y & Hy & Hin).
    rewrite Forall_forall in Hlt. specialize (Hlt y Hin).
    rewrite Hy, Hx in Hlt. exact (Nat.lt_irrefl _ Hlt).
  - apply Forall_app. split.
    + eapply Forall_impl; [|exact Hlt]. simpl. intros y Hy.
      now apply Nat.lt_lt_succ_r.
    + constructor; [|constructor]. rewrite Hx. apply Nat.lt_succ_diag_r.
Qed.
End Replace.

(** Deleted, replaced and appended documents. *)
Section Lists.
Context {A : Type} (key : A -> ObjectId).

Lemma In_replaceBy_same (d x : A) (l : list A) :
  In x (replaceBy key d l) -> key x = key d -> x = d.
Proof.
  unfold replaceBy. intros Hin Hk. apply in_map_iff in Hin as (y & Hy & _).
  destruct (Nat.eqb_spec (key y) (key d)) as [E|E]; congruence.
Qed.

Lemma In_replaceBy_new (d x : A) (l : list A) :
  In x l -> key x = key d -> In d (replaceBy key d l).
Proof.
  intros Hin Hk. unfold replaceBy. apply in_map_iff. exists x.
  split; [|assumption]. apply Nat.eqb_eq in Hk. now rewrite Hk.
Qed.

Lemma In_replaceBy_other (d x : A) (l : list A) :
  In x l -> key x <> key d -> In x (replaceBy key d l).
Proof.
  intros Hin Hk. unfold replaceBy. apply in_map_iff. exists x.
  split; [|assumption]. apply Nat.eqb_neq in Hk. now rewrite Hk.
Qed.

Lemma filter_others_replaceBy (q : A -> bool) (d d' : A) (l : list A) :
  key d' = key d ->
  filter (fun b => negb (key b =? key d)%nat && q b) (replaceBy key d' l)
  = filter (fun b => negb (key b =? key d)%nat && q b) l.
Proof.
  intros Hk. unfold replaceBy. induction l as [|x l IH]; simpl.
  - reflexivity.
  - rewrite IH, Hk.
    destruct (key x =? key d)%nat eqn:E; simpl.
    + now rewrite Hk, Nat.eqb_refl.
    + now rewrite E.
Qed.

Lemma find_deleted (i : ObjectId) (l : list A) :
  List.find (fun x => (key x =? i)%nat)
    (filter (fun x => negb (key x =? i)%nat) l) = None.
Proof.
  induction l as [|x l IH]; simpl; [reflexivity|].
  destruct (Nat.eqb_spec (key x) i) as [E|E]; simpl; [exact IH|].
  apply Nat.eqb_neq in E. now rewrite E.
Qed.

Lemma find_not_deleted (i j : ObjectId) (l : list A) :
  j <> i ->
  List.find (fun x => (key x =? j)%nat)
    (filter (fun x => negb (key x =? i)%nat) l)
  = List.find (fun x => (key x =? j)%nat) l.
Proof.
  intros Hij. induction l as [|x l IH]; simpl; [reflexivity|].
  destruct (Nat.eqb_spec (key x) i) as [E|E]; simpl.
  - rewrite IH. subst i. apply not_eq_sym, Nat.eqb_neq in Hij.
    now rewrite Hij.
  - now rewrite IH.
Qed.


Lemma ordPairs_snoc (R : A -> A -> Prop) (l : list A) (x : A) :
  ForallOrdPairs R l -> Forall (fun a => R a x) l ->
  ForallOrdPairs R (l ++ [x]).
Proof.
  intros Hl Hx. induction Hl as [|a l Ha Hl IH]; simpl.
  - constructor; constructor.
  - inversion Hx as [|a' l' Hax Hlx]; subst.
    constructor; [|now apply IH].
    apply Forall_app. split; [assumption|]. now constructor.
Qed.


Lemma ordPairs_filter (R : A -> A -> Prop) (p : A -> bool) (l : list A) :
  ForallOrdPairs R l -> ForallOrdPairs R (filter p l).
Proof.
  intros Hl. induction Hl as [|a l Ha Hl IH]; simpl; [constructor|].
  destruct (p a); [|exact IH].
  constructor; [|exact IH].
  apply Forall_forall. intros y Hy. apply filter_In in Hy as [Hy _].
  revert y Hy. now apply Forall_forall.
Qed.

Lemma filter_snoc_true (p : A -> bool) (l : list A) (x : A) :
  p x = true -> filter p (l ++ [x]) = filter p l ++ [x].
Proof. intros Hx. rewrite filter_app. simpl. now rewrite Hx. Qed.

End Lists.

#[local] Arguments replaceBy : simpl never.

#[local] Arguments String.append : simpl never.
#[local] Arguments string_of_Z : simpl never.
#[local] Arguments List.find : simpl never.
#[local] Arguments List.filter : simpl never.
#[local] Arguments List.existsb : simpl never.
#[local] Arguments List.map : simpl never.
#[local] Arguments List.fold_left : simpl never.
#[local] Arguments TimeSlot.validate : simpl never.
#[local] Arguments Pool.validate : simpl never.
#[local] Arguments Service.validate : simpl never.
#[local] Arguments Conference.validate : simpl never.
#[local] Arguments Reservation.validate : simpl never.
#[local] Arguments Room.validate : simpl never.

Lemma byId_saved {A} `{Collection A} (id : ObjectId) (db db' : Db) (d d' : A) :
  byId id db = Some d ->
  doc_id d' = doc_id d ->
  docs db' = replaceBy doc_id d' (docs db) ->
  byId id db' = Some d'.
Proof.
  unfold byId. intros Hfound Hid ->.
  eapply find_replaceBy; eauto.
  apply find_some in Hfound as [_ Hd]. now rewrite Hid.
Qed.

(** The document a handler has just saved is the one [findById] now
    returns. *)
Ltac saved_doc Hfound :=
  match goal with
  | |- context [replaceBy _ ?D _] =>
      exists D; split;
      [apply (byId_saved _ _ _ _ D Hfound); reflexivity|]
  end.

Module TimeSlotProps.
Import TimeSlot TimeSlotController.

(** C9.  A time-slot update that asks for a capacity below the slot's
    current bookings is answered with a 400 and writes nothing; and every
    update that succeeds leaves all slots with
    [currentBookings <= maxCapacity] if they were so before. *)
Theorem updateTimeSlot_capacity_guard
  (id : ObjectId) (body : UpdateBody) (db : Db) (timeSlot : TimeSlot.t) :
  byId id db = Some timeSlot ->
  (forall m, body_maxCapacity body = Some m ->
     m < currentBookings timeSlot ->
     updateTimeSlot id body db
     = (fail 400 ("Cannot set capacity lower than current bookings ("
                  ++ string_of_Z (currentBookings timeSlot) ++ ")")%string,
        db))
  /\ (status (fst (updateTimeSlot id body db)) = 200 ->
      Forall withinCapacity (timeSlots db) ->
      Forall withinCapacity (timeSlots (snd (updateTimeSlot id body db)))).
Proof.
  intros Hfound. unfold byId in Hfound. simpl in Hfound. split.
  - intros m Hm Hlt.
    unfold updateTimeSlot, tryCatch, bind, findById, findOne. simpl.
    rewrite Hfound, Hm.
    destruct (truthy (body_label body)); simpl;
      (destruct (Z.ltb_spec m (currentBookings timeSlot)); [reflexivity|lia]).
  - unfold updateTimeSlot, tryCatch, bind, findById, findOne, save. simpl.
    rewrite Hfound.
    intros Hok Hall.
    assert (Hts : withinCapacity timeSlot).
    { apply find_some in Hfound as [Hin' _].
      rewrite Forall_forall in Hall. now apply Hall. }
    revert Hok.
    destruct (body_maxCapacity body) as [m|]; simpl.
    + destruct (Z.ltb_spec m
        (currentBookings
           (if truthy (body_label body)
            then set_label (body_label body) timeSlot else timeSlot)));
        simpl; [discriminate|].
      match goal with
      | |- context [validate ?d] => destruct (validate d) eqn:Hv
      end; simpl; [|discriminate].
      intros _. apply Forall_replaceBy; [assumption|].
      unfold withinCapacity.
      destruct (body_isActive body); destruct (truthy (body_label body));
        simpl in *; lia.
    + match goal with
      | |- context [validate ?d] => destruct (validate d) eqn:Hv
      end; simpl; [|discriminate].
      intros _. apply Forall_replaceBy; [assumption|].
      unfold withinCapacity in *.
      destruct (body_isActive body); destruct (truthy (body_label body));
        simpl in *; lia.
Qed.

(** The morning slot has 40 current bookings: a capacity of 30 is refused,
    a capacity of 60 is stored. *)
Lemma updateTimeSlot_capacity_guard_witness :
  byId 1 Sample.poolDb = Some Sample.morning
  /\ updateTimeSlot 1 (mkUpdateBody "" (Some 30) None) Sample.poolDb
     = (fail 400 "Cannot set capacity lower than current bookings (40)",
        Sample.poolDb)
  /\ Forall withinCapacity
       (timeSlots
          (snd (updateTimeSlot 1 (mkUpdateBody "" (Some 60) None)
                  Sample.poolDb))).
Proof.
  split; [reflexivity|]. split.
  - apply (proj1 (updateTimeSlot_capacity_guard 1
                    (mkUpdateBody "" (Some 30) None) Sample.poolDb
                    Sample.morning eq_refl) 30 eq_refl).
    reflexivity.
  - apply (proj2 (updateTimeSlot_capacity_guard 1
                    (mkUpdateBody "" (Some 60) None) Sample.poolDb
                    Sample.morning eq_refl)).
    + reflexivity.
    + repeat constructor. unfold withinCapacity. cbn. lia.
Defined.
End TimeSlotProps.


Module PoolProps.
Import PoolController.

Lemma validate_set_currentBookings (n : Z) (slot : TimeSlot.t) :
  TimeSlot.validate (TimeSlot.set_currentBookings n slot)
  = TimeSlot.validate slot.
Proof. reflexivity. Qed.

Lemma slotOf_saved (v : string) (db db' : Db) (slot slot' : TimeSlot.t) :
  slotOf v db = Some slot ->
  TimeSlot._id slot' = TimeSlot._id slot ->
  TimeSlot.value slot' = TimeSlot.value slot ->
  timeSlots db' = replaceBy TimeSlot._id slot' (timeSlots db) ->
  slotOf v db' = Some slot'.
Proof.
  unfold slotOf. intros Hslot Hid Hvalue ->.
  eapply find_replaceBy; eauto.
  apply find_some in Hslot as [_ Hv]. now rewrite Hvalue.
Qed.

(** C1, as amended.  With [B] persons booked on the day and slot and a
    slot capacity [C], a creation request for [p] persons is admitted (it is
    answered 201, or a booking is stored at all) only if [B + p <= C]; a
    request that has all required fields, on an active slot, with
    [B + p > C] is answered with a 400 whose message names the [C - B]
    remaining spots, and writes nothing. *)
Theorem createBooking_capacity
  (user : ObjectId) (now : Z) (body : CreateBody) (db : Db)
  (day : Z) (slot : TimeSlot.t) :
  date body = Some day ->
  slotOf (timeSlot body) db = Some slot ->
  let B := bookedPersons day (timeSlot body) db in
  let C := TimeSlot.maxCapacity slot in
  let p := persons body in
  (status (fst (createBooking user now body db)) = 201 -> B + p <= C)
  /\ (pools (snd (createBooking user now body db)) <> pools db ->
      B + p <= C)
  /\ (missingRequired body = false ->
      TimeSlot.isActive slot = true ->
      C < B + p ->
      createBooking user now body db
      = (fail 400 ("Only " ++ string_of_Z (C - B)
                   ++ " spots available in this slot")%string, db)).
Proof.
  intros Hday Hslot B C p. unfold slotOf in Hslot.
  assert (Hfull : missingRequired body = false ->
                  TimeSlot.isActive slot = true ->
                  C < B + p ->
                  createBooking user now body db
                  = (fail 400 ("Only " ++ string_of_Z (C - B)
                               ++ " spots available in this slot")%string,
                     db)).
  { intros Hreq Hact Hlt. unfold createBooking, tryCatch.
    rewrite Hday, Hreq. run_query. rewrite Hslot, Hact. cbn.
    run_query. fold (bookedPersons day (timeSlot body) db). fold B C p.
    destruct (Z.ltb_spec (C - B) p); [reflexivity|lia]. }
  assert (Hearly : B + p <= C
                   \/ exists r, createBooking user now body db = (r, db)
                                /\ status r = 400).
  { destruct (Z.le_gt_cases (B + p) C) as [Hle|Hgt]; [now left|right].
    destruct (missingRequired body) eqn:Hreq.
    - exists (fail 400 "Please provide all required fields").
      split; [|reflexivity].
      unfold createBooking, tryCatch. now rewrite Hreq.
    - destruct (TimeSlot.isActive slot) eqn:Hact.
      + eexists. split; [now apply Hfull|reflexivity].
      + exists (fail 400 "Selected time slot is not available").
        split; [|reflexivity].
        unfold createBooking, tryCatch. rewrite Hday, Hreq. run_query.
        now rewrite Hslot, Hact. }
  split; [|split]; [| |exact Hfull].
  - destruct Hearly as [Hle|(r & -> & Hr)]; [trivial|].
    cbn. rewrite Hr. discriminate.
  - destruct Hearly as [Hle|(r & -> & Hr)]; [trivial|].
    cbn. congruence.
Qed.

(** The scenario of the specification: capacity 50, 40 persons booked, a
    request for 15. *)
Lemma createBooking_capacity_witness :
  date (Sample.request "daily" 15) = Some (Sample.someDay + 3600000)
  /\ slotOf "06:00-09:00" Sample.poolDb = Some Sample.morning
  /\ createBooking 9 Sample.clock (Sample.request "daily" 15) Sample.poolDb
     = (fail 400 "Only 10 spots available in this slot", Sample.poolDb).
Proof.
  split; [reflexivity|]. split; [reflexivity|].
  apply (proj2 (proj2 (createBooking_capacity 9 Sample.clock
                         (Sample.request "daily" 15) Sample.poolDb
                         (Sample.someDay + 3600000) Sample.morning
                         eq_refl eq_refl)));
    reflexivity.
Defined.

(** Ten persons still fit: the booking is stored and the counter of the
    slot becomes 50. *)
Example createBooking_admitted :
  fst (createBooking 9 Sample.clock (Sample.request "daily" 10) Sample.poolDb)
  = ok 201 "Booking created successfully"
  /\ option_map TimeSlot.currentBookings
       (slotOf "06:00-09:00"
          (snd (createBooking 9 Sample.clock (Sample.request "daily" 10)
                  Sample.poolDb))) = Some 50.
Proof. split; reflexivity. Qed.

(** C1 as stated fails on a slot that has been deactivated: the request
    over capacity is answered by the availability guard, whose message
    does not name the remaining spots. *)
Lemma createBooking_capacity_counterexample :
  ~ (forall user now body db day slot,
       date body = Some day ->
       slotOf (timeSlot body) db = Some slot ->
       TimeSlot.maxCapacity slot
         < bookedPersons day (timeSlot body) db + persons body ->
       message (fst (createBooking user now body db))
       = ("Only "
          ++ string_of_Z (TimeSlot.maxCapacity slot
                          - bookedPersons day (timeSlot body) db)
          ++ " spots available in this slot")%string).
Proof.
  intros claim.
  specialize (claim 9%nat Sample.clock (Sample.request "daily" 15)
                Sample.closedDb (Sample.someDay + 3600000)
                Sample.closedMorning eq_refl eq_refl eq_refl).
  vm_compute in claim. discriminate claim.
Qed.

(** C10.  A booking that is created stores [ticket.price] for a family
    pass and [ticket.price * persons] otherwise, [ticket] being the active
    ticket price of the pass type. *)
Theorem createBooking_amount
  (user : ObjectId) (now : Z) (body : CreateBody) (db : Db) :
  status (fst (createBooking user now body db)) = 201 ->
  exists ticket booking,
    List.find
      (fun t => (TicketPrice.passType t =? passType body)%string
                && TicketPrice.isActive t) (ticketPrices db) = Some ticket
    /\ pools (snd (createBooking user now body db)) = pools db ++ [booking]
    /\ Pool.persons booking = persons body
    /\ Pool.amount booking
       = if (passType body =? "family")%string
         then TicketPrice.price ticket
         else TicketPrice.price ticket * persons body.
Proof.
  remember (createBooking user now body db) as res eqn:Hres.
  revert Hres. unfold createBooking, tryCatch.
  destruct (missingRequired body); cbn; [now intros ->|].
  destruct (date body) as [day|]; cbn; [|now intros ->].
  run_query.
  destruct (List.find _ (timeSlots db)) as [slot|]; cbn; [|now intros ->].
  destruct (TimeSlot.isActive slot); cbn; [|now intros ->].
  run_query.
  destruct (_ <? persons body); cbn; [now intros ->|].
  run_query.
  destruct (List.find _ (ticketPrices db)) as [ticket|] eqn:Hticket; cbn;
    [|now intros ->].
  destruct (_ <? persons body); cbn; [now intros ->|].
  run_query. run_query.
  destruct (Pool.validate _) eqn:Hvalid; cbn; [|now intros ->].
  destruct (existsb _ (pools db)); cbn; [now intros ->|].
  run_query.
  destruct (TimeSlot.validate _); cbn; [|now intros ->].
  intros -> _. eexists ticket, _. cbn. repeat split.
Qed.

(** A family pass for four persons at the flat price 30, and a daily pass
    for four persons at 5 each. *)
Lemma createBooking_amount_witness :
  (exists booking,
     pools (snd (createBooking 9 Sample.clock (Sample.request "family" 4)
                   Sample.poolDb))
     = pools Sample.poolDb ++ [booking]
     /\ Pool.amount booking = 30)
  /\ (exists booking,
        pools (snd (createBooking 9 Sample.clock (Sample.request "daily" 4)
                      Sample.poolDb))
        = pools Sample.poolDb ++ [booking]
        /\ Pool.amount booking = 20).
Proof.
  split.
  - destruct (createBooking_amount 9 Sample.clock
                (Sample.request "family" 4) Sample.poolDb eq_refl)
      as (ticket & booking & Hticket & Hpools & _ & Hamount).
    exists booking. split; [exact Hpools|].
    vm_compute in Hticket. injection Hticket as <-. exact Hamount.
  - destruct (createBooking_amount 9 Sample.clock
                (Sample.request "daily" 4) Sample.poolDb eq_refl)
      as (ticket & booking & Hticket & Hpools & _ & Hamount).
    exists booking. split; [exact Hpools|].
    vm_compute in Hticket. injection Hticket as <-. exact Hamount.
Defined.

(** C3.  A cancelled booking is brought back to [paid] or [pending] only
    if its persons fit beside the other non-cancelled bookings of its day
    and slot; when they do not fit the answer is the 400 "Slot is now
    full" and nothing is written, so the booking stays cancelled. *)
Theorem updatePaymentStatus_reactivation
  (id : ObjectId) (paymentStatus : string) (db : Db)
  (booking : Pool.t) (slot : TimeSlot.t) :
  byId id db = Some booking ->
  Pool.paymentStatus booking = "cancelled" ->
  paymentStatus = "paid" \/ paymentStatus = "pending" ->
  slotOf (Pool.timeSlot booking) db = Some slot ->
  let B := bookedByOthers booking db in
  let C := TimeSlot.maxCapacity slot in
  let p := Pool.persons booking in
  (status (fst (updatePaymentStatus id paymentStatus db)) = 200 ->
   B + p <= C)
  /\ (C < B + p ->
      updatePaymentStatus id paymentStatus db
      = (fail 400 ("Slot is now full. Only " ++ string_of_Z (C - B)
                   ++ " spots available")%string, db)).
Proof.
  intros Hfound Hcancelled Hst Hslot B C p.
  unfold byId in Hfound. unfold slotOf in Hslot. cbn in Hfound.
  assert (Hhead :
    updatePaymentStatus id paymentStatus db
    = tryCatch
        (reclaimSlot booking ;;;
         save (Pool.set_paymentStatus paymentStatus booking) ;;;
         ret (ok 200 "Payment status updated successfully"))
        (fun _ => serverError) db).
  { unfold updatePaymentStatus, tryCatch.
    destruct Hst as [-> | ->]; eval_includes; cbn; run_query;
      rewrite Hfound, Hcancelled; reflexivity. }
  destruct (Z.ltb_spec (C - B) p) as [Hfull|Hfits].
  - assert (Hres : updatePaymentStatus id paymentStatus db
      = (fail 400 ("Slot is now full. Only " ++ string_of_Z (C - B)
                   ++ " spots available")%string, db)).
    { rewrite Hhead. unfold tryCatch, reclaimSlot. run_query. rewrite Hslot.
      run_query. fold (bookedByOthers booking db). fold B C p.
      apply Z.ltb_lt in Hfull. now rewrite Hfull. }
    rewrite Hres. split; [discriminate|reflexivity].
  - split; intros; lia.
Qed.

(** Booking 14 (8 persons) was cancelled and 5 of its places were taken:
    45 persons are booked, 8 more do not fit in 50. *)
Lemma updatePaymentStatus_reactivation_witness :
  byId 14 Sample.refilledDb = Some (Sample.booking 14 8 "cancelled")
  /\ updatePaymentStatus 14 "paid" Sample.refilledDb
     = (fail 400 "Slot is now full. Only 5 spots available",
        Sample.refilledDb).
Proof.
  split; [reflexivity|].
  apply (proj2 (updatePaymentStatus_reactivation 14 "paid"
                  Sample.refilledDb (Sample.booking 14 8 "cancelled")
                  Sample.morning eq_refl eq_refl (or_introl eq_refl)
                  eq_refl)).
  reflexivity.
Defined.

(** While nobody has taken the freed places, booking 14 comes back. *)
Example updatePaymentStatus_reactivated :
  fst (updatePaymentStatus 14 "paid" Sample.poolDb)
  = ok 200 "Payment status updated successfully"
  /\ option_map Pool.paymentStatus
       (byId 14 (snd (updatePaymentStatus 14 "paid" Sample.poolDb)))
     = Some "paid"
  /\ option_map TimeSlot.currentBookings
       (slotOf "06:00-09:00"
          (snd (updatePaymentStatus 14 "paid" Sample.poolDb))) = Some 48.
Proof. repeat split; reflexivity. Qed.

(** C8.  Deleting a booking, and cancelling one that was not cancelled,
    set the counter of its time slot to
    [max(0, currentBookings - persons)], which is never negative.  The
    stored slot is taken to pass its schema, as [slot.save()] validates
    it. *)
Theorem release_floors_at_zero
  (id : ObjectId) (db : Db) (booking : Pool.t) (slot : TimeSlot.t) :
  byId id db = Some booking ->
  slotOf (Pool.timeSlot booking) db = Some slot ->
  TimeSlot.validate slot = [] ->
  let released :=
    TimeSlot.set_currentBookings
      (Z.max 0 (TimeSlot.currentBookings slot - Pool.persons booking)) slot in
  slotOf (Pool.timeSlot booking) (snd (deleteBooking id db)) = Some released
  /\ (Pool.paymentStatus booking <> "cancelled" ->
      slotOf (Pool.timeSlot booking)
        (snd (updatePaymentStatus id "cancelled" db)) = Some released)
  /\ 0 <= TimeSlot.currentBookings released.
Proof.
  intros Hfound Hslot Hvalid released.
  assert (Hsaved : forall db',
    timeSlots db' = replaceBy TimeSlot._id released (timeSlots db) ->
    slotOf (Pool.timeSlot booking) db' = Some released).
  { intros db' Hdb'. eapply slotOf_saved; eauto. }
  unfold byId in Hfound. cbn in Hfound.
  pose proof Hslot as Hslot'. unfold slotOf in Hslot'.
  split; [|split].
  - apply Hsaved. unfold deleteBooking, tryCatch. run_query.
    rewrite Hfound. unfold releaseSlot. run_query. rewrite Hslot'.
    run_query. rewrite validate_set_currentBookings, Hvalid. reflexivity.
  - intros Hactive. apply Hsaved.
    unfold updatePaymentStatus, tryCatch. eval_includes. cbn. run_query.
    rewrite Hfound.
    apply String.eqb_neq in Hactive. rewrite Hactive. cbn.
    unfold releaseSlot. run_query. rewrite Hslot'. run_query.
    rewrite validate_set_currentBookings, Hvalid. cbn.
    destruct (Pool.validate _); reflexivity.
  - cbn. lia.
Qed.

(** Booking 10 has 10 persons: a counter of 40 becomes 30, and a counter
    that had drifted to 4 becomes 0. *)
Lemma release_floors_at_zero_witness :
  option_map TimeSlot.currentBookings
    (slotOf "06:00-09:00" (snd (deleteBooking 10 Sample.poolDb))) = Some 30
  /\ option_map TimeSlot.currentBookings
       (slotOf "06:00-09:00"
          (snd (updatePaymentStatus 10 "cancelled" Sample.driftedDb)))
     = Some 0.
Proof.
  split.
  - exact (f_equal (option_map TimeSlot.currentBookings)
             (proj1 (release_floors_at_zero 10 Sample.poolDb
                       (Sample.booking 10 10 "paid") Sample.morning
                       eq_refl eq_refl eq_refl))).
  - refine (f_equal (option_map TimeSlot.currentBookings)
              (proj1 (proj2 (release_floors_at_zero 10 Sample.driftedDb
                               (Sample.booking 10 10 "paid")
                               (TimeSlot.set_currentBookings 4 Sample.morning)
                               eq_refl eq_refl eq_refl)) _)).
    discriminate.
Defined.
End PoolProps.

Module ConferenceProps.
Import ConferenceController.

Lemma newInvoiceNumber_truthy (env : Env) :
  noInvoice (Some (newInvoiceNumber env)) = false.
Proof. reflexivity. Qed.






End ConferenceProps.

Module HotelProps.
Import HotelController.

(** C2, as amended.  A check-out of a reservation whose payment is pending
    or partial is answered with a 400 and writes nothing, neither to the
    reservation nor to the room: with the payment-pending message when the
    reservation is checked in, and with the message of the check-in guard
    otherwise. *)
Theorem checkOut_blocked_while_unpaid
  (env : Env) (id : ObjectId) (db : Db) (r : Reservation.t) :
  byId id db = Some r ->
  Reservation.paymentStatus r = "pending"
  \/ Reservation.paymentStatus r = "partial" ->
  snd (checkOut env id db) = db
  /\ status (fst (checkOut env id db)) = 400
  /\ (Reservation.reservationStatus r = "checked_in" ->
      fst (checkOut env id db) = fail 400 paymentPendingMessage)
  /\ (Reservation.reservationStatus r <> "checked_in" ->
      fst (checkOut env id db)
      = fail 400 "Only checked-in guests can check out").
Proof.
  intros Hfound Hpay. unfold byId in Hfound. cbn in Hfound.
  assert (Hres :
    checkOut env id db
    = (if (Reservation.reservationStatus r =? "checked_in")%string
       then fail 400 paymentPendingMessage
       else fail 400 "Only checked-in guests can check out", db)).
  { unfold checkOut, tryCatch. run_query. rewrite Hfound.
    destruct (Reservation.reservationStatus r =? "checked_in")%string;
      cbn; [|reflexivity].
    destruct Hpay as [-> | ->]; reflexivity. }
  rewrite Hres. cbn.
  destruct (String.eqb_spec (Reservation.reservationStatus r) "checked_in");
    repeat split; try reflexivity; intros; congruence.
Qed.

(** Reservation 71 is checked in and partially paid. *)
Lemma checkOut_blocked_while_unpaid_witness :
  byId 71 Sample.hotelDb
  = Some (Sample.stay 71 "102" "checked_in" "partial")
  /\ checkOut Sample.env 71 Sample.hotelDb
     = (fail 400 paymentPendingMessage, Sample.hotelDb).
Proof.
  split; [reflexivity|].
  destruct (checkOut_blocked_while_unpaid Sample.env 71 Sample.hotelDb
              (Sample.stay 71 "102" "checked_in" "partial") eq_refl
              (or_intror eq_refl))
    as (Hdb & _ & Hmsg & _).
  rewrite (surjective_pairing (checkOut Sample.env 71 Sample.hotelDb)).
  now rewrite Hdb, (Hmsg eq_refl).
Defined.

(** Reservation 74 is checked in and paid: it is checked out and its room
    goes to cleaning. *)
Example checkOut_paid :
  fst (checkOut Sample.env 74 Sample.hotelDb)
  = ok 200 "Guest checked out successfully"
  /\ option_map Reservation.reservationStatus
       (byId 74 (snd (checkOut Sample.env 74 Sample.hotelDb)))
     = Some "checked_out"
  /\ option_map Room.status
       (byId 64 (snd (checkOut Sample.env 74 Sample.hotelDb)))
     = Some "cleaning".
Proof. repeat split; reflexivity. Qed.

(** C2 as stated fails on a reservation that is not checked in: the
    check-out is answered by the check-in guard, not by the payment one. *)
Lemma checkOut_payment_error_counterexample :
  ~ (forall env id db r,
       byId id db = Some r ->
       Reservation.paymentStatus r = "pending"
       \/ Reservation.paymentStatus r = "partial" ->
       message (fst (checkOut env id db)) = paymentPendingMessage).
Proof.
  intros claim.
  specialize (claim Sample.env 70%nat Sample.hotelDb
                (Sample.stay 70 "101" "confirmed" "pending") eq_refl
                (or_introl eq_refl)).
  vm_compute in claim. discriminate claim.
Qed.
End HotelProps.

Lemma includes_In (l : list string) (s : string) :
  includes l s = true <-> In s l.
Proof.
  unfold includes. rewrite existsb_exists. split.
  - intros (x & Hin & Heq). apply String.eqb_eq in Heq. now subst.
  - intros Hin. exists s. split; [assumption|apply String.eqb_refl].
Qed.

Module OverlapProps.

Lemma overlapsStay_spec (room : string) (ci co : Z) (r : Reservation.t) :
  HotelController.overlapsStay room ci co r = true
  <-> Reservation.roomNumber r = room /\ activeStay r
      /\ Reservation.checkIn r < co /\ ci < Reservation.checkOut r.
Proof.
  unfold HotelController.overlapsStay, activeStay.
  rewrite !andb_true_iff, String.eqb_eq, !Z.ltb_lt, includes_In. tauto.
Qed.

Lemma overlapsRequest_spec (hall : string) (s e : Z) (b : Conference.t) :
  ConferenceController.overlapsRequest hall s e b = true
  <-> Conference.hallType b = hall /\ activeBooking b
      /\ Conference.startDate b <= e /\ s <= Conference.endDate b.
Proof.
  unfold ConferenceController.overlapsRequest, activeBooking.
  rewrite !andb_true_iff, String.eqb_eq, !Z.leb_le, includes_In. tauto.
Qed.

Lemma filter_nonempty {A} (p : A -> bool) (l : list A) (x : A) :
  In x l -> p x = true -> exists y ys, filter p l = y :: ys.
Proof.
  intros Hin Hp.
  destruct (filter p l) as [|y ys] eqn:Hf.
  - assert (Hx : In x (filter p l)) by (apply filter_In; now split).
    rewrite Hf in Hx. contradiction.
  - now exists y, ys.
Qed.

(** C4, as amended.  The hotel creation check selects the active
    reservations of the room under half-open overlap ([existing.checkIn <
    requested.checkOut] and [existing.checkOut > requested.checkIn]); the
    conference creation check selects the active bookings of the hall under
    closed overlap ([existing.startDate <= requested.endDate] and
    [existing.endDate >= requested.startDate]).  A request that reaches the
    check and meets such a reservation or booking is answered with the
    overlap 400 and writes nothing. *)
Theorem creation_overlap_checks :
  (forall room ci co r,
     HotelController.overlapsStay room ci co r = true
     <-> Reservation.roomNumber r = room /\ activeStay r
         /\ Reservation.checkIn r < co /\ ci < Reservation.checkOut r)
  /\ (forall hall s e b,
        ConferenceController.overlapsRequest hall s e b = true
        <-> Conference.hallType b = hall /\ activeBooking b
            /\ Conference.startDate b <= e /\ s <= Conference.endDate b)
  /\ (forall env body db ci co room r,
        HotelController.missingRequired body = false ->
        HotelController.checkInDate body = Some ci ->
        HotelController.checkOutDate body = Some co ->
        List.find
          (fun x => (Room.roomNumber x
                     =? HotelController.roomNumber body)%string)
          (rooms db) = Some room ->
        Room.status room = "available" ->
        In r (reservations db) ->
        Reservation.roomNumber r = HotelController.roomNumber body ->
        activeStay r ->
        Reservation.checkIn r < co ->
        ci < Reservation.checkOut r ->
        HotelController.createReservation env body db
        = (fail 400 "Room is already booked for selected dates", db))
  /\ (forall env body db s e hall attendeesNum b,
        ConferenceController.missingFields body = [] ->
        ConferenceController.startDate body = ValidDate s ->
        ConferenceController.endDate body = ValidDate e ->
        s <= e ->
        List.find
          (fun h => (ConferenceHall.value h
                     =? ConferenceController.hallType body)%string
                    && ConferenceHall.isActive h)
          (conferenceHalls db) = Some hall ->
        ConferenceController.attendees body = Number attendeesNum ->
        1 <= attendeesNum <= ConferenceHall.capacity hall ->
        In b (conferences db) ->
        Conference.hallType b = ConferenceController.hallType body ->
        activeBooking b ->
        Conference.startDate b <= e ->
        s <= Conference.endDate b ->
        ConferenceController.createBooking env body db
        = (fail 400 "Hall is already booked for selected dates", db)).
Proof.
  split; [exact overlapsStay_spec|]. split; [exact overlapsRequest_spec|].
  split.
  - intros env body db ci co room r Hreq Hci Hco Hroom Havail Hin Hr Hact
      Hlt1 Hlt2.
    unfold HotelController.createReservation, tryCatch.
    rewrite Hreq, Hci, Hco. run_query. rewrite Hroom, Havail. cbn.
    run_query.
    destruct (filter_nonempty
                (HotelController.overlapsStay
                   (HotelController.roomNumber body) ci co)
                (reservations db) r Hin) as (y & ys & ->).
    { apply overlapsStay_spec. tauto. }
    reflexivity.
  - intros env body db s e hall n b Hreq Hs He Hle Hhall Hn Hcap Hin Hb
      Hact Hle1 Hle2.
    unfold ConferenceController.createBooking, tryCatch.
    rewrite Hreq, Hs, He.
    destruct (Z.ltb_spec e s); [lia|]. run_query. rewrite Hhall, Hn.
    destruct (Z.ltb_spec n 1); [lia|].
    destruct (Z.ltb_spec (ConferenceHall.capacity hall) n); [lia|].
    run_query.
    destruct (filter_nonempty
                (ConferenceController.overlapsRequest
                   (ConferenceController.hallType body) s e)
                (conferences db) b Hin) as (y & ys & ->).
    { apply overlapsRequest_spec. tauto. }
    reflexivity.
Qed.
(** Room 104 is booked from day 20000 to day 20003: a stay from day 20002
    is refused.  Hall A is booked up to day 20002: a booking that starts on
    day 20002 is refused. *)
Lemma creation_overlap_checks_witness :
  HotelController.createReservation Sample.env
    (Sample.visit "104" (Sample.someDay + 2 * dayMs)
       (Sample.someDay + 5 * dayMs)) Sample.hotelDb
  = (fail 400 "Room is already booked for selected dates", Sample.hotelDb)
  /\ ConferenceController.createBooking Sample.env
       (Sample.expo (Sample.someDay + 2 * dayMs) (Sample.someDay + 4 * dayMs))
       Sample.conferenceDb
     = (fail 400 "Hall is already booked for selected dates",
        Sample.conferenceDb).
Proof.
  destruct creation_overlap_checks as (_ & _ & Hhotel & Hhall). split.
  - apply (Hhotel Sample.env _ Sample.hotelDb (Sample.someDay + 2 * dayMs)
             (Sample.someDay + 5 * dayMs) (Sample.room 63 "104" "available")
             (Sample.stay 73 "104" "confirmed" "paid"));
      first [reflexivity | cbn; tauto].
  - apply (Hhall Sample.env _ Sample.conferenceDb
             (Sample.someDay + 2 * dayMs) (Sample.someDay + 4 * dayMs)
             Sample.hallA 50 Sample.summit);
      first [reflexivity | discriminate | split; discriminate | cbn; tauto].
Defined.

(** A stay that begins at the check-out instant of the stored one passes the
    hotel check. *)
Example createReservation_back_to_back :
  HotelController.createReservation Sample.env
    (Sample.visit "104" (Sample.someDay + 3 * dayMs)
       (Sample.someDay + 5 * dayMs)) Sample.hotelDb
  = (ok 201 "Reservation created successfully",
     snd (HotelController.createReservation Sample.env
            (Sample.visit "104" (Sample.someDay + 3 * dayMs)
               (Sample.someDay + 5 * dayMs)) Sample.hotelDb)).
Proof. reflexivity. Qed.

(** C4 as stated fails in the conference check: a stored booking that ends
    on the day the request starts is selected, although
    [existing.endDate > requested.startDate] does not hold, and the request
    is refused as overlapping. *)
Lemma conference_overlap_counterexample :
  ~ (forall hall s e b,
       ConferenceController.overlapsRequest hall s e b = true
       <-> Conference.hallType b = hall /\ activeBooking b
           /\ Conference.startDate b < e /\ s < Conference.endDate b).
Proof.
  intros claim.
  destruct (claim "hall_a" (Sample.someDay + 2 * dayMs)
              (Sample.someDay + 4 * dayMs) Sample.summit) as [Hhalf _].
  destruct (Hhalf eq_refl) as (_ & _ & _ & Hlt).
  vm_compute in Hlt. discriminate Hlt.
Qed.
End OverlapProps.

Module DeleteProps.

Lemma validate_set_available (room : Room.t) :
  Room.validate room = [] ->
  Room.validate (Room.set_status "available" room) = [].
Proof.
  unfold Room.validate. cbn [Room.set_status Room.roomNumber Room.roomType
    Room.floor Room.status].
  intros H. repeat (apply app_eq_nil in H as [?E H]).
  now rewrite E, E0, E1.
Qed.

Lemma activeStay_spec (r : Reservation.t) :
  (Reservation.reservationStatus r =? "confirmed")%string
  || (Reservation.reservationStatus r =? "checked_in")%string = true
  <-> activeStay r.
Proof.
  unfold activeStay. cbn [In]. rewrite orb_true_iff, !String.eqb_eq.
  intuition congruence.
Qed.

(** C5, as amended.  Deleting a conference booking whose status is
    [confirmed] or [completed] is answered with a 400 and the booking stays
    stored.  The hotel and pool delete handlers have no such guard and never
    answer 400.  A stored reservation is deleted whatever its status, the
    other reservations staying as they are, when the room of its number
    passes the schema; the room becomes [available] if the reservation was
    active and no other active stay in the room overlaps it, and the rooms
    are untouched otherwise.  A stored pool booking is deleted, the other
    bookings staying as they are, when the slot of its value passes the
    schema; the counter of that slot loses the persons of the booking, not
    going below zero. *)
Theorem delete_terminal_rejected :
  (forall id db b,
     byId id db = Some b ->
     Conference.bookingStatus b = "confirmed"
     \/ Conference.bookingStatus b = "completed" ->
     ConferenceController.deleteBooking id db
     = (fail 400 "Cannot delete confirmed or completed bookings", db))
  /\ (forall id db,
        status (fst (HotelController.deleteReservation id db)) <> 400)
  /\ (forall id db,
        status (fst (PoolController.deleteBooking id db)) <> 400)
  /\ (forall id db r,
        byId id db = Some r ->
        (forall room,
           roomOf (Reservation.roomNumber r) db = Some room ->
           Room.validate room = []) ->
        let db' := snd (HotelController.deleteReservation id db) in
        fst (HotelController.deleteReservation id db)
        = ok 200 "Reservation deleted successfully"
        /\ byId (A := Reservation.t) id db' = None
        /\ (forall j, j <> id ->
              byId (A := Reservation.t) j db' = byId j db)
        /\ (forall room,
              activeStay r ->
              filter (HotelController.otherStay r) (reservations db) = [] ->
              roomOf (Reservation.roomNumber r) db = Some room ->
              roomOf (Reservation.roomNumber r) db'
              = Some (Room.set_status "available" room))
        /\ (~ activeStay r
            \/ filter (HotelController.otherStay r) (reservations db) <> []
            \/ roomOf (Reservation.roomNumber r) db = None ->
            rooms db' = rooms db))
  /\ (forall id db b,
        byId id db = Some b ->
        (forall slot,
           slotOf (Pool.timeSlot b) db = Some slot ->
           TimeSlot.validate slot = []) ->
        let db' := snd (PoolController.deleteBooking id db) in
        fst (PoolController.deleteBooking id db)
        = ok 200 "Booking deleted successfully"
        /\ byId (A := Pool.t) id db' = None
        /\ (forall j, j <> id -> byId (A := Pool.t) j db' = byId j db)
        /\ (forall slot,
              slotOf (Pool.timeSlot b) db = Some slot ->
              slotOf (Pool.timeSlot b) db'
              = Some (TimeSlot.set_currentBookings
                        (Z.max 0 (TimeSlot.currentBookings slot
                                  - Pool.persons b)) slot))
        /\ (slotOf (Pool.timeSlot b) db = None ->
            timeSlots db' = timeSlots db)).
Proof.
  split; [|split; [|split; [|split]]].
  - intros id db b Hfound Hst. unfold byId in Hfound. cbn in Hfound.
    unfold ConferenceController.deleteBooking, tryCatch. run_query.
    rewrite Hfound. destruct Hst as [-> | ->]; reflexivity.
  - intros id db. unfold HotelController.deleteReservation, tryCatch.
    run_query.
    destruct (List.find _ (reservations db)) as [r|]; cbn; [|discriminate].
    destruct ((Reservation.reservationStatus r =? "confirmed")%string
              || (Reservation.reservationStatus r =? "checked_in")%string);
      cbn; [|discriminate].
    run_query.
    destruct (List.find _ (rooms db)) as [room|]; cbn; [|discriminate].
    run_query. destruct (filter _ _); cbn; [|discriminate].
    run_query. destruct (Room.validate _); cbn; discriminate.
  - intros id db. unfold PoolController.deleteBooking, tryCatch.
    run_query.
    destruct (List.find _ (pools db)) as [b|]; cbn; [|discriminate].
    unfold PoolController.releaseSlot. run_query.
    destruct (List.find _ (timeSlots db)) as [slot|]; cbn; [|discriminate].
    run_query. destruct (TimeSlot.validate _); cbn; discriminate.
  - intros id db r Hfound Hvalid db'. subst db'.
    pose proof Hfound as Hfind. unfold byId in Hfind. cbn in Hfind.
    assert (Hid : Reservation._id r = id).
    { apply find_some in Hfind as [_ E]. now apply Nat.eqb_eq in E. }
    unfold roomOf in *.
    remember (HotelController.deleteReservation id db) as res eqn:Hres.
    revert Hres.
    unfold HotelController.deleteReservation, tryCatch. run_query.
    rewrite Hfind.
    destruct ((Reservation.reservationStatus r =? "confirmed")%string
              || (Reservation.reservationStatus r =? "checked_in")%string)
      eqn:Hactive; cbn.
    + apply activeStay_spec in Hactive. run_query.
      destruct (List.find _ (rooms db)) as [room|] eqn:Hroom; cbn.
      * run_query.
        destruct (filter (HotelController.otherStay r) (reservations db))
          as [|x others] eqn:Hothers; cbn.
        -- run_query. rewrite (validate_set_available room (Hvalid _ eq_refl)).
           cbn. rewrite Hid. intros ->. cbn. repeat split.
           ++ apply find_deleted.
           ++ intros j Hj. unfold byId. cbn. now apply find_not_deleted.
           ++ intros room' _ _ [= <-].
              eapply find_replaceBy; [exact Hroom|reflexivity|].
              cbn. now apply find_some in Hroom as [_ Hn].
           ++ intros [Hn | [Hn | Hn]]; [tauto|tauto|discriminate].
        -- rewrite Hid. intros ->. cbn. repeat split.
           ++ apply find_deleted.
           ++ intros j Hj. unfold byId. cbn. now apply find_not_deleted.
           ++ intros room' _ [=].
      * rewrite Hid. intros ->. cbn. repeat split.
        -- apply find_deleted.
        -- intros j Hj. unfold byId. cbn. now apply find_not_deleted.
        -- intros room' _ _ [=].
    + assert (Hn : ~ activeStay r).
      { intros H. apply activeStay_spec in H. congruence. }
      run_query. rewrite Hid. intros ->. cbn. repeat split.
      * apply find_deleted.
      * intros j Hj. unfold byId. cbn. now apply find_not_deleted.
      * intros room' H. contradiction.
  - intros id db b Hfound Hvalid db'. subst db'.
    pose proof Hfound as Hfind. unfold byId in Hfind. cbn in Hfind.
    assert (Hid : Pool._id b = id).
    { apply find_some in Hfind as [_ E]. now apply Nat.eqb_eq in E. }
    unfold slotOf in *.
    remember (PoolController.deleteBooking id db) as res eqn:Hres.
    revert Hres.
    unfold PoolController.deleteBooking, tryCatch. run_query.
    rewrite Hfind. unfold PoolController.releaseSlot. run_query.
    destruct (List.find _ (timeSlots db)) as [slot|] eqn:Hslot; cbn.
    + run_query.
      rewrite PoolProps.validate_set_currentBookings, (Hvalid _ eq_refl).
      cbn. rewrite Hid. intros ->. cbn. repeat split.
      * apply find_deleted.
      * intros j Hj. unfold byId. cbn. now apply find_not_deleted.
      * intros slot' [= <-].
        eapply find_replaceBy; [exact Hslot|reflexivity|].
        cbn. now apply find_some in Hslot as [_ Hv].
      * discriminate.
    + rewrite Hid. intros ->. cbn. repeat split.
      * apply find_deleted.
      * intros j Hj. unfold byId. cbn. now apply find_not_deleted.
      * intros slot' [=].
Qed.

(** The confirmed summit cannot be deleted; the confirmed stay in room 101
    is deleted and the room freed; the paid booking for ten is deleted and
    the counter of its slot falls from 40 to 30. *)
Lemma delete_terminal_rejected_witness :
  (byId 50 Sample.confirmedDb = Some Sample.confirmedSummit
   /\ ConferenceController.deleteBooking 50 Sample.confirmedDb
      = (fail 400 "Cannot delete confirmed or completed bookings",
         Sample.confirmedDb))
  /\ (fst (HotelController.deleteReservation 70 Sample.hotelDb)
      = ok 200 "Reservation deleted successfully"
      /\ byId (A := Reservation.t) 70
           (snd (HotelController.deleteReservation 70 Sample.hotelDb)) = None
      /\ roomOf "101"
           (snd (HotelController.deleteReservation 70 Sample.hotelDb))
         = Some (Sample.room 60 "101" "available"))
  /\ (fst (PoolController.deleteBooking 10 Sample.poolDb)
      = ok 200 "Booking deleted successfully"
      /\ byId (A := Pool.t) 10
           (snd (PoolController.deleteBooking 10 Sample.poolDb)) = None
      /\ slotOf "06:00-09:00"
           (snd (PoolController.deleteBooking 10 Sample.poolDb))
         = Some (TimeSlot.set_currentBookings 30 Sample.morning)).
Proof.
  destruct delete_terminal_rejected as (Hconf & _ & _ & Hhotel & Hpool).
  split; [split; [reflexivity|]|split].
  - exact (Hconf 50%nat Sample.confirmedDb Sample.confirmedSummit eq_refl
             (or_introl eq_refl)).
  - destruct (Hhotel 70%nat Sample.hotelDb
                (Sample.stay 70 "101" "confirmed" "pending") eq_refl)
      as (Hok & Hgone & _ & Hfreed & _).
    + intros room Hroom. vm_compute in Hroom. injection Hroom as <-.
      reflexivity.
    + split; [exact Hok|]. split; [exact Hgone|].
      exact (Hfreed (Sample.room 60 "101" "occupied")
               (or_introl eq_refl) eq_refl eq_refl).
  - destruct (Hpool 10%nat Sample.poolDb (Sample.booking 10 10 "paid")
                eq_refl)
      as (Hok & Hgone & _ & Hslot & _).
    + intros slot Hslot. vm_compute in Hslot. injection Hslot as <-.
      reflexivity.
    + split; [exact Hok|]. split; [exact Hgone|].
      exact (Hslot Sample.morning eq_refl).
Defined.

(** The pending summit, a confirmed reservation and a paid pool booking are
    deleted. *)
Example delete_accepted :
  ConferenceController.deleteBooking 50 Sample.conferenceDb
  = (ok 200 "Booking deleted successfully",
     set_conferences [] Sample.conferenceDb)
  /\ fst (HotelController.deleteReservation 70 Sample.hotelDb)
     = ok 200 "Reservation deleted successfully"
  /\ byId (A := Reservation.t) 70
       (snd (HotelController.deleteReservation 70 Sample.hotelDb)) = None
  /\ fst (PoolController.deleteBooking 10 Sample.poolDb)
     = ok 200 "Booking deleted successfully"
  /\ byId (A := Pool.t) 10
       (snd (PoolController.deleteBooking 10 Sample.poolDb)) = None.
Proof. repeat split; reflexivity. Qed.

(** [room.save()] comes before [reservation.deleteOne()]: with a stored
    room that fails the schema (it has no room type), the confirmed
    reservation of room 101 is not deleted. *)
Example delete_behind_invalid_room :
  HotelController.deleteReservation 70
    (set_rooms [Room.mk 60 "101" "" 1 "occupied" 120 true] Sample.hotelDb)
  = (serverError,
     set_rooms [Room.mk 60 "101" "" 1 "occupied" 120 true] Sample.hotelDb).
Proof. reflexivity. Qed.

(** C5 as stated fails in the hotel module: a checked-out reservation is
    deleted. *)
Lemma delete_terminal_counterexample :
  ~ (forall id db r,
       byId id db = Some r ->
       In (Reservation.reservationStatus r) ["confirmed"; "checked_out"] ->
       status (fst (HotelController.deleteReservation id db)) = 400
       /\ byId id (snd (HotelController.deleteReservation id db)) = Some r).
Proof.
  intros claim.
  destruct (claim 72%nat Sample.hotelDb
              (Sample.stay 72 "103" "checked_out" "paid") eq_refl
              (or_intror (or_introl eq_refl))) as [Hstatus _].
  vm_compute in Hstatus. discriminate Hstatus.
Qed.
End DeleteProps.

Section UpsertLoop.
Context {A D : Type}.
Variable step : D -> Handler A.
Variable loop : list D -> list A -> Handler (list A).
Variable dkey : D -> string.
Variable inv : Db -> Prop.
Variable settled : D -> Db -> Prop.

Hypothesis loop_nil : forall rs db, loop [] rs db = (Value rs, db).
Hypothesis loop_cons : forall d ds rs db,
  loop (d :: ds) rs db = bind (step d) (fun a => loop ds (rs ++ [a])) db.
Hypothesis step_settled : forall d db,
  inv db -> settled d db -> exists a, step d db = (Value a, db).
Hypothesis step_result : forall d db o db',
  inv db -> step d db = (o, db') ->
  inv db'
  /\ match o with
     | Value _ => settled d db'
     | Thrown _ => db' = db
     | Sent _ => False
     end
  /\ (forall d0, dkey d0 <> dkey d -> settled d0 db -> settled d0 db').

Lemma loop_idempotent (ds : list D) :
  forall rs db o db',
    inv db -> NoDup (map dkey ds) -> loop ds rs db = (o, db') ->
    inv db'
    /\ (forall d0, ~ In (dkey d0) (map dkey ds) ->
        settled d0 db -> settled d0 db')
    /\ (forall rs', exists o', loop ds rs' db' = (o', db') /\ sameKind o o').
Proof.
  induction ds as [|d ds IH]; intros rs db o db' Hinv Hnd Hrun.
  - rewrite loop_nil in Hrun. injection Hrun as <- <-.
    split; [assumption|]. split; [trivial|].
    intros rs'. exists (Value rs'). now rewrite loop_nil.
  - rewrite loop_cons in Hrun. unfold bind in Hrun.
    destruct (step d db) as [o1 db1] eqn:Hstep.
    destruct (step_result d db o1 db1 Hinv Hstep) as (Hinv1 & Hout & Hframe).
    inversion Hnd as [|k ks Hnotin Hnd']; subst.
    destruct o1 as [r|e|a]; [contradiction| |].
    + injection Hrun as <- <-. subst db1.
      split; [assumption|]. split; [trivial|].
      intros rs'. exists (Thrown e). split; [|exact I].
      rewrite loop_cons. unfold bind. now rewrite Hstep.
    + destruct (IH (rs ++ [a]) db1 o db' Hinv1 Hnd' Hrun)
        as (Hinv' & Hframe' & Hagain).
      split; [assumption|]. split.
      * intros d0 Hd0 Hs. apply Hframe'.
        -- intros Hin. apply Hd0. now right.
        -- apply Hframe; [|assumption]. intros E. apply Hd0. now left.
      * intros rs'.
        destruct (step_settled d db' Hinv' (Hframe' d Hnotin Hout))
          as (a' & Hstep').
        destruct (Hagain (rs' ++ [a'])) as (o' & Hrun' & Hkind).
        exists o'. split; [|assumption].
        rewrite loop_cons. unfold bind. now rewrite Hstep'.
Qed.

(** A loop that returns has settled every default. *)
Lemma loop_settles (ds : list D) :
  forall rs db rs' db',
    inv db -> NoDup (map dkey ds) -> loop ds rs db = (Value rs', db') ->
    forall d, In d ds -> settled d db'.
Proof.
  induction ds as [|d ds IH]; intros rs db rs' db' Hinv Hnd Hrun d0 Hin;
    [contradiction|].
  rewrite loop_cons in Hrun. unfold bind in Hrun.
  destruct (step d db) as [o1 db1] eqn:Hstep.
  destruct (step_result d db o1 db1 Hinv Hstep) as (Hinv1 & Hout & _).
  inversion Hnd as [|k ks Hnotin Hnd']; subst.
  destruct o1 as [r|e|a]; [contradiction|discriminate|].
  destruct Hin as [<- | Hin].
  - destruct (loop_idempotent ds (rs ++ [a]) db1 (Value rs') db' Hinv1 Hnd'
                Hrun) as (_ & Hframe & _).
    now apply Hframe.
  - exact (IH (rs ++ [a]) db1 rs' db' Hinv1 Hnd' Hrun d0 Hin).
Qed.
End UpsertLoop.

Lemma set_timeSlots_same (db : Db) : set_timeSlots (timeSlots db) db = db.
Proof. now destruct db. Qed.

Lemma set_services_same (db : Db) : set_services (services db) db = db.
Proof. now destruct db. Qed.

Module InitializeProps.
Import TimeSlotController.

Lemma initializeSlot_settled (d : SlotData) (db : Db) :
  uniqueIds (A := TimeSlot.t) db -> settledSlot d db ->
  exists a, initializeSlot d db = (Value a, db).
Proof.
  intros [Hnd _] (e & Hfind & Hmax & Hcur & Hvalid). exists e.
  unfold slotOf in Hfind. unfold initializeSlot. run_query. rewrite Hfind.
  assert (He : TimeSlot.set_currentBookings (d_currentBookings d)
                 (TimeSlot.set_maxCapacity (d_maxCapacity d) e) = e).
  { destruct e; cbn in *. now subst. }
  rewrite He. run_query. rewrite Hvalid.
  rewrite replaceBy_self, set_timeSlots_same; [reflexivity|].
  intros y Hy Hk. apply find_some in Hfind as [Hin _].
  now apply (unique_by_id TimeSlot._id (timeSlots db)).
Qed.

Lemma initializeSlot_result (d : SlotData) (db : Db)
  (o : Outcome TimeSlot.t) (db' : Db) :
  uniqueIds (A := TimeSlot.t) db -> initializeSlot d db = (o, db') ->
  uniqueIds (A := TimeSlot.t) db'
  /\ match o with
     | Value _ => settledSlot d db'
     | Thrown _ => db' = db
     | Sent _ => False
     end
  /\ (forall d0, d_value d0 <> d_value d ->
      settledSlot d0 db -> settledSlot d0 db').
Proof.
  intros Hinv. pose proof Hinv as [Hnd Hlt]. cbn in Hnd, Hlt.
  unfold initializeSlot. run_query.
  destruct (List.find _ (timeSlots db)) as [e|] eqn:Hfind.
  - run_query.
    destruct (TimeSlot.validate _) eqn:Hvalid; cbn;
      [|intros [= <- <-]; repeat split; trivial].
    set (e' := TimeSlot.set_currentBookings (d_currentBookings d)
                 (TimeSlot.set_maxCapacity (d_maxCapacity d) e)) in *.
    pose proof (find_some _ _ Hfind) as [Hin Hval].
    intros [= <- <-]. split; [|split].
    + split; cbn.
      * now rewrite ids_replaceBy.
      * apply Forall_replaceBy; [assumption|].
        rewrite Forall_forall in Hlt. exact (Hlt e Hin).
    + exists e'. unfold slotOf. cbn. repeat split; try assumption.
      eapply find_replaceBy; eauto.
    + intros d0 Hd0 (e0 & Hfind0 & Hrest). exists e0. split; [|exact Hrest].
      unfold slotOf in *. cbn. rewrite find_replaceBy_other; [assumption| |].
      * intros y Hy Hk.
        rewrite (unique_by_id TimeSlot._id (timeSlots db) y e Hnd Hy Hin Hk).
        apply String.eqb_eq in Hval. rewrite Hval.
        apply String.eqb_neq. congruence.
      * cbn. apply String.eqb_eq in Hval. rewrite Hval.
        apply String.eqb_neq. congruence.
  - run_query.
    destruct (TimeSlot.validate _) eqn:Hvalid; cbn;
      [|intros [= <- <-]; repeat split; trivial].
    destruct (existsb _ _); cbn; [intros [= <- <-]; repeat split; trivial|].
    intros [= <- <-]. split; [|split].
    + destruct (ids_snoc TimeSlot._id (timeSlots db)
                  (newSlot d (nextId db)) (nextId db) Hnd Hlt eq_refl).
      split; assumption.
    + exists (newSlot d (nextId db)). unfold slotOf. cbn.
      repeat split; try assumption.
      apply find_snoc_new; [assumption|]. cbn. apply String.eqb_refl.
    + intros d0 Hd0 (e0 & Hfind0 & Hrest). exists e0. split; [|exact Hrest].
      unfold slotOf in *. cbn. now apply find_snoc_found.
Qed.

Lemma initializeAll_idempotent (db : Db) (o : Outcome (list TimeSlot.t))
  (db' : Db) :
  uniqueIds (A := TimeSlot.t) db ->
  initializeAll defaultSlots [] db = (o, db') ->
  exists o', initializeAll defaultSlots [] db' = (o', db') /\ sameKind o o'.
Proof.
  intros Hinv Hrun.
  destruct (loop_idempotent initializeSlot initializeAll d_value
              (uniqueIds (A := TimeSlot.t)) settledSlot
              (fun rs db => eq_refl) (fun d ds rs db => eq_refl)
              initializeSlot_settled initializeSlot_result
              defaultSlots [] db o db' Hinv) as (_ & _ & Hagain).
  - cbv [List.map defaultSlots d_value].
    repeat (constructor; [cbn; intuition discriminate|]). constructor.
  - exact Hrun.
  - exact (Hagain []).
Qed.

Import ServiceController.

Lemma initializeService_settled (d : ServiceData) (db : Db) :
  uniqueIds (A := Service.t) db -> settledService d db ->
  exists a, initializeService d db = (Value a, db).
Proof.
  intros [Hnd _] (e & Hfind & Hsame & Hvalid). exists e.
  unfold initializeService. run_query. rewrite Hfind, Hsame.
  run_query. rewrite Hvalid.
  rewrite replaceBy_self, set_services_same; [reflexivity|].
  intros y Hy Hk. apply find_some in Hfind as [Hin _].
  now apply (unique_by_id Service._id (services db)).
Qed.

Lemma initializeService_result (d : ServiceData) (db : Db)
  (o : Outcome Service.t) (db' : Db) :
  uniqueIds (A := Service.t) db -> initializeService d db = (o, db') ->
  uniqueIds (A := Service.t) db'
  /\ match o with
     | Value _ => settledService d db'
     | Thrown _ => db' = db
     | Sent _ => False
     end
  /\ (forall d0, d_name d0 <> d_name d ->
      settledService d0 db -> settledService d0 db').
Proof.
  intros Hinv. pose proof Hinv as [Hnd Hlt]. cbn in Hnd, Hlt.
  unfold initializeService. run_query.
  destruct (List.find _ (services db)) as [e|] eqn:Hfind.
  - run_query.
    destruct (Service.validate _) eqn:Hvalid; cbn;
      [|intros [= <- <-]; repeat split; trivial].
    pose proof (find_some _ _ Hfind) as [Hin Hname].
    apply String.eqb_eq in Hname.
    intros [= <- <-]. split; [|split].
    + split; cbn.
      * now rewrite ids_replaceBy.
      * apply Forall_replaceBy; [assumption|].
        rewrite Forall_forall in Hlt. exact (Hlt e Hin).
    + exists (assign e d). unfold settledService. cbn.
      repeat split; try assumption.
      eapply find_replaceBy; eauto. cbn. apply String.eqb_refl.
    + intros d0 Hd0 (e0 & Hfind0 & Hrest). exists e0. split; [|exact Hrest].
      cbn. rewrite find_replaceBy_other; [assumption| |].
      * intros y Hy Hk.
        rewrite (unique_by_id Service._id (services db) y e Hnd Hy Hin Hk).
        rewrite Hname. apply String.eqb_neq. congruence.
      * cbn. apply String.eqb_neq. congruence.
  - run_query.
    destruct (Service.validate _) eqn:Hvalid; cbn;
      [|intros [= <- <-]; repeat split; trivial].
    destruct (existsb _ _); cbn; [intros [= <- <-]; repeat split; trivial|].
    intros [= <- <-]. split; [|split].
    + destruct (ids_snoc Service._id (services db)
                  (newService d (nextId db)) (nextId db) Hnd Hlt eq_refl).
      split; assumption.
    + exists (newService d (nextId db)). cbn.
      repeat split; try assumption.
      apply find_snoc_new; [assumption|]. cbn. apply String.eqb_refl.
    + intros d0 Hd0 (e0 & Hfind0 & Hrest). exists e0. split; [|exact Hrest].
      cbn. now apply find_snoc_found.
Qed.

Lemma initializeAllServices_idempotent (db : Db)
  (o : Outcome (list Service.t)) (db' : Db) :
  uniqueIds (A := Service.t) db ->
  ServiceController.initializeAll defaultServices [] db = (o, db') ->
  exists o',
    ServiceController.initializeAll defaultServices [] db' = (o', db')
    /\ sameKind o o'.
Proof.
  intros Hinv Hrun.
  destruct (loop_idempotent initializeService ServiceController.initializeAll
              d_name (uniqueIds (A := Service.t)) settledService
              (fun rs db => eq_refl) (fun d ds rs db => eq_refl)
              initializeService_settled initializeService_result
              defaultServices [] db o db' Hinv) as (_ & _ & Hagain).
  - cbv [List.map defaultServices d_name].
    repeat (constructor; [cbn; intuition discriminate|]). constructor.
  - exact Hrun.
  - exact (Hagain []).
Qed.

(** C6.  On a database whose ids are unique, running the time-slot (or
    service) initialization a second time gives the same answer and leaves
    the database exactly as the first run left it: nothing is created again
    and no field of a stored slot or service changes. *)
Theorem initialize_idempotent (db : Db) :
  uniqueIds (A := TimeSlot.t) db ->
  uniqueIds (A := Service.t) db ->
  initializeTimeSlots (snd (initializeTimeSlots db))
  = initializeTimeSlots db
  /\ initializeServices (snd (initializeServices db))
     = initializeServices db.
Proof.
  intros Hslots Hservices. split.
  - pose proof (initializeAll_idempotent db) as Hagain.
    unfold initializeTimeSlots, tryCatch, bind.
    set (run := TimeSlotController.initializeAll defaultSlots []) in *.
    clearbody run. destruct (run db) as [o db'].
    destruct (Hagain o db' Hslots eq_refl) as (o' & Hrun' & Hkind).
    destruct o as [r|e|a]; destruct o' as [r'|e'|a']; try contradiction;
      cbn; rewrite Hrun'; reflexivity.
  - pose proof (initializeAllServices_idempotent db) as Hagain.
    unfold initializeServices, tryCatch, bind.
    set (run := ServiceController.initializeAll defaultServices []) in *.
    clearbody run. destruct (run db) as [o db'].
    destruct (Hagain o db' Hservices eq_refl) as (o' & Hrun' & Hkind).
    destruct o as [r|e|a]; destruct o' as [r'|e'|a']; try contradiction;
      cbn; rewrite Hrun'; reflexivity.
Qed.
(** The pool database holds the morning slot with 40 current bookings and
    no service. *)
Lemma initialize_idempotent_witness :
  uniqueIds (A := TimeSlot.t) Sample.poolDb
  /\ uniqueIds (A := Service.t) Sample.poolDb
  /\ initializeTimeSlots (snd (initializeTimeSlots Sample.poolDb))
     = initializeTimeSlots Sample.poolDb
  /\ initializeServices (snd (initializeServices Sample.poolDb))
     = initializeServices Sample.poolDb.
Proof.
  assert (Hslots : uniqueIds (A := TimeSlot.t) Sample.poolDb).
  { split; cbv [docs TimeSlot_Collection doc_id Sample.poolDb timeSlots
                  List.map Sample.morning TimeSlot._id nextId].
    - constructor; [intros []|constructor].
    - constructor; [|constructor]. repeat constructor. }
  assert (Hservices : uniqueIds (A := Service.t) Sample.poolDb).
  { split; constructor. }
  split; [exact Hslots|]. split; [exact Hservices|].
  exact (initialize_idempotent Sample.poolDb Hslots Hservices).
Defined.

(** The first run stores the five default slots, the morning slot among them
    with its counter reset, and the second run stores nothing more. *)
Example initializeTimeSlots_twice :
  map TimeSlot.value
    (timeSlots (snd (initializeTimeSlots
                       (snd (initializeTimeSlots Sample.poolDb)))))
  = map d_value defaultSlots
  /\ slotOf "06:00-09:00" (snd (initializeTimeSlots Sample.poolDb))
     = Some (TimeSlot.set_currentBookings 12 Sample.morning).
Proof. split; reflexivity. Qed.
End InitializeProps.

(** * Further properties of the controllers *)

(** ** Schema validators *)

Lemma minMax_nil (v lo hi : Z) (a b : string) :
  minMax v lo hi a b = [] -> lo <= v <= hi.
Proof.
  unfold minMax. destruct (Z.ltb_spec v lo); [discriminate|].
  destruct (Z.ltb_spec hi v); [discriminate|]. lia.
Qed.

Lemma requiredEnum_nil (path v msg : string) (values : list string) :
  requiredEnum path v msg values = [] -> In v values.
Proof.
  unfold requiredEnum. destruct (negb (truthy v)); [discriminate|].
  destruct (includes values v) eqn:E; [|discriminate].
  intros _. now apply includes_In.
Qed.

Lemma optionalEnum_nil (path v : string) (values : list string) :
  optionalEnum path v values = [] <-> In v values.
Proof.
  unfold optionalEnum. rewrite <- includes_In.
  destruct (includes values v); split; congruence.
Qed.

#[local] Arguments PoolController.assignFields : simpl never.
#[local] Arguments HotelController.assignFields : simpl never.

Module PoolCounter.
Import PoolController.

Lemma totalPersons_snoc (l : list Pool.t) (b : Pool.t) :
  totalPersons (l ++ [b]) = totalPersons l + Pool.persons b.
Proof. unfold totalPersons. now rewrite fold_left_app. Qed.

Lemma startOfDay_range (t : Z) :
  startOfDay t <= startOfDay t <= endOfDay t.
Proof. unfold endOfDay, dayMs. lia. Qed.

(** What a valid pool booking satisfies. *)
Lemma validate_nil (b : Pool.t) :
  Pool.validate b = [] ->
  In (Pool.timeSlot b) Pool.timeSlots
  /\ In (Pool.passType b) Pool.passTypes
  /\ 1 <= Pool.persons b <= 10
  /\ In (Pool.paymentStatus b) Pool.paymentStatuses.
Proof.
  unfold Pool.validate. intros H.
  repeat (apply app_eq_nil in H as [? H]).
  repeat split.
  - eapply requiredEnum_nil; eassumption.
  - eapply requiredEnum_nil; eassumption.
  - eapply (proj1 (minMax_nil _ _ _ _ _ ltac:(eassumption))).
  - eapply (proj2 (minMax_nil _ _ _ _ _ ltac:(eassumption))).
  - eapply optionalEnum_nil; eassumption.
Qed.

Lemma validate_set_paymentStatus (st : string) (b : Pool.t) :
  Pool.validate b = [] -> In st Pool.paymentStatuses ->
  Pool.validate (Pool.set_paymentStatus st b) = [].
Proof.
  unfold Pool.validate. cbn [Pool.set_paymentStatus Pool.customerName
    Pool.email Pool.phone Pool.timeSlot Pool.passType Pool.persons
    Pool.paymentStatus].
  intros H Hst.
  repeat (apply app_eq_nil in H as [?E H]).
  rewrite E, E0, E1, E2, E3, E4. cbn [app].
  now apply optionalEnum_nil.
Qed.

(** X1.  After a creation answered 201 whose payment status is not
    [cancelled], the counter of the slot equals the persons of the
    non-cancelled bookings of that day and slot, and does not exceed the
    capacity. *)
Theorem createBooking_counter_in_sync
  (user : ObjectId) (now : Z) (body : CreateBody) (db : Db) (day : Z) :
  date body = Some day ->
  paymentStatus body <> "cancelled" ->
  status (fst (createBooking user now body db)) = 201 ->
  exists slot,
    slotOf (timeSlot body) (snd (createBooking user now body db)) = Some slot
    /\ TimeSlot.currentBookings slot
       = bookedPersons day (timeSlot body)
           (snd (createBooking user now body db))
    /\ TimeSlot.currentBookings slot <= TimeSlot.maxCapacity slot.
Proof.
  intros Hday Hstatus.
  remember (createBooking user now body db) as res eqn:Hres.
  revert Hres. unfold createBooking, tryCatch.
  destruct (missingRequired body); cbn; [now intros ->|].
  rewrite Hday. run_query.
  destruct (List.find _ (timeSlots db)) as [slot|] eqn:Hslot; cbn;
    [|now intros ->].
  destruct (TimeSlot.isActive slot); cbn; [|now intros ->].
  run_query.
  destruct (Z.ltb_spec
              (TimeSlot.maxCapacity slot
               - totalPersons (filter (sameDaySlot day (timeSlot body))
                                 (pools db))) (persons body)) as [|Hfits];
    cbn; [now intros ->|].
  run_query.
  destruct (List.find _ (ticketPrices db)) as [ticket|]; cbn;
    [|now intros ->].
  destruct (_ <? persons body); cbn; [now intros ->|].
  run_query. run_query.
  destruct (Pool.validate _) eqn:Hvalid; cbn; [|now intros ->].
  destruct (existsb _ (pools db)); cbn; [now intros ->|].
  run_query.
  destruct (TimeSlot.validate _); cbn; [|now intros ->].
  intros -> _. cbn.
  eexists. split; [|split].
  - unfold slotOf. cbn. eapply find_replaceBy; [exact Hslot|reflexivity|].
    cbn. apply find_some in Hslot as [_ Hv]. exact Hv.
  - cbn. unfold bookedPersons. cbn.
    rewrite filter_snoc_true, totalPersons_snoc; [reflexivity|].
    unfold sameDaySlot. cbn.
    cbn. destruct (startOfDay_range day) as [H1 H2].
    apply Z.leb_le in H1, H2. rewrite H1, H2, String.eqb_refl. cbn.
    unfold orElse. destruct (truthy (paymentStatus body)).
    + apply String.eqb_neq in Hstatus. now rewrite Hstatus.
    + reflexivity.
  - cbn. lia.
Qed.

(** Five more persons in the morning slot: the counter goes from 40 to
    45. *)
Lemma createBooking_counter_in_sync_witness :
  exists slot,
    slotOf "06:00-09:00"
      (snd (createBooking 9 Sample.clock (Sample.request "daily" 5)
              Sample.poolDb)) = Some slot
    /\ TimeSlot.currentBookings slot
       = bookedPersons (Sample.someDay + 3600000) "06:00-09:00"
           (snd (createBooking 9 Sample.clock (Sample.request "daily" 5)
                   Sample.poolDb))
    /\ TimeSlot.currentBookings slot <= TimeSlot.maxCapacity slot.
Proof.
  apply (createBooking_counter_in_sync 9%nat Sample.clock
           (Sample.request "daily" 5) Sample.poolDb
           (Sample.someDay + 3600000)).
  - reflexivity.
  - discriminate.
  - vm_compute. reflexivity.
Defined.

(** X2.  A booking that is created has between 1 and 10 persons and not
    more than the ticket of its pass type allows, is dated at the start of
    the requested day, and is [pending] unless the request names a payment
    status. *)
Theorem createBooking_stored_within_limits
  (user : ObjectId) (now : Z) (body : CreateBody) (db : Db) (day : Z) :
  date body = Some day ->
  status (fst (createBooking user now body db)) = 201 ->
  exists ticket booking,
    List.find
      (fun t => (TicketPrice.passType t =? passType body)%string
                && TicketPrice.isActive t) (ticketPrices db) = Some ticket
    /\ pools (snd (createBooking user now body db)) = pools db ++ [booking]
    /\ 1 <= Pool.persons booking <= 10
    /\ Pool.persons booking <= TicketPrice.maxPersons ticket
    /\ Pool.date booking = startOfDay day
    /\ Pool.paymentStatus booking
       = (if truthy (paymentStatus body) then paymentStatus body
          else "pending")
    /\ In (Pool.paymentStatus booking) Pool.paymentStatuses.
Proof.
  intros Hday.
  remember (createBooking user now body db) as res eqn:Hres.
  revert Hres. unfold createBooking, tryCatch.
  destruct (missingRequired body); cbn; [now intros ->|].
  rewrite Hday. run_query.
  destruct (List.find _ (timeSlots db)) as [slot|]; cbn; [|now intros ->].
  destruct (TimeSlot.isActive slot); cbn; [|now intros ->].
  run_query.
  destruct (_ <? persons body); cbn; [now intros ->|].
  run_query.
  destruct (List.find _ (ticketPrices db)) as [ticket|] eqn:Hticket; cbn;
    [|now intros ->].
  destruct (Z.ltb_spec (TicketPrice.maxPersons ticket) (persons body));
    cbn; [now intros ->|].
  run_query. run_query.
  destruct (Pool.validate _) eqn:Hvalid; cbn; [|now intros ->].
  destruct (existsb _ (pools db)); cbn; [now intros ->|].
  run_query.
  destruct (TimeSlot.validate _); cbn; [|now intros ->].
  intros -> _. apply validate_nil in Hvalid as (_ & _ & Hpersons & Hstatus).
  eexists ticket, _. cbn in *.
  split; [reflexivity|]. split; [reflexivity|]. repeat split; tauto.
Qed.

Lemma createBooking_stored_within_limits_witness :
  exists ticket booking,
    List.find
      (fun t => (TicketPrice.passType t =? "family")%string
                && TicketPrice.isActive t) (ticketPrices Sample.poolDb)
    = Some ticket
    /\ pools (snd (createBooking 9 Sample.clock (Sample.request "family" 6)
                     Sample.poolDb))
       = pools Sample.poolDb ++ [booking]
    /\ 1 <= Pool.persons booking <= 10
    /\ Pool.persons booking <= TicketPrice.maxPersons ticket
    /\ Pool.date booking = startOfDay (Sample.someDay + 3600000)
    /\ Pool.paymentStatus booking = "pending"
    /\ In (Pool.paymentStatus booking) Pool.paymentStatuses.
Proof.
  apply (createBooking_stored_within_limits 9%nat Sample.clock
           (Sample.request "family" 6) Sample.poolDb
           (Sample.someDay + 3600000)).
  - reflexivity.
  - vm_compute. reflexivity.
Defined.

(** X3.  Cancelling a paid or pending booking and bringing it back with the
    same status, while its persons still fit, stores the booking as it was
    and sets the counter of its slot to the persons of the other
    non-cancelled bookings of the day plus its own. *)
Theorem cancel_then_reactivate
  (id : ObjectId) (st : string) (db : Db) (booking : Pool.t)
  (slot : TimeSlot.t) :
  byId id db = Some booking ->
  Pool.paymentStatus booking = st ->
  st = "paid" \/ st = "pending" ->
  slotOf (Pool.timeSlot booking) db = Some slot ->
  TimeSlot.validate slot = [] ->
  Pool.validate booking = [] ->
  bookedByOthers booking db + Pool.persons booking
    <= TimeSlot.maxCapacity slot ->
  let db1 := snd (updatePaymentStatus id "cancelled" db) in
  fst (updatePaymentStatus id st db1)
  = ok 200 "Payment status updated successfully"
  /\ byId id (snd (updatePaymentStatus id st db1)) = Some booking
  /\ slotOf (Pool.timeSlot booking) (snd (updatePaymentStatus id st db1))
     = Some (TimeSlot.set_currentBookings
               (bookedByOthers booking db + Pool.persons booking) slot).
Proof.
  intros Hfound Hst Hactive Hslot Hvslot Hvalid Hfits.
  pose proof Hfound as Hfind. unfold byId in Hfind. cbn in Hfind.
  pose proof Hslot as Hslot'. unfold slotOf in Hslot'.
  set (released := TimeSlot.set_currentBookings
         (Z.max 0 (TimeSlot.currentBookings slot - Pool.persons booking))
         slot).
  set (cancelled := Pool.set_paymentStatus "cancelled" booking).
  assert (Hcancel :
    updatePaymentStatus id "cancelled" db
    = (ok 200 "Payment status updated successfully",
       set_pools (replaceBy Pool._id cancelled (pools db))
         (set_timeSlots (replaceBy TimeSlot._id released (timeSlots db))
            db))).
  { unfold updatePaymentStatus, tryCatch. eval_includes. cbn. run_query.
    rewrite Hfind.
    assert (Hne : (Pool.paymentStatus booking =? "cancelled")%string = false).
    { apply String.eqb_neq. destruct Hactive; congruence. }
    rewrite Hne. cbn. unfold releaseSlot. run_query. rewrite Hslot'.
    run_query. rewrite PoolProps.validate_set_currentBookings, Hvslot. cbn.
    rewrite validate_set_paymentStatus; [reflexivity|assumption|].
    cbn. tauto. }
  intros db1. subst db1. rewrite Hcancel. cbn [snd].
  remember (set_pools _ _) as db1 eqn:Hdb1.
  assert (Hfound1 : byId id db1 = Some cancelled).
  { apply (byId_saved id db db1 booking cancelled Hfound);
      [reflexivity|now rewrite Hdb1]. }
  assert (Hslot1 : slotOf (Pool.timeSlot booking) db1 = Some released).
  { eapply PoolProps.slotOf_saved; eauto. now rewrite Hdb1. }
  assert (Hothers : bookedByOthers booking db1 = bookedByOthers booking db).
  { unfold bookedByOthers. rewrite Hdb1. cbn.
    now rewrite (filter_others_replaceBy Pool._id _ booking cancelled). }
  clear Hdb1.
  assert (Hres :
    updatePaymentStatus id st db1
    = (ok 200 "Payment status updated successfully",
       set_pools (replaceBy Pool._id booking (pools db1))
         (set_timeSlots
            (replaceBy TimeSlot._id
               (TimeSlot.set_currentBookings
                  (bookedByOthers booking db + Pool.persons booking) slot)
               (timeSlots db1)) db1))).
  { unfold byId in Hfound1. cbn in Hfound1. unfold slotOf in Hslot1.
    unfold updatePaymentStatus, tryCatch.
    assert (Hvalid_st : negb (truthy st)
              || negb (includes ["paid"; "pending"; "cancelled"] st) = false).
    { destruct Hactive as [-> | ->]; reflexivity. }
    rewrite Hvalid_st. run_query. rewrite Hfound1.
    assert (Hne : (st =? "cancelled")%string = false).
    { destruct Hactive as [-> | ->]; reflexivity. }
    cbn. rewrite Hne. cbn. unfold reclaimSlot. run_query.
    rewrite Hslot1. run_query.
    fold (bookedByOthers booking db1). rewrite Hothers.
    destruct (Z.ltb_spec
                (TimeSlot.maxCapacity slot - bookedByOthers booking db)
                (Pool.persons booking)) as [|_]; [lia|].
    run_query.
    match goal with
    | |- context [TimeSlot.validate ?d] =>
        change (TimeSlot.validate d) with (TimeSlot.validate slot)
    end.
    rewrite Hvslot. cbn.
    assert (Hback : Pool.set_paymentStatus st booking = booking).
    { destruct booking; cbn in *. now subst. }
    match goal with
    | |- context [Pool.validate ?d] =>
        change d with (Pool.set_paymentStatus st booking)
    end.
    rewrite Hback, Hvalid. reflexivity. }
  rewrite Hres. cbn [fst snd]. split; [reflexivity|]. split.
  - apply (byId_saved id db1 _ cancelled booking Hfound1); reflexivity.
  - eapply PoolProps.slotOf_saved; [exact Hslot1| | |]; reflexivity.
Qed.

(** Booking 10 is cancelled and paid again: the counter is back at 40. *)
Lemma cancel_then_reactivate_witness :
  fst (updatePaymentStatus 10 "paid"
         (snd (updatePaymentStatus 10 "cancelled" Sample.poolDb)))
  = ok 200 "Payment status updated successfully"
  /\ byId 10
       (snd (updatePaymentStatus 10 "paid"
               (snd (updatePaymentStatus 10 "cancelled" Sample.poolDb))))
     = Some (Sample.booking 10 10 "paid")
  /\ slotOf "06:00-09:00"
       (snd (updatePaymentStatus 10 "paid"
               (snd (updatePaymentStatus 10 "cancelled" Sample.poolDb))))
     = Some (TimeSlot.set_currentBookings 40 Sample.morning).
Proof.
  apply (cancel_then_reactivate 10%nat "paid" Sample.poolDb
           (Sample.booking 10 10 "paid") Sample.morning).
  - reflexivity.
  - reflexivity.
  - left. reflexivity.
  - reflexivity.
  - reflexivity.
  - reflexivity.
  - vm_compute. discriminate.
Defined.

(** [releaseSlot] writes to the time slots only, and never answers. *)
Lemma releaseSlot_frame (b : Pool.t) (db : Db) (o : Outcome unit) (db1 : Db) :
  releaseSlot b db = (o, db1) ->
  pools db1 = pools db /\ ticketPrices db1 = ticketPrices db
  /\ match o with
     | Sent _ => False
     | Thrown _ => db1 = db
     | Value _ => True
     end.
Proof.
  unfold releaseSlot. run_query.
  destruct (List.find _ (timeSlots db)) as [slot|]; cbn.
  - run_query. destruct (TimeSlot.validate _); cbn; intros [= <- <-];
      repeat split.
  - intros [= <- <-]. repeat split.
Qed.

Lemma recalculate_frame (body : UpdateBody) (b : Pool.t) (db : Db) :
  exists b',
    recalculate body b db = (Value b', db)
    /\ Pool._id b' = Pool._id b /\ Pool.date b' = Pool.date b
    /\ Pool.timeSlot b' = Pool.timeSlot b /\ Pool.persons b' = Pool.persons b
    /\ Pool.paymentStatus b' = Pool.paymentStatus b.
Proof.
  unfold recalculate.
  destruct (truthy (u_passType body) || negb (u_persons body =? 0)).
  - run_query. destruct (List.find _ (ticketPrices db)); cbn;
      eexists; repeat split.
  - eexists. repeat split.
Qed.

(** What an update answered 200 has stored. *)
Lemma pool_updateBooking_stored
  (id : ObjectId) (body : UpdateBody) (db : Db) :
  status (fst (updateBooking id body db)) = 200 ->
  exists old booking slot,
    byId id db = Some old
    /\ Pool.date booking = Pool.date (assignFields body old)
    /\ Pool.timeSlot booking = Pool.timeSlot (assignFields body old)
    /\ Pool.persons booking = Pool.persons (assignFields body old)
    /\ Pool.paymentStatus booking
       = Pool.paymentStatus (assignFields body old)
    /\ Pool._id booking = Pool._id old
    /\ pools (snd (updateBooking id body db))
       = replaceBy Pool._id booking (pools db)
    /\ slotOf (Pool.timeSlot booking) (snd (updateBooking id body db))
       = Some slot
    /\ TimeSlot.currentBookings slot
       = bookedByOthers booking db + Pool.persons booking
    /\ TimeSlot.currentBookings slot <= TimeSlot.maxCapacity slot.
Proof.
  remember (updateBooking id body db) as res eqn:Hres.
  revert Hres. unfold updateBooking, tryCatch. run_query.
  destruct (List.find _ (pools db)) as [old|] eqn:Hfound; cbn;
    [|now intros ->].
  assert (Hblock : negb (u_timeSlot body =? Pool.timeSlot old)%string
                   || dateDiffers
                   || negb (u_persons body =? Pool.persons old) = true).
  { unfold dateDiffers. now rewrite orb_true_r. }
  rewrite Hblock. remember (assignFields body old) as booking eqn:Hbooking.
  assert (Hbid : Pool._id booking = Pool._id old) by now subst booking.
  unfold bind at 1. unfold bind at 1. unfold bind at 1.
  assert (Hrel : exists o db1,
    (if truthy (Pool.timeSlot old) then releaseSlot old else ret tt) db
    = (o, db1)
    /\ pools db1 = pools db /\ ticketPrices db1 = ticketPrices db
    /\ match o with
       | Sent _ => False
       | Thrown _ => db1 = db
       | Value _ => True
       end).
  { destruct (truthy (Pool.timeSlot old)).
    - destruct (releaseSlot old db) as [o db1] eqn:E.
      exists o, db1. split; [reflexivity|]. now apply releaseSlot_frame in E.
    - exists (Value tt), db. repeat split. }
  destruct Hrel as (o & db1 & -> & Hpools & Htickets & Ho).
  destruct o as [r|e|[]]; [contradiction|destruct e; cbn; now intros ->|].
  run_query.
  destruct (List.find _ (timeSlots db1)) as [newSlot|] eqn:Hslot; cbn;
    [|now intros ->].
  destruct (TimeSlot.isActive newSlot); cbn; [|now intros ->].
  run_query. rewrite Hpools.
  fold (bookedByOthers booking db).
  destruct (Z.ltb_spec
              (TimeSlot.maxCapacity newSlot - bookedByOthers booking db)
              (Pool.persons booking)) as [|Hfits]; cbn; [now intros ->|].
  run_query.
  destruct (TimeSlot.validate _); cbn; [|now intros ->].
  destruct (recalculate_frame body booking
              (set_timeSlots
                 (replaceBy TimeSlot._id
                    (TimeSlot.set_currentBookings
                       (bookedByOthers booking db + Pool.persons booking)
                       newSlot) (timeSlots db1)) db1))
    as (b' & -> & Hid & Hdate & Hts & Hpersons & Hpay).
  cbn. run_query.
  destruct (Pool.validate b'); cbn; [|now intros ->].
  intros -> _. cbn.
  exists old, b', (TimeSlot.set_currentBookings
                     (bookedByOthers booking db + Pool.persons booking)
                     newSlot).
  split; [exact Hfound|]. repeat split.
  - congruence.
  - congruence.
  - congruence.
  - congruence.
  - congruence.
  - now rewrite Hpools.
  - unfold slotOf. cbn. rewrite Hts.
    eapply find_replaceBy; [exact Hslot|reflexivity|].
    cbn. apply find_some in Hslot as [_ Hv]. exact Hv.
  - cbn. unfold bookedByOthers. now rewrite Hid, Hdate, Hts, Hpersons.
  - cbn. lia.
Qed.

Lemma bookedByOthers_saved (b : Pool.t) (db db' : Db) :
  pools db' = replaceBy Pool._id b (pools db) ->
  bookedByOthers b db' = bookedByOthers b db.
Proof.
  intros Hpools. unfold bookedByOthers. rewrite Hpools.
  now rewrite (filter_others_replaceBy Pool._id _ b b).
Qed.

(** A cancelled booking that has just been saved is the only one of its
    [_id], so leaving it out changes nothing in the aggregate. *)
Lemma bookedPersons_cancelled (b : Pool.t) (db db' : Db) :
  pools db' = replaceBy Pool._id b (pools db) ->
  Pool.paymentStatus b = "cancelled" ->
  bookedPersons (Pool.date b) (Pool.timeSlot b) db' = bookedByOthers b db'.
Proof.
  intros Hpools Hcancelled. unfold bookedPersons, bookedByOthers.
  f_equal. apply filter_ext_in. intros x Hx.
  destruct (Nat.eqb_spec (Pool._id x) (Pool._id b)) as [E|E];
    [|reflexivity].
  rewrite Hpools in Hx. apply In_replaceBy_same in Hx; [|exact E].
  subst x. cbn. unfold sameDaySlot. rewrite Hcancelled. cbn.
  apply andb_false_r.
Qed.

(** X4.  After an update answered 200 the counter of the booking's slot is
    the persons of the other non-cancelled bookings of its day and slot
    plus its own, within the capacity, whatever the counter was before. *)
Theorem updateBooking_counter_recomputed
  (id : ObjectId) (body : UpdateBody) (db : Db) :
  status (fst (updateBooking id body db)) = 200 ->
  exists booking slot,
    byId id (snd (updateBooking id body db)) = Some booking
    /\ slotOf (Pool.timeSlot booking) (snd (updateBooking id body db))
       = Some slot
    /\ TimeSlot.currentBookings slot
       = bookedByOthers booking (snd (updateBooking id body db))
         + Pool.persons booking
    /\ TimeSlot.currentBookings slot <= TimeSlot.maxCapacity slot.
Proof.
  intros Hok.
  destruct (pool_updateBooking_stored id body db Hok)
    as (old & booking & slot & Hfound & _ & _ & _ & _ & Hid & Hpools & Hslot
        & Hcount & Hcap).
  exists booking, slot. repeat split; try assumption.
  - now apply (byId_saved id db _ old booking Hfound).
  - now rewrite (bookedByOthers_saved booking db _ Hpools).
Qed.

(** Booking 10 goes from ten to four persons: the counter is 34. *)
Lemma updateBooking_counter_recomputed_witness :
  exists booking slot,
    byId 10 (snd (updateBooking 10 (Sample.change 4 "") Sample.poolDb))
    = Some booking
    /\ slotOf (Pool.timeSlot booking)
         (snd (updateBooking 10 (Sample.change 4 "") Sample.poolDb))
       = Some slot
    /\ TimeSlot.currentBookings slot
       = bookedByOthers booking
           (snd (updateBooking 10 (Sample.change 4 "") Sample.poolDb))
         + Pool.persons booking
    /\ TimeSlot.currentBookings slot <= TimeSlot.maxCapacity slot.
Proof.
  apply (updateBooking_counter_recomputed 10%nat (Sample.change 4 "")
           Sample.poolDb).
  vm_compute. reflexivity.
Defined.

(** X5.  An update answered 200 that leaves the booking [cancelled] (the
    body asks for it, or the booking was so already) does not release its
    place: the counter of the slot is the persons of the non-cancelled
    bookings of the day and slot plus those of the cancelled booking. *)
Theorem updateBooking_cancel_keeps_counter
  (id : ObjectId) (body : UpdateBody) (db : Db) (booking : Pool.t) :
  status (fst (updateBooking id body db)) = 200 ->
  byId id (snd (updateBooking id body db)) = Some booking ->
  Pool.paymentStatus booking = "cancelled" ->
  exists slot,
    slotOf (Pool.timeSlot booking) (snd (updateBooking id body db))
    = Some slot
    /\ TimeSlot.currentBookings slot
       = bookedPersons (Pool.date booking) (Pool.timeSlot booking)
           (snd (updateBooking id body db))
         + Pool.persons booking.
Proof.
  intros Hok Hstored Hcancelled.
  destruct (pool_updateBooking_stored id body db Hok)
    as (old & b' & slot & Hfound & _ & _ & _ & _ & Hid & Hpools & Hslot
        & Hcount & _).
  assert (Hb' : byId id (snd (updateBooking id body db)) = Some b')
    by now apply (byId_saved id db _ old b' Hfound).
  rewrite Hstored in Hb'. injection Hb' as <-.
  exists slot. split; [assumption|].
  rewrite (bookedPersons_cancelled booking db _ Hpools Hcancelled).
  now rewrite (bookedByOthers_saved booking db _ Hpools).
Qed.

(** Booking 10 is cancelled through an update: the counter stays at 40
    although only 30 persons remain booked. *)
Lemma updateBooking_cancel_keeps_counter_witness :
  exists slot,
    slotOf "06:00-09:00"
      (snd (updateBooking 10 (Sample.change 0 "cancelled") Sample.poolDb))
    = Some slot
    /\ TimeSlot.currentBookings slot
       = bookedPersons Sample.someDay "06:00-09:00"
           (snd (updateBooking 10 (Sample.change 0 "cancelled")
                   Sample.poolDb))
         + 10.
Proof.
  apply (updateBooking_cancel_keeps_counter 10%nat
           (Sample.change 0 "cancelled") Sample.poolDb
           (Sample.booking 10 10 "cancelled")).
  - vm_compute. reflexivity.
  - vm_compute. reflexivity.
  - reflexivity.
Defined.

Lemma releaseSlot_found (b : Pool.t) (db : Db) (slot : TimeSlot.t) :
  slotOf (Pool.timeSlot b) db = Some slot ->
  TimeSlot.validate slot = [] ->
  releaseSlot b db
  = (Value tt,
     set_timeSlots
       (replaceBy TimeSlot._id
          (TimeSlot.set_currentBookings
             (Z.max 0 (TimeSlot.currentBookings slot - Pool.persons b)) slot)
          (timeSlots db)) db).
Proof.
  unfold slotOf. intros Hslot Hvalid. unfold releaseSlot. run_query.
  rewrite Hslot. run_query.
  now rewrite PoolProps.validate_set_currentBookings, Hvalid.
Qed.

(** X6.  An update that keeps the time slot and is refused for capacity
    leaves the booking as it was, but has already taken the booking's old
    persons off the counter of the slot. *)
Theorem updateBooking_refused_after_release
  (id : ObjectId) (body : UpdateBody) (db : Db) (old : Pool.t)
  (slot : TimeSlot.t) :
  byId id db = Some old ->
  u_timeSlot body = "" ->
  slotOf (Pool.timeSlot old) db = Some slot ->
  TimeSlot.validate slot = [] ->
  TimeSlot.isActive slot = true ->
  let booking := assignFields body old in
  TimeSlot.maxCapacity slot
    < bookedByOthers booking db + Pool.persons booking ->
  updateBooking id body db
  = (fail 400
       ("Only "
        ++ string_of_Z (TimeSlot.maxCapacity slot - bookedByOthers booking db)
        ++ " spots available in this slot")%string,
     set_timeSlots
       (replaceBy TimeSlot._id
          (TimeSlot.set_currentBookings
             (Z.max 0 (TimeSlot.currentBookings slot - Pool.persons old))
             slot) (timeSlots db)) db).
Proof.
  intros Hfound Hsame Hslot Hvalid Hactive booking Hfull.
  pose proof Hfound as Hfind. unfold byId in Hfind. cbn in Hfind.
  pose proof Hslot as Hslot'. unfold slotOf in Hslot'.
  assert (Hts : Pool.timeSlot booking = Pool.timeSlot old).
  { unfold booking, assignFields. cbn. now rewrite Hsame. }
  assert (Htruthy : truthy (Pool.timeSlot old) = true).
  { apply find_some in Hslot' as [_ Hv]. apply String.eqb_eq in Hv.
    rewrite <- Hv. unfold TimeSlot.validate in Hvalid.
    repeat (apply app_eq_nil in Hvalid as [?E Hvalid]).
    unfold required in E1. now destruct (truthy (TimeSlot.value slot)). }
  unfold updateBooking, tryCatch. run_query. rewrite Hfind.
  assert (Hblock : negb (u_timeSlot body =? Pool.timeSlot old)%string
                   || dateDiffers
                   || negb (u_persons body =? Pool.persons old) = true).
  { unfold dateDiffers. now rewrite orb_true_r. }
  cbn. rewrite Hblock, Htruthy. fold booking.
  unfold bind. rewrite (releaseSlot_found old db slot Hslot Hvalid).
  unfold findOne, find. cbn. rewrite Hts.
  erewrite find_replaceBy;
    [|exact Hslot'|reflexivity|cbn; now apply find_some in Hslot' as [_ Hv]].
  cbn. rewrite Hactive. cbn.
  rewrite <- Hts. fold (bookedByOthers booking db).
  apply Z.lt_sub_lt_add_l in Hfull. apply Z.ltb_lt in Hfull.
  now rewrite Hfull.
Qed.

(** Booking 10 asks for 25 persons where 20 are free: it is refused, and
    the counter has fallen from 40 to 30. *)
Lemma updateBooking_refused_after_release_witness :
  updateBooking 10 (Sample.change 25 "") Sample.poolDb
  = (fail 400 "Only 20 spots available in this slot",
     set_timeSlots [TimeSlot.set_currentBookings 30 Sample.morning]
       Sample.poolDb).
Proof.
  apply (updateBooking_refused_after_release 10%nat (Sample.change 25 "")
           Sample.poolDb (Sample.booking 10 10 "paid") Sample.morning).
  - reflexivity.
  - reflexivity.
  - reflexivity.
  - reflexivity.
  - reflexivity.
  - vm_compute. reflexivity.
Defined.
End PoolCounter.

Module SlotSwitch.
Import TimeSlotController.

(** What an update answered 200 has stored: the slot of the same [_id],
    value and counter, with the activity the body asks for. *)
Lemma updateTimeSlot_stored
  (id : ObjectId) (body : UpdateBody) (db : Db) (slot : TimeSlot.t) :
  byId id db = Some slot ->
  status (fst (updateTimeSlot id body db)) = 200 ->
  exists slot',
    timeSlots (snd (updateTimeSlot id body db))
    = replaceBy TimeSlot._id slot' (timeSlots db)
    /\ pools (snd (updateTimeSlot id body db)) = pools db
    /\ TimeSlot._id slot' = TimeSlot._id slot
    /\ TimeSlot.value slot' = TimeSlot.value slot
    /\ TimeSlot.currentBookings slot' = TimeSlot.currentBookings slot
    /\ TimeSlot.isActive slot'
       = match body_isActive body with
         | Some isActive => isActive
         | None => TimeSlot.isActive slot
         end.
Proof.
  intros Hfound. unfold byId in Hfound. cbn in Hfound.
  remember (updateTimeSlot id body db) as res eqn:Hres. revert Hres.
  unfold updateTimeSlot, tryCatch. run_query. rewrite Hfound.
  destruct (body_maxCapacity body) as [m|]; cbn.
  - destruct (m <? _); cbn; [now intros ->|].
    run_query.
    match goal with
    | |- context [TimeSlot.validate ?d] =>
        destruct (TimeSlot.validate d); cbn; [|now intros ->]
    end.
    intros -> _. cbn. eexists. split; [reflexivity|].
    destruct (body_isActive body), (truthy (body_label body)); cbn;
      repeat split.
  - run_query.
    match goal with
    | |- context [TimeSlot.validate ?d] =>
        destruct (TimeSlot.validate d); cbn; [|now intros ->]
    end.
    intros -> _. cbn. eexists. split; [reflexivity|].
    destruct (body_isActive body), (truthy (body_label body)); cbn;
      repeat split.
Qed.

(** X7.  Once an update has switched a slot off, every complete request
    for a pool booking in that slot is answered that the slot is not
    available, and nothing is written. *)
Theorem deactivated_slot_refuses_bookings
  (id : ObjectId) (body : UpdateBody) (db : Db) (slot : TimeSlot.t)
  (user : ObjectId) (now : Z) (request : PoolController.CreateBody) :
  byId id db = Some slot ->
  slotOf (TimeSlot.value slot) db = Some slot ->
  body_isActive body = Some false ->
  status (fst (updateTimeSlot id body db)) = 200 ->
  PoolController.missingRequired request = false ->
  PoolController.timeSlot request = TimeSlot.value slot ->
  PoolController.createBooking user now request
    (snd (updateTimeSlot id body db))
  = (fail 400 "Selected time slot is not available",
     snd (updateTimeSlot id body db)).
Proof.
  intros Hfound Hnamed Hoff Hok Hcomplete Hvalue.
  destruct (updateTimeSlot_stored id body db slot Hfound Hok)
    as (slot' & Hslots & _ & Hid & Hval & _ & Hactive).
  rewrite Hoff in Hactive.
  assert (Hslot' : slotOf (TimeSlot.value slot)
                     (snd (updateTimeSlot id body db)) = Some slot').
  { now apply (PoolProps.slotOf_saved _ db _ slot slot'). }
  remember (snd (updateTimeSlot id body db)) as db' eqn:Hdb'. clear Hdb'.
  unfold slotOf in Hslot'.
  unfold PoolController.createBooking, tryCatch. rewrite Hcomplete.
  destruct (PoolController.date request) as [day|] eqn:Hday; cbn.
  - run_query. rewrite Hvalue, Hslot'. cbn. now rewrite Hactive.
  - unfold PoolController.missingRequired in Hcomplete.
    rewrite Hday in Hcomplete. cbn in Hcomplete.
    repeat (rewrite ?orb_true_r, ?orb_true_l in Hcomplete; cbn in Hcomplete).
    destruct (negb (truthy (PoolController.customerName request))
              || negb (truthy (PoolController.email request))
              || negb (truthy (PoolController.phone request)));
      discriminate.
Qed.

(** The morning slot is switched off; a request for five persons, which
    would fit, is refused. *)
Lemma deactivated_slot_refuses_bookings_witness :
  PoolController.createBooking 9 Sample.clock (Sample.request "daily" 5)
    (snd (updateTimeSlot 1 (mkUpdateBody "" None (Some false))
            Sample.poolDb))
  = (fail 400 "Selected time slot is not available",
     snd (updateTimeSlot 1 (mkUpdateBody "" None (Some false))
            Sample.poolDb)).
Proof.
  apply (deactivated_slot_refuses_bookings 1%nat
           (mkUpdateBody "" None (Some false)) Sample.poolDb Sample.morning
           9%nat Sample.clock (Sample.request "daily" 5)).
  - reflexivity.
  - reflexivity.
  - reflexivity.
  - vm_compute. reflexivity.
  - reflexivity.
  - reflexivity.
Defined.
End SlotSwitch.

Module HallBookings.
Import ConferenceController.

(** A creation either writes nothing, or is answered 201 and has appended
    one booking, which got past every guard. *)
Lemma createBooking_cases (env : Env) (body : CreateBody) (db : Db) :
  (status (fst (createBooking env body db)) <> 201
   /\ snd (createBooking env body db) = db)
  \/ exists hall s e b,
       fst (createBooking env body db) = ok 201 "Booking created successfully"
       /\ List.find
            (fun h => (ConferenceHall.value h =? hallType body)%string
                      && ConferenceHall.isActive h) (conferenceHalls db)
          = Some hall
       /\ filter (overlapsRequest (hallType body) s e) (conferences db) = []
       /\ conferences (snd (createBooking env body db))
          = conferences db ++ [b]
       /\ Conference.hallType b = hallType body
       /\ Conference.startDate b = s /\ Conference.endDate b = e
       /\ s <= e
       /\ 1 <= Conference.attendees b <= ConferenceHall.capacity hall
       /\ 0 < Conference.amount b
       /\ Conference.paymentStatus b
          = paymentStatusOf (Conference.advancePaid b) (Conference.amount b)
       /\ Conference.bookingStatus b = "pending"
       /\ Conference.invoiceNumber b
          = (if (bookingStatus body =? "approved")%string
             then Some (newInvoiceNumber env) else None).
Proof.
  remember (createBooking env body db) as res eqn:Hres. revert Hres.
  unfold createBooking, tryCatch.
  destruct (missingFields body); cbn;
    [|intros ->; left; split; [discriminate|reflexivity]].
  destruct (startDate body) as [| |s]; cbn;
    try (intros ->; left; split; [discriminate|reflexivity]).
  destruct (endDate body) as [| |e]; cbn;
    try (intros ->; left; split; [discriminate|reflexivity]).
  destruct (Z.ltb_spec e s) as [|Hle]; cbn;
    [intros ->; left; split; [discriminate|reflexivity]|].
  run_query.
  destruct (List.find _ (conferenceHalls db)) as [hall|] eqn:Hhall; cbn;
    [|intros ->; left; split; [discriminate|reflexivity]].
  destruct (attendees body) as [| |n]; cbn;
    try (intros ->; left; split; [discriminate|reflexivity]).
  destruct (Z.ltb_spec n 1) as [|Hn1]; cbn;
    [intros ->; left; split; [discriminate|reflexivity]|].
  destruct (Z.ltb_spec (ConferenceHall.capacity hall) n) as [|Hcap]; cbn;
    [intros ->; left; split; [discriminate|reflexivity]|].
  run_query.
  destruct (filter _ (conferences db)) eqn:Hfree; cbn;
    [|intros ->; left; split; [discriminate|reflexivity]].
  run_query.
  destruct (amount body) as [| |a]; cbn;
    try (intros ->; left; split; [discriminate|reflexivity]).
  destruct (Z.leb_spec a 0) as [|Hpos]; cbn;
    [intros ->; left; split; [discriminate|reflexivity]|].
  run_query.
  destruct (Conference.validate _); cbn;
    [|intros ->; left; split; [discriminate|reflexivity]].
  destruct (existsb _ (conferences db)); cbn;
    [intros ->; left; split;
       [destruct (development env); discriminate|reflexivity]|].
  intros ->. right. cbn. exists hall, s, e. eexists.
  split; [reflexivity|]. split; [reflexivity|]. split; [exact Hfree|].
  split; [reflexivity|]. cbn.
  destruct (bookingStatus body =? "approved")%string; repeat split;
    assumption || lia.
Qed.

(** X8.  A booking that is created is stored as [pending] whatever status
    the request names (a request naming [approved] gets its invoice number
    all the same); its dates are in order, its attendees are between 1 and
    the capacity of the hall, its amount is positive and its payment status
    follows from the advance and the amount. *)
Theorem createBooking_stored_pending
  (env : Env) (body : CreateBody) (db : Db) :
  status (fst (createBooking env body db)) = 201 ->
  exists hall b,
    List.find
      (fun h => (ConferenceHall.value h =? hallType body)%string
                && ConferenceHall.isActive h) (conferenceHalls db)
    = Some hall
    /\ conferences (snd (createBooking env body db)) = conferences db ++ [b]
    /\ Conference.bookingStatus b = "pending"
    /\ Conference.startDate b <= Conference.endDate b
    /\ 1 <= Conference.attendees b <= ConferenceHall.capacity hall
    /\ 0 < Conference.amount b
    /\ Conference.paymentStatus b
       = paymentStatusOf (Conference.advancePaid b) (Conference.amount b)
    /\ Conference.invoiceNumber b
       = (if (bookingStatus body =? "approved")%string
          then Some (newInvoiceNumber env) else None).
Proof.
  intros Hok.
  destruct (createBooking_cases env body db)
    as [[Hno _] | (hall & s & e & b & _ & Hhall & _ & Hstored & _ & Hs & He
                   & Hle & Hn & Ha & Hpay & Hst & Hinv)];
    [contradiction|].
  exists hall, b. subst s e. repeat split; tauto || assumption.
Qed.

(** An exhibition in hall A, after the summit. *)
Lemma createBooking_stored_pending_witness :
  exists hall b,
    List.find
      (fun h => (ConferenceHall.value h =? "hall_a")%string
                && ConferenceHall.isActive h)
      (conferenceHalls Sample.conferenceDb)
    = Some hall
    /\ conferences
         (snd (createBooking Sample.env
                 (Sample.expo (Sample.someDay + 3 * dayMs)
                    (Sample.someDay + 4 * dayMs)) Sample.conferenceDb))
       = conferences Sample.conferenceDb ++ [b]
    /\ Conference.bookingStatus b = "pending"
    /\ Conference.startDate b <= Conference.endDate b
    /\ 1 <= Conference.attendees b <= ConferenceHall.capacity hall
    /\ 0 < Conference.amount b
    /\ Conference.paymentStatus b
       = paymentStatusOf (Conference.advancePaid b) (Conference.amount b)
    /\ Conference.invoiceNumber b = None.
Proof.
  apply (createBooking_stored_pending Sample.env
           (Sample.expo (Sample.someDay + 3 * dayMs)
              (Sample.someDay + 4 * dayMs)) Sample.conferenceDb).
  vm_compute. reflexivity.
Defined.

(** X9.  Creation never double books a hall: if no two stored active
    bookings of one hall meet in their dates, this is still so after any
    creation request, accepted or not. *)
Theorem createBooking_keeps_halls_free
  (env : Env) (body : CreateBody) (db : Db) :
  hallsFree (conferences db) ->
  hallsFree (conferences (snd (createBooking env body db))).
Proof.
  intros Hfree.
  destruct (createBooking_cases env body db)
    as [[_ ->] | (hall & s & e & b & _ & _ & Hnone & -> & Hhall & Hs & He
                  & _)];
    [assumption|].
  apply ordPairs_snoc; [assumption|].
  apply Forall_forall. intros a Hin (Hsame & Hactive & _ & Hle1 & Hle2).
  assert (Hsel : In a (filter (overlapsRequest (hallType body) s e)
                         (conferences db))).
  { apply filter_In. split; [assumption|].
    apply OverlapProps.overlapsRequest_spec. subst s e.
    rewrite Hsame, Hhall. tauto. }
  now rewrite Hnone in Hsel.
Qed.

Lemma createBooking_keeps_halls_free_witness :
  hallsFree
    (conferences
       (snd (createBooking Sample.env
               (Sample.expo (Sample.someDay + 3 * dayMs)
                  (Sample.someDay + 4 * dayMs)) Sample.conferenceDb))).
Proof.
  apply (createBooking_keeps_halls_free Sample.env
           (Sample.expo (Sample.someDay + 3 * dayMs)
              (Sample.someDay + 4 * dayMs)) Sample.conferenceDb).
  constructor; constructor.
Defined.




(** X11.  A stored booking that is neither [confirmed] nor [completed] is
    deleted: it is no longer found, and every other booking is found as
    before. *)
Theorem deleteBooking_removes
  (id : ObjectId) (db : Db) (booking : Conference.t) :
  byId id db = Some booking ->
  Conference.bookingStatus booking <> "confirmed" ->
  Conference.bookingStatus booking <> "completed" ->
  fst (deleteBooking id db) = ok 200 "Booking deleted successfully"
  /\ byId (A := Conference.t) id (snd (deleteBooking id db)) = None
  /\ (forall j, j <> id ->
        byId (A := Conference.t) j (snd (deleteBooking id db)) = byId j db)
  /\ (hallsFree (conferences db) ->
      hallsFree (conferences (snd (deleteBooking id db)))).
Proof.
  intros Hfound Hn1 Hn2.
  pose proof Hfound as Hfind. unfold byId in Hfind. cbn in Hfind.
  assert (Hid : Conference._id booking = id).
  { apply find_some in Hfind as [_ E]. now apply Nat.eqb_eq in E. }
  apply String.eqb_neq in Hn1, Hn2.
  remember (deleteBooking id db) as res eqn:Hres. revert Hres.
  unfold deleteBooking, tryCatch. run_query. rewrite Hfind, Hn1, Hn2. cbn.
  rewrite Hid. intros ->. cbn. repeat split.
  - apply find_deleted.
  - intros j Hj. unfold byId. cbn. now apply find_not_deleted.
  - apply ordPairs_filter.
Qed.

(** The pending summit is deleted. *)
Lemma deleteBooking_removes_witness :
  fst (deleteBooking 50 Sample.conferenceDb)
  = ok 200 "Booking deleted successfully"
  /\ byId (A := Conference.t) 50 (snd (deleteBooking 50 Sample.conferenceDb))
     = None
  /\ (forall j, j <> 50%nat ->
        byId (A := Conference.t) j (snd (deleteBooking 50 Sample.conferenceDb))
        = byId j Sample.conferenceDb)
  /\ (hallsFree (conferences Sample.conferenceDb) ->
      hallsFree (conferences (snd (deleteBooking 50 Sample.conferenceDb)))).
Proof.
  apply (deleteBooking_removes 50%nat Sample.conferenceDb Sample.summit).
  - reflexivity.
  - discriminate.
  - discriminate.
Defined.
End HallBookings.

Module HotelStays.
Import HotelController.

Lemma nightsBetween_pos (ci co : Z) : 0 < nightsBetween ci co -> ci < co.
Proof.
  unfold nightsBetween. intros Hpos.
  destruct (Z.lt_ge_cases ci co) as [|Hge]; [assumption|].
  assert (Hq : 0 <= (- (co - ci)) / dayMs).
  { apply Z.div_pos; [lia|reflexivity]. }
  revert Hpos Hq. generalize ((- (co - ci)) / dayMs). intros q. lia.
Qed.

(** A creation either writes nothing, or has appended one reservation that
    got past every guard; it is then answered 201 with the room set
    [occupied], unless the room fails its schema. *)
Lemma createReservation_cases (env : Env) (body : CreateBody) (db : Db) :
  (status (fst (createReservation env body db)) <> 201
   /\ snd (createReservation env body db) = db)
  \/ exists room kind ci co r,
       roomOf (roomNumber body) db = Some room
       /\ Room.status room = "available"
       /\ List.find (fun t => (RoomType.name t =? roomType body)%string)
            (roomTypes db) = Some kind
       /\ filter (overlapsStay (roomNumber body) ci co) (reservations db)
          = []
       /\ reservations (snd (createReservation env body db))
          = reservations db ++ [r]
       /\ (fst (createReservation env body db)
           = ok 201 "Reservation created successfully"
           /\ rooms (snd (createReservation env body db))
              = replaceBy Room._id (Room.set_status "occupied" room)
                  (rooms db)
           \/ status (fst (createReservation env body db)) <> 201
              /\ Room.validate (Room.set_status "occupied" room) <> []
              /\ rooms (snd (createReservation env body db)) = rooms db)
       /\ Reservation.roomNumber r = roomNumber body
       /\ Reservation.checkIn r = ci /\ Reservation.checkOut r = co
       /\ Reservation.reservationStatus r = "confirmed"
       /\ Reservation.totalNights r = nightsBetween ci co
       /\ 0 < Reservation.totalNights r
       /\ Reservation.roomRate r = RoomType.basePrice kind
       /\ Reservation.subTotal r
          = RoomType.basePrice kind * Reservation.totalNights r
            + fold_left
                (fun sum charge => sum + c_amount charge * quantityOf charge)
                (extraCharges body) 0
       /\ Reservation.tax r = 0
       /\ Reservation.totalAmount r = Reservation.subTotal r.
Proof.
  remember (createReservation env body db) as res eqn:Hres. revert Hres.
  unfold createReservation, tryCatch, roomOf.
  destruct (missingRequired body); cbn;
    [intros ->; left; split; [discriminate|reflexivity]|].
  destruct (checkInDate body) as [ci|]; cbn;
    [|intros ->; left; split; [discriminate|reflexivity]].
  destruct (checkOutDate body) as [co|]; cbn;
    [|intros ->; left; split; [discriminate|reflexivity]].
  run_query.
  destruct (List.find _ (rooms db)) as [room|] eqn:Hroom; cbn;
    [|intros ->; left; split; [discriminate|reflexivity]].
  destruct (Room.status room =? "available")%string eqn:Havailable; cbn;
    [|intros ->; left; split; [discriminate|reflexivity]].
  run_query.
  destruct (filter _ (reservations db)) eqn:Hfree; cbn;
    [|intros ->; left; split; [discriminate|reflexivity]].
  run_query.
  destruct (List.find _ (roomTypes db)) as [kind|] eqn:Hkind; cbn;
    [|intros ->; left; split; [discriminate|reflexivity]].
  destruct (Z.leb_spec (nightsBetween ci co) 0) as [|Hnights]; cbn;
    [intros ->; left; split; [discriminate|reflexivity]|].
  run_query. run_query.
  destruct (Reservation.validate _); cbn;
    [|intros ->; left; split; [discriminate|reflexivity]].
  destruct (existsb _ (reservations db)); cbn;
    [intros ->; left; split; [discriminate|reflexivity]|].
  run_query.
  destruct (Room.validate _) eqn:Hvalid; cbn; intros ->; right; cbn;
    exists room, kind, ci, co; eexists;
    (split; [reflexivity|]); (split; [now apply String.eqb_eq|]);
    (split; [reflexivity|]); (split; [exact Hfree|]);
    (split; [reflexivity|]).
  - split; [left; split; reflexivity|]. cbn. repeat split; lia.
  - split;
      [right; split;
         [discriminate
         |split;
            [intros Hv;
             change (Room.validate (Room.set_status "occupied" room) = [])
               in Hv;
             rewrite Hvalid in Hv; discriminate
            |reflexivity]]|].
    cbn. repeat split; lia.
Qed.

(** X12.  A reservation that is created is [confirmed], leaves after it
    arrives, is priced at the base price of its room type for each night
    plus the extra charges, without tax, and its room is set [occupied]. *)
Theorem createReservation_stored_confirmed
  (env : Env) (body : CreateBody) (db : Db) :
  status (fst (createReservation env body db)) = 201 ->
  exists room kind r,
    roomOf (roomNumber body) db = Some room
    /\ List.find (fun t => (RoomType.name t =? roomType body)%string)
         (roomTypes db) = Some kind
    /\ reservations (snd (createReservation env body db))
       = reservations db ++ [r]
    /\ Reservation.reservationStatus r = "confirmed"
    /\ Reservation.checkIn r < Reservation.checkOut r
    /\ Reservation.totalNights r
       = nightsBetween (Reservation.checkIn r) (Reservation.checkOut r)
    /\ Reservation.subTotal r
       = RoomType.basePrice kind * Reservation.totalNights r
         + fold_left
             (fun sum charge => sum + c_amount charge * quantityOf charge)
             (extraCharges body) 0
    /\ Reservation.tax r = 0
    /\ Reservation.totalAmount r = Reservation.subTotal r
    /\ roomOf (roomNumber body) (snd (createReservation env body db))
       = Some (Room.set_status "occupied" room).
Proof.
  intros Hok.
  destruct (createReservation_cases env body db)
    as [[Hno _] | (room & kind & ci & co & r & Hroom & _ & Hkind & _
                   & Hstored & [[_ Hrooms] | [Hno _]] & _ & Hci & Hco & Hst
                   & Hnights & Hpos & _ & Hsub & Htax & Htotal)];
    try contradiction.
  exists room, kind, r. subst ci co. repeat split; try assumption.
  - apply nightsBetween_pos. now rewrite <- Hnights.
  - unfold roomOf in *. rewrite Hrooms.
    eapply find_replaceBy; [exact Hroom|reflexivity|].
    cbn. now apply find_some in Hroom as [_ Hn].
Qed.

(** Two nights in the free room 104. *)
Lemma createReservation_stored_confirmed_witness :
  exists room kind r,
    roomOf "104" Sample.hotelDb = Some room
    /\ List.find (fun t => (RoomType.name t =? "Deluxe")%string)
         (roomTypes Sample.hotelDb) = Some kind
    /\ reservations
         (snd (createReservation Sample.env
                 (Sample.visit "104" (Sample.someDay + 3 * dayMs)
                    (Sample.someDay + 5 * dayMs)) Sample.hotelDb))
       = reservations Sample.hotelDb ++ [r]
    /\ Reservation.reservationStatus r = "confirmed"
    /\ Reservation.checkIn r < Reservation.checkOut r
    /\ Reservation.totalNights r
       = nightsBetween (Reservation.checkIn r) (Reservation.checkOut r)
    /\ Reservation.subTotal r
       = RoomType.basePrice kind * Reservation.totalNights r + 0
    /\ Reservation.tax r = 0
    /\ Reservation.totalAmount r = Reservation.subTotal r
    /\ roomOf "104"
         (snd (createReservation Sample.env
                 (Sample.visit "104" (Sample.someDay + 3 * dayMs)
                    (Sample.someDay + 5 * dayMs)) Sample.hotelDb))
       = Some (Room.set_status "occupied" room).
Proof.
  apply (createReservation_stored_confirmed Sample.env
           (Sample.visit "104" (Sample.someDay + 3 * dayMs)
              (Sample.someDay + 5 * dayMs)) Sample.hotelDb).
  vm_compute. reflexivity.
Defined.

(** X13.  Creation never double books a room: if no two stored active
    reservations of one room overlap, this is still so after any creation
    request, whatever the answer. *)
Theorem createReservation_keeps_rooms_free
  (env : Env) (body : CreateBody) (db : Db) :
  roomsFree (reservations db) ->
  roomsFree (reservations (snd (createReservation env body db))).
Proof.
  intros Hfree.
  destruct (createReservation_cases env body db)
    as [[_ ->] | (room & kind & ci & co & r & _ & _ & _ & Hnone & -> & _
                  & Hroom & Hci & Hco & _)];
    [assumption|].
  apply ordPairs_snoc; [assumption|].
  apply Forall_forall. intros a Hin (Hsame & Hactive & _ & Hlt1 & Hlt2).
  assert (Hsel : In a (filter (overlapsStay (roomNumber body) ci co)
                         (reservations db))).
  { apply filter_In. split; [assumption|].
    apply OverlapProps.overlapsStay_spec. subst ci co.
    rewrite Hsame, Hroom. tauto. }
  now rewrite Hnone in Hsel.
Qed.

Lemma createReservation_keeps_rooms_free_witness :
  roomsFree
    (reservations
       (snd (createReservation Sample.env
               (Sample.visit "104" (Sample.someDay + 3 * dayMs)
                  (Sample.someDay + 5 * dayMs)) Sample.hotelDb))).
Proof.
  apply (createReservation_keeps_rooms_free Sample.env
           (Sample.visit "104" (Sample.someDay + 3 * dayMs)
              (Sample.someDay + 5 * dayMs)) Sample.hotelDb).
  repeat constructor; intros (Hroom & _); discriminate Hroom.
Defined.



(** X15.  A reservation whose room is not [available] cannot be edited
    unless it is [confirmed] and alone in its room: an update that does not
    name a room is answered that the room of the reservation itself is not
    available, whatever else it asks for, and writes nothing. *)
Theorem updateReservation_blocked_by_own_room
  (id : ObjectId) (body : UpdateBody) (db : Db) (old : Reservation.t)
  (room : Room.t) :
  byId id db = Some old ->
  u_roomNumber body = None ->
  roomOf (Reservation.roomNumber old) db = Some room ->
  Room.status room <> "available" ->
  Reservation.reservationStatus old <> "confirmed"
  \/ filter (otherStay old) (reservations db) <> [] ->
  updateReservation id body db
  = (fail 400 "Selected room is not available", db).
Proof.
  intros Hfound Hkeeps Hroom Hbusy Hstuck.
  unfold byId in Hfound. cbn in Hfound. unfold roomOf in Hroom.
  apply String.eqb_neq in Hbusy.
  assert (Hnumber : Reservation.roomNumber (assignFields body old)
                    = Reservation.roomNumber old).
  { unfold assignFields. cbn. now rewrite Hkeeps. }
  assert (Hstatus : Reservation.reservationStatus (assignFields body old)
                    = Reservation.reservationStatus old) by reflexivity.
  unfold updateReservation, tryCatch. run_query. rewrite Hfound, Hkeeps.
  cbn. rewrite Hstatus, Hnumber. run_query. rewrite Hroom. cbn.
  destruct (Reservation.reservationStatus old =? "confirmed")%string
    eqn:Hconfirmed; cbn.
  - destruct Hstuck as [Hn | Hothers];
      [apply String.eqb_eq in Hconfirmed; contradiction|].
    run_query.
    destruct (filter (otherStay old) (reservations db)); [contradiction|].
    cbn. run_query. rewrite Hroom. cbn. now rewrite Hbusy.
  - run_query. rewrite Hroom. cbn. now rewrite Hbusy.
Qed.

(** The checked-in guest of room 102 cannot even have the name changed. *)
Lemma updateReservation_blocked_by_own_room_witness :
  updateReservation 71
    (mkUpdateBody "Erin Doe" "" "" None None None 0 None "" None)
    Sample.hotelDb
  = (fail 400 "Selected room is not available", Sample.hotelDb).
Proof.
  apply (updateReservation_blocked_by_own_room 71%nat _ Sample.hotelDb
           (Sample.stay 71 "102" "checked_in" "partial")
           (Sample.room 61 "102" "occupied")).
  - reflexivity.
  - reflexivity.
  - reflexivity.
  - discriminate.
  - left. discriminate.
Defined.

Lemma validate_set_reservationStatus (st : string) (r : Reservation.t) :
  Reservation.validate r = [] ->
  In st Reservation.reservationStatuses ->
  Reservation.validate (set_reservationStatus st r) = [].
Proof.
  unfold Reservation.validate. cbn [set_reservationStatus
    Reservation.set_status Reservation.guestName Reservation.email Reservation.phone
    Reservation.roomType Reservation.roomNumber Reservation.adults
    Reservation.children Reservation.paymentStatus
    Reservation.reservationStatus].
  intros H Hst. repeat (apply app_eq_nil in H as [?E H]).
  rewrite E, E0, E1, E2, E3, E4, E5, E6. cbn [app].
  now apply optionalEnum_nil.
Qed.

(** X16.  Bringing a cancelled reservation back while its room is not
    [available] skips the overlap check: the reservation is [confirmed]
    again whatever the other reservations are, so with an active
    reservation of the room that overlaps it the room is double booked. *)
Theorem reactivation_skips_the_check
  (id : ObjectId) (db : Db) (r : Reservation.t) (room : Room.t) :
  byId id db = Some r ->
  Reservation.reservationStatus r = "cancelled" ->
  Reservation.validate r = [] ->
  roomOf (Reservation.roomNumber r) db = Some room ->
  Room.status room <> "available" ->
  updateReservationStatus id "confirmed" db
  = (ok 200 "Reservation status updated successfully",
     set_reservations
       (replaceBy Reservation._id (set_reservationStatus "confirmed" r)
          (reservations db)) db)
  /\ (forall other,
        In other (reservations db) ->
        otherStay r other = true ->
        ~ roomsFree
            (reservations (snd (updateReservationStatus id "confirmed" db)))).
Proof.
  intros Hfound Hcancelled Hvalid Hroom Hbusy.
  pose proof Hfound as Hfind. unfold byId in Hfind. cbn in Hfind.
  unfold roomOf in Hroom. apply String.eqb_neq in Hbusy.
  assert (Hrun :
    updateReservationStatus id "confirmed" db
    = (ok 200 "Reservation status updated successfully",
       set_reservations
         (replaceBy Reservation._id (set_reservationStatus "confirmed" r)
            (reservations db)) db)).
  { unfold updateReservationStatus, tryCatch. eval_includes. cbn. run_query.
    rewrite Hfind. cbn. run_query. rewrite Hroom, Hcancelled. cbn.
    rewrite Hbusy. cbn. run_query.
    match goal with
    | |- context [Reservation.validate ?d] =>
        change d with (set_reservationStatus "confirmed" r)
    end.
    rewrite validate_set_reservationStatus;
      [reflexivity|assumption|cbn; tauto]. }
  split; [exact Hrun|].
  intros other Hin Hother Hfree. rewrite Hrun in Hfree. cbn in Hfree.
  unfold otherStay in Hother. apply andb_true_iff in Hother as [Hid Hover].
  apply negb_true_iff, Nat.eqb_neq in Hid.
  apply OverlapProps.overlapsStay_spec in Hover
    as (Hsame & Hactive & Hlt1 & Hlt2).
  apply find_some in Hfind as [Hr _].
  assert (Hdouble : doubleStay (set_reservationStatus "confirmed" r) other).
  { repeat split; cbn; try assumption; try congruence. now left. }
  destruct (ForallOrdPairs_In Hfree
              (set_reservationStatus "confirmed" r) other)
    as [Heq | [Hno | Hno]].
  - now apply (In_replaceBy_new Reservation._id _ r).
  - now apply In_replaceBy_other.
  - apply Hid. now rewrite <- Heq.
  - contradiction.
  - apply Hno. destruct Hdouble as (H1 & H2 & H3 & H4 & H5).
    repeat split; try assumption; congruence.
Qed.

(** The cancelled reservation of room 102 is confirmed again beside the
    guest who is checked in there. *)
Lemma reactivation_skips_the_check_witness :
  updateReservationStatus 75 "confirmed" Sample.crowdedDb
  = (ok 200 "Reservation status updated successfully",
     set_reservations
       (replaceBy Reservation._id
          (set_reservationStatus "confirmed"
             (Sample.stay 75 "102" "cancelled" "pending"))
          (reservations Sample.crowdedDb)) Sample.crowdedDb)
  /\ ~ roomsFree
         (reservations
            (snd (updateReservationStatus 75 "confirmed" Sample.crowdedDb))).
Proof.
  destruct (reactivation_skips_the_check 75%nat Sample.crowdedDb
              (Sample.stay 75 "102" "cancelled" "pending")
              (Sample.room 61 "102" "occupied"))
    as [Hrun Hdouble].
  - reflexivity.
  - reflexivity.
  - reflexivity.
  - reflexivity.
  - discriminate.
  - split; [exact Hrun|].
    apply (Hdouble (Sample.stay 71 "102" "checked_in" "partial")).
    + right. left. reflexivity.
    + reflexivity.
Defined.

(** The room that [Room.findOne] returns, found or not. *)
Ltac split_room newRoom :=
  match goal with
  | |- context [List.find ?p (replaceBy Room._id ?d ?l)] =>
      destruct (List.find p (replaceBy Room._id d l)) as [newRoom|]
  | |- context [List.find ?p (rooms ?d)] =>
      destruct (List.find p (rooms d)) as [newRoom|]
  end.

(** An update answered 200 has stored the reservation with the fields of
    the body, priced again when the body gives a date. *)
Lemma updateReservation_stored
  (id : ObjectId) (body : UpdateBody) (db : Db) :
  status (fst (updateReservation id body db)) = 200 ->
  exists old,
    byId id db = Some old
    /\ reservations (snd (updateReservation id body db))
       = replaceBy Reservation._id
           (if datesGiven body then repriced (assignFields body old)
            else assignFields body old)
           (reservations db).
Proof.
  remember (updateReservation id body db) as res eqn:Hres. revert Hres.
  unfold updateReservation, tryCatch. run_query.
  destruct (List.find _ (reservations db)) as [old|] eqn:Hfound; cbn;
    [|now intros ->].
  assert (Hby : byId id db = Some old) by exact Hfound.
  remember (assignFields body old) as reservation eqn:Hreservation.
  remember (if datesGiven body then repriced reservation else reservation)
    as final eqn:Hfinal.
  destruct (_ || datesGiven body); cbn.
  - run_query.
    split_room oldRoom; cbn.
    + destruct (Reservation.reservationStatus reservation =? "confirmed")%string;
        cbn.
      * run_query.
        destruct (filter (otherStay old) (reservations db)); cbn.
        -- run_query.
           destruct (Room.validate _); cbn; [|now intros ->].
           run_query.
           split_room newRoom; cbn; [|now intros ->].
           destruct (Room.status newRoom =? "available")%string; cbn;
             [|now intros ->].
           run_query.
           destruct (filter (otherStay reservation) (reservations db)); cbn;
             [|now intros ->].
           run_query.
           destruct (Room.validate _); cbn; [|now intros ->].
           run_query.
           destruct (Reservation.validate final); cbn; [|now intros ->].
           intros -> _. exists old. split; [exact Hby|now subst].
        -- run_query.
           split_room newRoom; cbn; [|now intros ->].
           destruct (Room.status newRoom =? "available")%string; cbn;
             [|now intros ->].
           run_query.
           destruct (filter (otherStay reservation) (reservations db)); cbn;
             [|now intros ->].
           run_query.
           destruct (Room.validate _); cbn; [|now intros ->].
           run_query.
           destruct (Reservation.validate final); cbn; [|now intros ->].
           intros -> _. exists old. split; [exact Hby|now subst].
      * run_query.
        split_room newRoom; cbn; [|now intros ->].
        destruct (Room.status newRoom =? "available")%string; cbn;
          [|now intros ->].
        run_query.
        destruct (filter (otherStay reservation) (reservations db)); cbn;
          [|now intros ->].
        run_query.
        destruct (Reservation.validate final); cbn; [|now intros ->].
        intros -> _. exists old. split; [exact Hby|now subst].
    + run_query.
      split_room newRoom; cbn; [|now intros ->].
      destruct (Room.status newRoom =? "available")%string; cbn;
        [|now intros ->].
      run_query.
      destruct (filter (otherStay reservation) (reservations db)); cbn;
        [|now intros ->].
      destruct (Reservation.reservationStatus reservation =? "confirmed")%string;
        cbn.
      * run_query.
        destruct (Room.validate _); cbn; [|now intros ->].
        run_query.
        destruct (Reservation.validate final); cbn; [|now intros ->].
        intros -> _. exists old. split; [exact Hby|now subst].
      * run_query.
        destruct (Reservation.validate final); cbn; [|now intros ->].
        intros -> _. exists old. split; [exact Hby|now subst].
  - run_query.
    destruct (Reservation.validate final); cbn; [|now intros ->].
    intros -> _. exists old. split; [exact Hby|now subst].
Qed.

(** X17.  An update that gives a date prices the stay again: the nights are
    those between the stored dates, and the total is the stored room rate
    for these nights, without the extra charges, which stay listed. *)
Theorem updateReservation_reprices
  (id : ObjectId) (body : UpdateBody) (db : Db) :
  status (fst (updateReservation id body db)) = 200 ->
  datesGiven body = true ->
  exists old r,
    byId id db = Some old
    /\ byId id (snd (updateReservation id body db)) = Some r
    /\ Reservation.totalNights r
       = nightsBetween (Reservation.checkIn r) (Reservation.checkOut r)
    /\ Reservation.roomRate r = Reservation.roomRate old
    /\ Reservation.totalAmount r
       = Reservation.roomRate old * Reservation.totalNights r
    /\ Reservation.extraCharges r = Reservation.extraCharges old.
Proof.
  intros Hok Hdates.
  destruct (updateReservation_stored id body db Hok) as (old & Hold & Hstored).
  rewrite Hdates in Hstored.
  exists old, (repriced (assignFields body old)).
  split; [assumption|]. split.
  - now apply (byId_saved id db _ old _ Hold).
  - unfold repriced. cbn -[nightsBetween Z.mul Z.add]. repeat split.
    apply Z.add_0_r.
Qed.

(** The guest of room 104 stays two more nights: five nights at 120. *)
Lemma updateReservation_reprices_witness :
  exists old r,
    byId 73 Sample.hotelDb = Some old
    /\ byId 73
         (snd (updateReservation 73
                 (Sample.leaving (Sample.someDay + 5 * dayMs))
                 Sample.hotelDb)) = Some r
    /\ Reservation.totalNights r
       = nightsBetween (Reservation.checkIn r) (Reservation.checkOut r)
    /\ Reservation.roomRate r = Reservation.roomRate old
    /\ Reservation.totalAmount r
       = Reservation.roomRate old * Reservation.totalNights r
    /\ Reservation.extraCharges r = Reservation.extraCharges old.
Proof.
  apply (updateReservation_reprices 73%nat
           (Sample.leaving (Sample.someDay + 5 * dayMs)) Sample.hotelDb).
  - vm_compute. reflexivity.
  - reflexivity.
Defined.

(** The schema looks at the guest, the room, the head counts and the two
    statuses only. *)
Lemma validate_statuses (r r' : Reservation.t) :
  Reservation.validate r = [] ->
  Reservation.guestName r' = Reservation.guestName r ->
  Reservation.email r' = Reservation.email r ->
  Reservation.phone r' = Reservation.phone r ->
  Reservation.roomType r' = Reservation.roomType r ->
  Reservation.roomNumber r' = Reservation.roomNumber r ->
  Reservation.adults r' = Reservation.adults r ->
  Reservation.children r' = Reservation.children r ->
  In (Reservation.paymentStatus r') Reservation.paymentStatuses ->
  In (Reservation.reservationStatus r') Reservation.reservationStatuses ->
  Reservation.validate r' = [].
Proof.
  unfold Reservation.validate.
  intros H -> -> -> -> -> -> -> Hpay Hst.
  repeat (apply app_eq_nil in H as [?E H]).
  rewrite E, E0, E1, E2, E3, E4, E5. cbn [app].
  now rewrite (proj2 (optionalEnum_nil "paymentStatus" _ _) Hpay),
    (proj2 (optionalEnum_nil "reservationStatus" _ _) Hst).
Qed.

Lemma validate_set_cleaning (room : Room.t) :
  Room.validate room = [] ->
  Room.validate (Room.set_status "cleaning" room) = [].
Proof.
  unfold Room.validate. cbn [Room.set_status Room.roomNumber Room.roomType
    Room.floor Room.status].
  intros H. repeat (apply app_eq_nil in H as [?E H]).
  now rewrite E, E0, E1.
Qed.

(** X18.  A stay runs its course: after a check-in answered 200, marking
    the reservation paid and checking the guest out both succeed; the
    reservation ends [checked_out] at the time of that request, and its
    room, when it passes the schema, is set [cleaning]. *)
Theorem stay_runs_its_course
  (env env' : Env) (id : ObjectId) (db : Db) (r : Reservation.t) :
  byId id db = Some r ->
  status (fst (checkIn env id db)) = 200 ->
  (forall room,
     roomOf (Reservation.roomNumber r) db = Some room ->
     Room.validate room = []) ->
  let db1 := snd (checkIn env id db) in
  let db2 := snd (updatePaymentStatus id "paid" db1) in
  fst (updatePaymentStatus id "paid" db1)
  = ok 200 "Payment status updated successfully"
  /\ fst (checkOut env' id db2) = ok 200 "Guest checked out successfully"
  /\ byId id (snd (checkOut env' id db2))
     = Some (Reservation.set_status "checked_out" (Some (now env'))
               (set_paymentStatus "paid" (set_checkedIn (now env) r)))
  /\ (forall room,
        roomOf (Reservation.roomNumber r) db = Some room ->
        roomOf (Reservation.roomNumber r) (snd (checkOut env' id db2))
        = Some (Room.set_status "cleaning" room)).
Proof.
  intros Hfound Hok Hroom db1 db2.
  pose proof Hfound as Hfind. unfold byId in Hfind. cbn in Hfind.
  set (r1 := set_checkedIn (now env) r).
  set (r2 := set_paymentStatus "paid" r1).
  set (r3 := Reservation.set_status "checked_out" (Some (now env')) r2).
  assert (Hin : checkIn env id db
                = (ok 200 "Guest checked in successfully",
                   set_reservations
                     (replaceBy Reservation._id r1 (reservations db)) db)
                /\ Reservation.validate r1 = []).
  { revert Hok. unfold checkIn, tryCatch. run_query. rewrite Hfind.
    destruct (Reservation.reservationStatus r =? "confirmed")%string; cbn;
      [|discriminate].
    run_query. fold r1.
    destruct (Reservation.validate r1); cbn; [|discriminate].
    now split. }
  destruct Hin as [Hin Hvalid1].
  assert (Hdb1 : db1 = set_reservations
                         (replaceBy Reservation._id r1 (reservations db)) db).
  { subst db1. now rewrite Hin. }
  assert (Hfound1 : byId id db1 = Some r1).
  { apply (byId_saved id db db1 r r1 Hfound); [reflexivity|now rewrite Hdb1]. }
  assert (Hrooms1 : rooms db1 = rooms db) by now rewrite Hdb1.
  clearbody db1. clear Hdb1 Hin.
  assert (Hvalid2 : Reservation.validate r2 = []).
  { apply (validate_statuses r1); try reflexivity; try assumption;
      cbn; tauto. }
  assert (Hpay : updatePaymentStatus id "paid" db1
                 = (ok 200 "Payment status updated successfully",
                    set_reservations
                      (replaceBy Reservation._id r2 (reservations db1)) db1)).
  { pose proof Hfound1 as Hfind1. unfold byId in Hfind1. cbn in Hfind1.
    unfold updatePaymentStatus, tryCatch. eval_includes. cbn. run_query.
    rewrite Hfind1. cbn. run_query. fold r2. now rewrite Hvalid2. }
  assert (Hdb2 : db2 = set_reservations
                         (replaceBy Reservation._id r2 (reservations db1))
                         db1).
  { subst db2. now rewrite Hpay. }
  assert (Hfound2 : byId id db2 = Some r2).
  { apply (byId_saved id db1 db2 r1 r2 Hfound1); [reflexivity|].
    now rewrite Hdb2. }
  assert (Hrooms2 : rooms db2 = rooms db).
  { rewrite Hdb2. cbn. exact Hrooms1. }
  split; [now rewrite Hpay|].
  clearbody db2. clear Hdb2 Hpay.
  assert (Hvalid3 : Reservation.validate r3 = []).
  { apply (validate_statuses r2); try reflexivity; try assumption;
      cbn; tauto. }
  pose proof Hfound2 as Hfind2. unfold byId in Hfind2. cbn in Hfind2.
  remember (checkOut env' id db2) as res eqn:Hres. revert Hres.
  unfold checkOut, tryCatch. run_query. rewrite Hfind2. cbn.
  run_query. fold r3. rewrite Hvalid3. cbn. run_query. rewrite Hrooms2.
  unfold roomOf in Hroom |- *.
  change (Reservation.roomNumber r2) with (Reservation.roomNumber r).
  destruct (List.find _ (rooms db)) as [room|] eqn:Hfindroom; cbn.
  - run_query. rewrite (validate_set_cleaning room (Hroom room eq_refl)).
    cbn. intros ->. cbn. split; [reflexivity|]. split.
    + apply (byId_saved id db2 _ r2 r3 Hfound2); reflexivity.
    + intros room' [= <-]. rewrite Hrooms2.
      eapply find_replaceBy; [exact Hfindroom|reflexivity|].
      cbn. now apply find_some in Hfindroom as [_ Hn].
  - intros ->. cbn. split; [reflexivity|]. split.
    + apply (byId_saved id db2 _ r2 r3 Hfound2); reflexivity.
    + intros room' [=].
Qed.

(** The confirmed guest of room 101 checks in, pays and checks out. *)
Lemma stay_runs_its_course_witness :
  fst (updatePaymentStatus 70 "paid"
         (snd (checkIn Sample.env 70 Sample.hotelDb)))
  = ok 200 "Payment status updated successfully"
  /\ fst (checkOut Sample.env 70
            (snd (updatePaymentStatus 70 "paid"
                    (snd (checkIn Sample.env 70 Sample.hotelDb)))))
     = ok 200 "Guest checked out successfully"
  /\ byId 70
       (snd (checkOut Sample.env 70
               (snd (updatePaymentStatus 70 "paid"
                       (snd (checkIn Sample.env 70 Sample.hotelDb))))))
     = Some (Reservation.set_status "checked_out" (Some (now Sample.env))
               (set_paymentStatus "paid"
                  (set_checkedIn (now Sample.env)
                     (Sample.stay 70 "101" "confirmed" "pending"))))
  /\ (forall room,
        roomOf "101" Sample.hotelDb = Some room ->
        roomOf "101"
          (snd (checkOut Sample.env 70
                  (snd (updatePaymentStatus 70 "paid"
                          (snd (checkIn Sample.env 70 Sample.hotelDb))))))
        = Some (Room.set_status "cleaning" room)).
Proof.
  apply (stay_runs_its_course Sample.env Sample.env 70%nat Sample.hotelDb
           (Sample.stay 70 "101" "confirmed" "pending")).
  - reflexivity.
  - reflexivity.
  - intros room Hroom. vm_compute in Hroom. injection Hroom as <-.
    reflexivity.
Defined.
End HotelStays.

Module ServiceCatalogue.
Import ServiceController.





End ServiceCatalogue.

Module Defaults.
Import TimeSlotController.

(** X21.  An initialization of the time slots that is answered 200 leaves
    each of the five default slots stored with capacity 50 and with the
    counter written in the defaults table, whatever was booked in it. *)
Theorem initializeTimeSlots_resets_counters (db : Db) (d : SlotData) :
  uniqueIds (A := TimeSlot.t) db ->
  status (fst (initializeTimeSlots db)) = 200 ->
  In d defaultSlots ->
  exists slot,
    slotOf (d_value d) (snd (initializeTimeSlots db)) = Some slot
    /\ TimeSlot.maxCapacity slot = 50
    /\ TimeSlot.currentBookings slot = d_currentBookings d.
Proof.
  intros Hinv Hok Hin.
  remember (initializeTimeSlots db) as res eqn:Hres. revert Hres Hok.
  unfold initializeTimeSlots, tryCatch, bind.
  destruct (initializeAll defaultSlots [] db) as [o db'] eqn:Hrun.
  destruct o as [r|e|results]; cbn; intros ->; cbn;
    [intros _|discriminate|intros _].
  - exfalso.
    destruct (loop_idempotent initializeSlot initializeAll d_value
                (uniqueIds (A := TimeSlot.t)) settledSlot
                (fun rs db => eq_refl) (fun d ds rs db => eq_refl)
                InitializeProps.initializeSlot_settled
                InitializeProps.initializeSlot_result
                defaultSlots [] db (Sent r) db' Hinv) as (_ & _ & Hagain).
    + cbv [List.map defaultSlots d_value].
      repeat (constructor; [cbn; intuition discriminate|]). constructor.
    + exact Hrun.
    + destruct (Hagain []) as (o' & _ & Hkind). exact Hkind.
  - assert (Hsettled : settledSlot d db').
    { apply (loop_settles initializeSlot initializeAll d_value
               (uniqueIds (A := TimeSlot.t)) settledSlot
               (fun rs db => eq_refl) (fun d ds rs db => eq_refl)
               InitializeProps.initializeSlot_settled
               InitializeProps.initializeSlot_result
               defaultSlots [] db results db' Hinv);
        [|exact Hrun|exact Hin].
      cbv [List.map defaultSlots d_value].
      repeat (constructor; [cbn; intuition discriminate|]). constructor. }
    destruct Hsettled as (slot & Hslot & Hmax & Hcur & _).
    exists slot. split; [exact Hslot|]. split; [|exact Hcur].
    rewrite Hmax.
    repeat (destruct Hin as [<- | Hin]; [reflexivity|]). contradiction.
Qed.

(** The morning slot, with 40 persons booked, is back at 12. *)
Lemma initializeTimeSlots_resets_counters_witness :
  exists slot,
    slotOf "06:00-09:00" (snd (initializeTimeSlots Sample.poolDb))
    = Some slot
    /\ TimeSlot.maxCapacity slot = 50
    /\ TimeSlot.currentBookings slot = 12.
Proof.
  apply (initializeTimeSlots_resets_counters Sample.poolDb
           (mkSlotData "1" "06:00 AM - 09:00 AM" "06:00-09:00" "06:00"
              "09:00" 50 12)).
  - split.
    + repeat constructor. intros [].
    + repeat constructor.
  - reflexivity.
  - left. reflexivity.
Defined.
End Defaults.

Module HallEdits.
Import ConferenceController.

(** X22.  An edit of a conference booking is not checked against the other
    bookings: the answer depends on the stored booking and the body alone,
    and an edit answered 200 stores the hall and the dates of the body as
    they are given, leaving the booking status as it was. *)
Theorem updateBooking_ignores_other_bookings
  (env : Env) (id : ObjectId) (body : UpdateBody) (db db' : Db)
  (b : Conference.t) :
  byId id db = Some b ->
  byId id db' = Some b ->
  fst (updateBooking env id body db) = fst (updateBooking env id body db')
  /\ (status (fst (updateBooking env id body db)) = 200 ->
      exists stored,
        byId id (snd (updateBooking env id body db)) = Some stored
        /\ Conference.hallType stored
           = assigned (u_hallType body) (Conference.hallType b)
        /\ Conference.startDate stored
           = assigned (u_startDate body) (Conference.startDate b)
        /\ Conference.endDate stored
           = assigned (u_endDate body) (Conference.endDate b)
        /\ Conference.bookingStatus stored = Conference.bookingStatus b).
Proof.
  intros Hfound Hfound'.
  pose proof Hfound as Hfind. unfold byId in Hfind. cbn in Hfind.
  pose proof Hfound' as Hfind'. unfold byId in Hfind'. cbn in Hfind'.
  split.
  - unfold updateBooking, tryCatch. run_query. rewrite Hfind.
    run_query. rewrite Hfind'.
    destruct (u_advancePaid body); cbn;
      (destruct ((u_bookingStatus body =? "approved")%string
                 && negb (Conference.bookingStatus b =? "approved")%string
                 && noInvoice (Conference.invoiceNumber b)); cbn);
      run_query; run_query;
      (destruct (Conference.validate _); reflexivity).
  - remember (updateBooking env id body db) as res eqn:Hres.
    revert Hres. unfold updateBooking, tryCatch. run_query. rewrite Hfind.
    destruct (u_advancePaid body); cbn;
      (destruct ((u_bookingStatus body =? "approved")%string
                 && negb (Conference.bookingStatus b =? "approved")%string
                 && noInvoice (Conference.invoiceNumber b)); cbn);
      run_query;
      (destruct (Conference.validate _); cbn; [|now intros ->]);
      intros -> _; saved_doc Hfound; cbn; repeat split.
Qed.

(** The pending rival of the confirmed summit is moved onto the very days
    of the summit. *)
Lemma updateBooking_ignores_other_bookings_witness :
  fst (updateBooking Sample.env 51
         (mkUpdateBody None None None None None None (Some Sample.someDay)
            (Some (Sample.someDay + 2 * dayMs)) None None None None None None
            None None None None "")
         Sample.rivalDb)
  = ok 200 "Booking updated successfully"
  /\ exists stored,
       byId 51
         (snd (updateBooking Sample.env 51
                 (mkUpdateBody None None None None None None
                    (Some Sample.someDay)
                    (Some (Sample.someDay + 2 * dayMs)) None None None None
                    None None None None None None "")
                 Sample.rivalDb)) = Some stored
       /\ Conference.hallType stored = "hall_a"
       /\ Conference.startDate stored = Sample.someDay
       /\ Conference.endDate stored = Sample.someDay + 2 * dayMs
       /\ Conference.bookingStatus stored = "pending".
Proof.
  split; [reflexivity|].
  apply (proj2 (updateBooking_ignores_other_bookings Sample.env 51%nat
                  (mkUpdateBody None None None None None None
                     (Some Sample.someDay)
                     (Some (Sample.someDay + 2 * dayMs)) None None None None
                     None None None None None None "")
                  Sample.rivalDb Sample.rivalDb Sample.rival eq_refl
                  eq_refl)).
  reflexivity.
Defined.

(** X23.  A payment update never frees the hall: when it is answered 200
    the booking has the payment status of the request (and its advance, if
    one is given), while its booking status, hall, dates and invoice number
    are as before, also for the payment statuses [cancelled] and
    [refunded]; any other payment status is refused and nothing is
    written. *)
Theorem updatePaymentStatus_keeps_the_hall
  (id : ObjectId) (paymentStatus : string) (advancePaid : option Z)
  (db : Db) (b : Conference.t) :
  byId id db = Some b ->
  (~ In paymentStatus Conference.paymentStatuses ->
   updatePaymentStatus id paymentStatus advancePaid db
   = (fail 400 "Invalid payment status", db))
  /\ (status (fst (updatePaymentStatus id paymentStatus advancePaid db))
      = 200 ->
      exists stored,
        byId id (snd (updatePaymentStatus id paymentStatus advancePaid db))
        = Some stored
        /\ Conference.paymentStatus stored = paymentStatus
        /\ Conference.advancePaid stored
           = assigned advancePaid (Conference.advancePaid b)
        /\ Conference.bookingStatus stored = Conference.bookingStatus b
        /\ Conference.hallType stored = Conference.hallType b
        /\ Conference.startDate stored = Conference.startDate b
        /\ Conference.endDate stored = Conference.endDate b
        /\ Conference.invoiceNumber stored = Conference.invoiceNumber b).
Proof.
  intros Hfound.
  pose proof Hfound as Hfind. unfold byId in Hfind. cbn in Hfind.
  split.
  - intros Hnot. unfold updatePaymentStatus, tryCatch.
    destruct (includes Conference.paymentStatuses paymentStatus) eqn:Hin.
    + apply includes_In in Hin. contradiction.
    + now rewrite orb_true_r.
  - remember (updatePaymentStatus id paymentStatus advancePaid db) as res
      eqn:Hres.
    revert Hres. unfold updatePaymentStatus, tryCatch.
    destruct (negb (truthy paymentStatus) || negb (includes _ paymentStatus));
      cbn; [now intros ->|].
    run_query. rewrite Hfind.
    destruct advancePaid; cbn; run_query;
      (destruct (Conference.validate _); cbn; [|now intros ->]);
      intros -> _; saved_doc Hfound; cbn; repeat split.
Qed.

(** The payment of the pending summit is refunded; [waived] is not a
    payment status. *)
Lemma updatePaymentStatus_keeps_the_hall_witness :
  updatePaymentStatus 50 "waived" None Sample.conferenceDb
  = (fail 400 "Invalid payment status", Sample.conferenceDb)
  /\ exists stored,
       byId 50
         (snd (updatePaymentStatus 50 "refunded" None Sample.conferenceDb))
       = Some stored
       /\ Conference.paymentStatus stored = "refunded"
       /\ Conference.advancePaid stored = 0
       /\ Conference.bookingStatus stored = "pending"
       /\ Conference.hallType stored = "hall_a"
       /\ Conference.startDate stored = Sample.someDay
       /\ Conference.endDate stored = Sample.someDay + 2 * dayMs
       /\ Conference.invoiceNumber stored = None.
Proof.
  split.
  - apply (proj1 (updatePaymentStatus_keeps_the_hall 50%nat "waived" None
                    Sample.conferenceDb Sample.summit eq_refl)).
    cbn. intuition discriminate.
  - apply (proj2 (updatePaymentStatus_keeps_the_hall 50%nat "refunded" None
                    Sample.conferenceDb Sample.summit eq_refl)).
    reflexivity.
Defined.
End HallEdits.
